(** * BudgetAI backend: budget consumption and analytics aggregation

    A shallow embedding of the read-side aggregations and of the budget /
    transaction write handlers of [backend/server.py], together with the
    properties stated about them.

    Modelling conventions.
    - Strings are [String.string] (sequences of 8-bit characters); string
      comparison, as performed by the document store for [$gte]/[$lte] and by
      Python for [sorted], is character-wise lexicographic.
    - Amounts ([float] in the source, "decimal" in the specification) are
      idealised as exact rationals [Q]; rounding is not modelled.
    - A collection is the list of its documents in natural (insertion) order.
      The store leaves open the order in which [$group] emits its groups and
      in which [$sort] leaves documents with equal keys; the model emits
      groups in order of first occurrence and sorts stably, and the
      statements below are phrased so as not to depend on that choice.
    - The [type] field, documented in the source as ['income' or 'expense'],
      is a two-constructor inductive type.
    - Handlers run in a small state-and-exception monad over the store. *)

From Stdlib Require Import List String Ascii Bool Arith PeanoNat ZArith QArith.
From Stdlib Require Import Lia Lqa Sorted Permutation.
Import ListNotations.

Local Open Scope string_scope.
Local Open Scope Q_scope.

(* ================================================================== *)
(** * Data model *)
(* ================================================================== *)

Inductive tx_type : Type := income | expense.

Definition tx_type_eqb (a b : tx_type) : bool :=
  match a, b with
  | income, income | expense, expense => true
  | _, _ => false
  end.

(** A document of [db.transactions] (see [create_transaction]). *)
Record Transaction : Type := mkTransaction {
  t_id : string;
  t_user_id : string;
  t_type : tx_type;
  t_amount : Q;
  t_category : string;
  t_description : option string;
  t_date : string;
  t_notes : option string;
  t_created_at : string
}.

(** A document of [db.budgets] (see [create_budget]). *)
Record Budget : Type := mkBudget {
  b_id : string;
  b_user_id : string;
  b_category : string;
  b_amount : Q;
  b_month : string
}.

(** [BudgetResponse]: a budget together with its derived [spent]. *)
Record BudgetResponse : Type := mkBudgetResponse {
  br_budget : Budget;
  br_spent : Q
}.

(** The part of the database the handlers below touch. *)
Record Store : Type := mkStore {
  transactions : list Transaction;
  budgets : list Budget
}.

(** Request bodies with optional fields. *)
Record TransactionUpdate : Type := mkTransactionUpdate {
  tu_type : option tx_type;
  tu_amount : option Q;
  tu_category : option string;
  tu_description : option string;
  tu_date : option string;
  tu_notes : option string
}.

Record BudgetCreate : Type := mkBudgetCreate {
  bc_category : string;
  bc_amount : Q;
  bc_month : string
}.

Record BudgetUpdate : Type := mkBudgetUpdate {
  bu_amount : option Q;
  bu_month : option string
}.

(* ================================================================== *)
(** * Strings: lexicographic order and the store's regular expressions *)
(* ================================================================== *)

(** Character-wise lexicographic [<=] on strings. *)
Fixpoint str_leb (a b : string) : bool :=
  match a, b with
  | EmptyString, _ => true
  | String _ _, EmptyString => false
  | String x a', String y b' =>
      if (nat_of_ascii x <? nat_of_ascii y)%nat then true
      else if (nat_of_ascii x =? nat_of_ascii y)%nat then str_leb a' b'
      else false
  end.

(** The same order as a relation, for statements. *)
Inductive lex_le : string -> string -> Prop :=
| lex_le_nil : forall b, lex_le EmptyString b
| lex_le_lt : forall x y a b,
    (nat_of_ascii x < nat_of_ascii y)%nat -> lex_le (String x a) (String y b)
| lex_le_eq : forall x a b, lex_le a b -> lex_le (String x a) (String x b).

(** Characters with a special meaning in a regular expression, and the NUL
    character, which a pattern cannot hold. *)
Definition regex_meta (c : ascii) : bool :=
  existsb (Ascii.eqb c)
    (list_ascii_of_string "\^$.[]|()?*+{}")
  || Ascii.eqb c zero.

(** The fragment of regular expressions that is modelled: a sequence of
    literal characters and [.] wildcards. *)
Inductive re_item : Type :=
| ReLit (c : ascii)
| ReAny.

Fixpoint regex_items (p : string) : option (list re_item) :=
  match p with
  | EmptyString => Some []
  | String c p' =>
      if Ascii.eqb c "." then option_map (cons ReAny) (regex_items p')
      else if regex_meta c then None
      else option_map (cons (ReLit c)) (regex_items p')
  end.

(** A compiled pattern: whether it is anchored by a leading [^], and its
    items.  [None] stands for a pattern outside the modelled fragment. *)
Definition regex_compile (p : string) : option (bool * list re_item) :=
  match p with
  | String "^" p' => option_map (pair true) (regex_items p')
  | _ => option_map (pair false) (regex_items p)
  end.

Definition newline : ascii := "010"%char.

Fixpoint match_here (r : list re_item) (s : string) : bool :=
  match r, s with
  | [], _ => true
  | _ :: _, EmptyString => false
  | ReLit c :: r', String d s' => Ascii.eqb c d && match_here r' s'
  | ReAny :: r', String d s' => negb (Ascii.eqb d newline) && match_here r' s'
  end.

Fixpoint match_anywhere (r : list re_item) (s : string) : bool :=
  match_here r s ||
  match s with
  | EmptyString => false
  | String _ s' => match_anywhere r s'
  end.

Definition regex_exec (re : bool * list re_item) (s : string) : bool :=
  if fst re then match_here (snd re) s else match_anywhere (snd re) s.

(** A month string none of whose characters is a metacharacter; every
    well-formed ["YYYY-MM"] is one. *)
Fixpoint literal_string (m : string) : bool :=
  match m with
  | EmptyString => true
  | String c m' => negb (regex_meta c) && literal_string m'
  end.

(** First seven characters of a date: [$substr: ['$date', 0, 7]]. *)
Definition month_of (date : string) : string := substring 0 7 date.

(* ================================================================== *)
(** * Generic list machinery used by the pipelines *)
(* ================================================================== *)

(** [$sum] accumulator over [amount], in document order. *)
Definition sum_amounts (docs : list Transaction) : Q :=
  fold_left Qplus (map t_amount docs) 0.

Definition sum_budgets (docs : list Budget) : Q :=
  fold_left Qplus (map b_amount docs) 0.

(** Stable insertion sort; [le a b] means [a] may stand before [b]. *)
Fixpoint insert_by {A : Type} (le : A -> A -> bool) (x : A) (l : list A) : list A :=
  match l with
  | [] => [x]
  | y :: l' => if le x y then x :: y :: l' else y :: insert_by le x l'
  end.

Fixpoint sort_by {A : Type} (le : A -> A -> bool) (l : list A) : list A :=
  match l with
  | [] => []
  | x :: l' => insert_by le x (sort_by le l')
  end.

(** Distinct keys of a list, in order of first occurrence. *)
Fixpoint distinct {K : Type} (eqb : K -> K -> bool) (l : list K) : list K :=
  match l with
  | [] => []
  | k :: l' => k :: filter (fun k' => negb (eqb k' k)) (distinct eqb l')
  end.

(** [$group] with a [$sum] of [amount]: one output document per distinct key. *)
Definition group_sum {K : Type} (eqb : K -> K -> bool)
    (key : Transaction -> K) (docs : list Transaction) : list (K * Q) :=
  map (fun k => (k, sum_amounts (filter (fun t => eqb (key t) k) docs)))
      (distinct eqb (map key docs)).

(** [$group] with [_id: None]: a single document, and none for no input. *)
Definition group_all_sum {A : Type} (amount : A -> Q) (docs : list A) : list Q :=
  match docs with
  | [] => []
  | _ :: _ => [fold_left Qplus (map amount docs) 0]
  end.

(** [result[0]['total'] if result else 0] *)
Definition total_or_zero (result : list Q) : Q :=
  match result with
  | [] => 0
  | total :: _ => total
  end.

(* ================================================================== *)
(** * The handler monad *)
(* ================================================================== *)

(** Outcome of a handler: a value, a raised [HTTPException], or [Unmodelled]
    when a regular expression handed to the store lies outside the modelled
    fragment (the store may reject it or give it a richer meaning). *)
Inductive result (A : Type) : Type :=
| Ok (a : A)
| HTTPException (status_code : nat) (detail : string)
| Unmodelled.

Arguments Ok {A} a.
Arguments HTTPException {A} status_code detail.
Arguments Unmodelled {A}.

Definition M (A : Type) : Type := Store -> result A * Store.

Definition ret {A : Type} (a : A) : M A := fun s => (Ok a, s).

Definition bind {A B : Type} (m : M A) (k : A -> M B) : M B :=
  fun s =>
    match m s with
    | (Ok a, s') => k a s'
    | (HTTPException c d, s') => (HTTPException c d, s')
    | (Unmodelled, s') => (Unmodelled, s')
    end.

Definition raise {A : Type} (status_code : nat) (detail : string) : M A :=
  fun s => (HTTPException status_code detail, s).

Definition result_map {A B : Type} (f : A -> B) (r : result A) : result B :=
  match r with
  | Ok a => Ok (f a)
  | HTTPException c d => HTTPException c d
  | Unmodelled => Unmodelled
  end.

Declare Scope handler_scope.
Delimit Scope handler_scope with handler.
Notation "x <- m ;; k" := (bind m (fun x => k))
  (at level 61, m at next level, right associativity) : handler_scope.
Notation "m ;;; k" := (bind m (fun _ => k))
  (at level 61, right associativity) : handler_scope.
Local Open Scope handler_scope.

(** ** Store primitives *)

(** [db.transactions.aggregate(pipeline).to_list(n)]: a read of the
    transactions collection; the pipeline is a function of the documents. *)
Definition aggregate_transactions {A : Type}
    (pipeline : list Transaction -> option (list A)) (n : nat) : M (list A) :=
  fun s =>
    match pipeline (transactions s) with
    | Some docs => (Ok (firstn n docs), s)
    | None => (Unmodelled, s)
    end.

Definition aggregate_budgets {A : Type}
    (pipeline : list Budget -> option (list A)) (n : nat) : M (list A) :=
  fun s =>
    match pipeline (budgets s) with
    | Some docs => (Ok (firstn n docs), s)
    | None => (Unmodelled, s)
    end.

(** [$match] on a [$regex] condition together with equality conditions. *)
Definition match_regex {A : Type} (pattern : string) (field : A -> string)
    (others : A -> bool) (docs : list A) : option (list A) :=
  match regex_compile pattern with
  | Some re => Some (filter (fun d => others d && regex_exec re (field d)) docs)
  | None => None
  end.

(* ================================================================== *)
(** * Budget consumption: [calculate_spent] *)
(* ================================================================== *)

Definition is_expense (t : Transaction) : bool := tx_type_eqb (t_type t) expense.
Definition is_income (t : Transaction) : bool := tx_type_eqb (t_type t) income.

Definition calculate_spent (user_id category month : string) : M Q :=
  result <- aggregate_transactions
      (fun docs =>
         option_map (group_all_sum t_amount)
           (match_regex ("^" ++ month) t_date
              (fun t => String.eqb (t_user_id t) user_id
                        && String.eqb (t_category t) category
                        && is_expense t)
              docs))
      1 ;;
  ret (total_or_zero result).

(** The filter in the words of the specification. *)
Definition spent_filter (user_id category month : string) (t : Transaction) : bool :=
  String.eqb (t_user_id t) user_id
  && is_expense t
  && String.eqb (t_category t) category
  && String.prefix month (t_date t).

Definition spec_spent (user_id category month : string)
    (ledger : list Transaction) : Q :=
  sum_amounts (filter (spent_filter user_id category month) ledger).

(* ================================================================== *)
(** * Analytics: [get_analytics] *)
(* ================================================================== *)

(** The two readings of the clock that the handlers take:
    [datetime.now(timezone.utc).strftime('%Y-%m')] and the same for
    [now - timedelta(days=180)]. *)
Record Clock : Type := mkClock {
  now_month : string;
  lookback_month : string
}.

(** [x if x else default] for an optional query parameter: both a missing
    parameter and the empty string are falsy. *)
Definition or_default (x : option string) (default : string) : string :=
  match x with
  | None => default
  | Some EmptyString => default
  | Some s => s
  end.

(** [{'$gte': lo, '$lte': hi}] on a string field. *)
Definition date_between (lo hi date : string) : bool :=
  str_leb lo date && str_leb date hi.

Definition in_range (start_month end_month : string) (t : Transaction) : bool :=
  date_between (start_month ++ "-01") (end_month ++ "-31") (t_date t).

Record CategoryAmount : Type := mkCategoryAmount {
  ca_category : string;
  ca_amount : Q
}.

Record MonthRecord : Type := mkMonthRecord {
  mr_month : string;
  mr_income : Q;
  mr_expense : Q
}.

Record Analytics : Type := mkAnalytics {
  category_breakdown : list CategoryAmount;
  monthly_trend : list MonthRecord;
  a_start_month : string;
  a_end_month : string
}.

(** [$match] stage of [category_pipeline]. *)
Definition category_match (user_id start_month end_month : string)
    (t : Transaction) : bool :=
  String.eqb (t_user_id t) user_id && is_expense t
  && in_range start_month end_month t.

(** [$match] stage of [monthly_pipeline]. *)
Definition monthly_match (user_id start_month end_month : string)
    (t : Transaction) : bool :=
  String.eqb (t_user_id t) user_id && in_range start_month end_month t.

(** [$group] stage of [category_pipeline], before sorting and truncation. *)
Definition category_groups (user_id start_month end_month : string)
    (docs : list Transaction) : list (string * Q) :=
  group_sum String.eqb t_category
    (filter (category_match user_id start_month end_month) docs).

Definition total_desc (a b : string * Q) : bool := Qle_bool (snd b) (snd a).

Definition category_pipeline (user_id start_month end_month : string)
    (docs : list Transaction) : list (string * Q) :=
  sort_by total_desc (category_groups user_id start_month end_month docs).

Definition month_type_eqb (a b : string * tx_type) : bool :=
  String.eqb (fst a) (fst b) && tx_type_eqb (snd a) (snd b).

Definition month_type_key (t : Transaction) : string * tx_type :=
  (month_of (t_date t), t_type t).

(** [$addFields] and [$group] stages of [monthly_pipeline]. *)
Definition monthly_groups (user_id start_month end_month : string)
    (docs : list Transaction) : list ((string * tx_type) * Q) :=
  group_sum month_type_eqb month_type_key
    (filter (monthly_match user_id start_month end_month) docs).

Definition month_asc (a b : (string * tx_type) * Q) : bool :=
  str_leb (fst (fst a)) (fst (fst b)).

Definition monthly_pipeline (user_id start_month end_month : string)
    (docs : list Transaction) : list ((string * tx_type) * Q) :=
  sort_by month_asc (monthly_groups user_id start_month end_month docs).

(** [months_dict]: a Python dict from month to record, in insertion order. *)
Definition months_dict_t : Type := list (string * MonthRecord).

Fixpoint dict_mem (k : string) (d : months_dict_t) : bool :=
  match d with
  | [] => false
  | (k', _) :: d' => String.eqb k' k || dict_mem k d'
  end.

Fixpoint dict_update (k : string) (f : MonthRecord -> MonthRecord)
    (d : months_dict_t) : months_dict_t :=
  match d with
  | [] => []
  | (k', r) :: d' =>
      if String.eqb k' k then (k', f r) :: d' else (k', r) :: dict_update k f d'
  end.

(** [record[type_] = total] *)
Definition set_type (type_ : tx_type) (total : Q) (r : MonthRecord) : MonthRecord :=
  match type_ with
  | income => mkMonthRecord (mr_month r) total (mr_expense r)
  | expense => mkMonthRecord (mr_month r) (mr_income r) total
  end.

(** One iteration of the loop over [monthly_data]. *)
Definition pivot_step (months_dict : months_dict_t)
    (item : (string * tx_type) * Q) : months_dict_t :=
  let month := fst (fst item) in
  let type_ := snd (fst item) in
  let months_dict :=
    if dict_mem month months_dict then months_dict
    else (months_dict ++ [(month, mkMonthRecord month 0 0)])%list in
  dict_update month (set_type type_ (snd item)) months_dict.

Definition pivot (monthly_data : list ((string * tx_type) * Q)) : months_dict_t :=
  fold_left pivot_step monthly_data [].

(** What the loop computes, in closed form: the total of a (month, type)
    group of [monthly_data], or 0 when there is no such group. *)
Definition item_month (item : (string * tx_type) * Q) : string := fst (fst item).

Definition lookup_total (monthly_data : list ((string * tx_type) * Q))
    (month : string) (type_ : tx_type) : Q :=
  match find (fun item => month_type_eqb (fst item) (month, type_)) monthly_data with
  | Some item => snd item
  | None => 0
  end.

Definition month_record (monthly_data : list ((string * tx_type) * Q))
    (month : string) : MonthRecord :=
  mkMonthRecord month (lookup_total monthly_data month income)
    (lookup_total monthly_data month expense).

(** The total of one type in one month, summed independently over a list of
    transactions. *)
Definition month_total (type_ : tx_type) (month : string)
    (docs : list Transaction) : Q :=
  sum_amounts
    (filter (fun t => String.eqb (month_of (t_date t)) month
                      && tx_type_eqb (t_type t) type_) docs).

Definition record_asc (a b : MonthRecord) : bool :=
  str_leb (mr_month a) (mr_month b).

Definition get_analytics (start_month end_month : option string)
    (user_id : string) (clock : Clock) : M Analytics :=
  let start_month := or_default start_month (lookback_month clock) in
  let end_month := or_default end_month (now_month clock) in
  category_data <- aggregate_transactions
      (fun docs => Some (category_pipeline user_id start_month end_month docs)) 20 ;;
  monthly_data <- aggregate_transactions
      (fun docs => Some (monthly_pipeline user_id start_month end_month docs)) 100 ;;
  let months_dict := pivot monthly_data in
  let monthly_trend := sort_by record_asc (map snd months_dict) in
  ret (mkAnalytics
         (map (fun c => mkCategoryAmount (fst c) (snd c)) category_data)
         monthly_trend start_month end_month).

(* ================================================================== *)
(** * Dashboard summary: [get_dashboard] *)
(* ================================================================== *)

Record Dashboard : Type := mkDashboard {
  total_income : Q;
  total_expenses : Q;
  balance : Q;
  total_budget : Q;
  remaining_budget : Q;
  budget_used_percent : Q;
  recent_transactions : list Transaction;
  d_month : string
}.

(** [find(query).sort('date', -1).limit(5).to_list(5)] *)
Definition find_transactions_sorted (query : Transaction -> bool)
    (le : Transaction -> Transaction -> bool) (limit : nat) : M (list Transaction) :=
  fun s => (Ok (firstn limit (sort_by le (filter query (transactions s)))), s).

Definition date_desc (a b : Transaction) : bool := str_leb (t_date b) (t_date a).

Definition get_dashboard (month : option string) (user_id : string)
    (clock : Clock) : M Dashboard :=
  let month := or_default month (now_month clock) in
  income_result <- aggregate_transactions
      (fun docs =>
         option_map (group_all_sum t_amount)
           (match_regex ("^" ++ month) t_date
              (fun t => String.eqb (t_user_id t) user_id && is_income t) docs)) 1 ;;
  expense_result <- aggregate_transactions
      (fun docs =>
         option_map (group_all_sum t_amount)
           (match_regex ("^" ++ month) t_date
              (fun t => String.eqb (t_user_id t) user_id && is_expense t) docs)) 1 ;;
  let total_income := total_or_zero income_result in
  let total_expenses := total_or_zero expense_result in
  budget_result <- aggregate_budgets
      (fun docs =>
         Some (group_all_sum b_amount
                 (filter (fun b => String.eqb (b_user_id b) user_id
                                   && String.eqb (b_month b) month) docs))) 1 ;;
  let total_budget := total_or_zero budget_result in
  recent <- find_transactions_sorted
      (fun t => String.eqb (t_user_id t) user_id) date_desc 5 ;;
  ret (mkDashboard total_income total_expenses
         (total_income - total_expenses)
         total_budget
         (if Qlt_le_dec 0 total_budget then total_budget - total_expenses else 0)
         (if Qlt_le_dec 0 total_budget
          then total_expenses / total_budget * 100 else 0)
         recent month).

(* ================================================================== *)
(** * Budget and transaction writes *)
(* ================================================================== *)

Definition find_one_budget (query : Budget -> bool) : M (option Budget) :=
  fun s => (Ok (find query (budgets s)), s).

Definition find_one_transaction (query : Transaction -> bool)
  : M (option Transaction) :=
  fun s => (Ok (find query (transactions s)), s).

Definition insert_one_budget (b : Budget) : M unit :=
  fun s => (Ok tt, mkStore (transactions s) (budgets s ++ [b])%list).

(** [update_one]: rewrite the first matching document; the number of matched
    documents (0 or 1) is returned with the new collection. *)
Fixpoint update_first {A : Type} (query : A -> bool) (set : A -> A)
    (docs : list A) : nat * list A :=
  match docs with
  | [] => (0%nat, [])
  | d :: docs' =>
      if query d then (1%nat, set d :: docs')
      else let r := update_first query set docs' in (fst r, d :: snd r)
  end.

Fixpoint delete_first {A : Type} (query : A -> bool) (docs : list A)
  : nat * list A :=
  match docs with
  | [] => (0%nat, [])
  | d :: docs' =>
      if query d then (1%nat, docs')
      else let r := delete_first query docs' in (fst r, d :: snd r)
  end.

Definition update_one_budget (query : Budget -> bool) (set : Budget -> Budget)
  : M nat :=
  fun s =>
    let r := update_first query set (budgets s) in
    (Ok (fst r), mkStore (transactions s) (snd r)).

Definition update_one_transaction (query : Transaction -> bool)
    (set : Transaction -> Transaction) : M nat :=
  fun s =>
    let r := update_first query set (transactions s) in
    (Ok (fst r), mkStore (snd r) (budgets s)).

Definition delete_one_budget (query : Budget -> bool) : M nat :=
  fun s =>
    let r := delete_first query (budgets s) in
    (Ok (fst r), mkStore (transactions s) (snd r)).

(** Looking a key up in [None]: Python raises [TypeError], which the
    framework turns into a 500 response. *)
Definition internal_error {A : Type} : M A := raise 500 "Internal Server Error".

Definition create_budget (data : BudgetCreate) (user_id : string)
    (uuid : string) : M BudgetResponse :=
  existing <- find_one_budget
      (fun b => String.eqb (b_user_id b) user_id
                && String.eqb (b_category b) (bc_category data)
                && String.eqb (b_month b) (bc_month data)) ;;
  match existing with
  | Some _ => raise 400 "Budget already exists for this category/month"
  | None =>
      let budget := mkBudget uuid user_id (bc_category data)
                      (bc_amount data) (bc_month data) in
      insert_one_budget budget ;;;
      ret (mkBudgetResponse budget 0)
  end.

(** [update_data]: the fields of the body that are not [None]. *)
Inductive budget_field : Type :=
| BF_amount (v : Q)
| BF_month (v : string).

Definition field_list {A F : Type} (inj : A -> F) (v : option A) : list F :=
  match v with
  | Some a => [inj a]
  | None => []
  end.

Definition budget_update_data (data : BudgetUpdate) : list budget_field :=
  (field_list BF_amount (bu_amount data)
   ++ field_list BF_month (bu_month data))%list.

Definition set_budget_field (b : Budget) (f : budget_field) : Budget :=
  match f with
  | BF_amount v => mkBudget (b_id b) (b_user_id b) (b_category b) v (b_month b)
  | BF_month v => mkBudget (b_id b) (b_user_id b) (b_category b) (b_amount b) v
  end.

Definition update_budget (budget_id : string) (data : BudgetUpdate)
    (user_id : string) : M BudgetResponse :=
  let update_data := budget_update_data data in
  match update_data with
  | [] => raise 400 "No data to update"
  | _ :: _ =>
      matched_count <- update_one_budget
          (fun b => String.eqb (b_id b) budget_id
                    && String.eqb (b_user_id b) user_id)
          (fun b => fold_left set_budget_field update_data b) ;;
      if (matched_count =? 0)%nat then raise 404 "Budget not found"
      else
        budget <- find_one_budget (fun b => String.eqb (b_id b) budget_id) ;;
        match budget with
        | None => internal_error
        | Some budget =>
            spent <- calculate_spent user_id (b_category budget) (b_month budget) ;;
            ret (mkBudgetResponse budget spent)
        end
  end.

Definition delete_budget (budget_id : string) (user_id : string) : M string :=
  deleted_count <- delete_one_budget
      (fun b => String.eqb (b_id b) budget_id
                && String.eqb (b_user_id b) user_id) ;;
  if (deleted_count =? 0)%nat then raise 404 "Budget not found"
  else ret "Budget deleted".

Inductive transaction_field : Type :=
| TF_type (v : tx_type)
| TF_amount (v : Q)
| TF_category (v : string)
| TF_description (v : string)
| TF_date (v : string)
| TF_notes (v : string).

Definition transaction_update_data (data : TransactionUpdate)
  : list transaction_field :=
  (field_list TF_type (tu_type data) ++ field_list TF_amount (tu_amount data)
   ++ field_list TF_category (tu_category data)
   ++ field_list TF_description (tu_description data)
   ++ field_list TF_date (tu_date data)
   ++ field_list TF_notes (tu_notes data))%list.

Definition set_transaction_field (t : Transaction) (f : transaction_field)
  : Transaction :=
  match f with
  | TF_type v =>
      mkTransaction (t_id t) (t_user_id t) v (t_amount t) (t_category t)
        (t_description t) (t_date t) (t_notes t) (t_created_at t)
  | TF_amount v =>
      mkTransaction (t_id t) (t_user_id t) (t_type t) v (t_category t)
        (t_description t) (t_date t) (t_notes t) (t_created_at t)
  | TF_category v =>
      mkTransaction (t_id t) (t_user_id t) (t_type t) (t_amount t) v
        (t_description t) (t_date t) (t_notes t) (t_created_at t)
  | TF_description v =>
      mkTransaction (t_id t) (t_user_id t) (t_type t) (t_amount t) (t_category t)
        (Some v) (t_date t) (t_notes t) (t_created_at t)
  | TF_date v =>
      mkTransaction (t_id t) (t_user_id t) (t_type t) (t_amount t) (t_category t)
        (t_description t) v (t_notes t) (t_created_at t)
  | TF_notes v =>
      mkTransaction (t_id t) (t_user_id t) (t_type t) (t_amount t) (t_category t)
        (t_description t) (t_date t) (Some v) (t_created_at t)
  end.

Definition update_transaction (transaction_id : string)
    (data : TransactionUpdate) (user_id : string) : M Transaction :=
  let update_data := transaction_update_data data in
  match update_data with
  | [] => raise 400 "No data to update"
  | _ :: _ =>
      matched_count <- update_one_transaction
          (fun t => String.eqb (t_id t) transaction_id
                    && String.eqb (t_user_id t) user_id)
          (fun t => fold_left set_transaction_field update_data t) ;;
      if (matched_count =? 0)%nat then raise 404 "Transaction not found"
      else
        transaction <- find_one_transaction
            (fun t => String.eqb (t_id t) transaction_id) ;;
        match transaction with
        | None => internal_error
        | Some transaction => ret transaction
        end
  end.

(* ================================================================== *)
(** * Records of one user *)
(* ================================================================== *)

Definition owned_tx (user_id : string) (t : Transaction) : bool :=
  String.eqb (t_user_id t) user_id.

Definition owned_budget (user_id : string) (b : Budget) : bool :=
  String.eqb (b_user_id b) user_id.

(* ================================================================== *)
(** * Uniqueness of budgets and reachable stores *)
(* ================================================================== *)

Definition budget_key (b : Budget) : string * string * string :=
  (b_user_id b, b_category b, b_month b).

(** At most one budget per (user_id, category, month). *)
Definition unique_budgets (s : Store) : Prop :=
  NoDup (map budget_key (budgets s)).

(** One request that writes to the budgets, run to completion. *)
Inductive budget_request : Store -> Store -> Prop :=
| request_create : forall data user_id uuid s,
    budget_request s (snd (create_budget data user_id uuid s))
| request_update : forall budget_id data user_id s,
    budget_request s (snd (update_budget budget_id data user_id s))
| request_delete : forall budget_id user_id s,
    budget_request s (snd (delete_budget budget_id user_id s)).

(** The requests that leave the month of every budget alone. *)
Inductive month_keeping_request : Store -> Store -> Prop :=
| keeping_create : forall data user_id uuid s,
    month_keeping_request s (snd (create_budget data user_id uuid s))
| keeping_update : forall budget_id amount user_id s,
    month_keeping_request s
      (snd (update_budget budget_id (mkBudgetUpdate amount None) user_id s))
| keeping_delete : forall budget_id user_id s,
    month_keeping_request s (snd (delete_budget budget_id user_id s)).

(** Stores reached from an empty budget collection by requests run one after
    the other. *)
Inductive reachable : Store -> Prop :=
| reachable_empty : forall txs, reachable (mkStore txs [])
| reachable_request : forall s s',
    reachable s -> budget_request s s' -> reachable s'.

(* ================================================================== *)
(** * Concrete stores used in the examples below *)
(* ================================================================== *)

Definition tx (id user_id : string) (type_ : tx_type) (amount : Q)
    (category date : string) : Transaction :=
  mkTransaction id user_id type_ amount category None date None
    "2024-01-01T00:00:00+00:00".

(** The ledger of the specification's scenario. *)
Definition scenario_ledger : list Transaction :=
  [ tx "t1" "user" expense 100 "Food" "2024-03-05";
    tx "t2" "user" expense 50 "Food" "2024-03-20";
    tx "t3" "user" income 3000 "Salary" "2024-03-01" ].

Definition scenario_store : Store := mkStore scenario_ledger [].

Definition march_store : Store :=
  mkStore [tx "t1" "user" expense 100 "Food" "2024-03-05"] [].

Definition november_store : Store :=
  mkStore [tx "t1" "user" expense 40 "Food" "2024-11-02"] [].

(** Ten years of monthly salary entries: 120 months of activity. *)
Definition decade_ledger : list Transaction :=
  flat_map
    (fun year =>
       map (fun month =>
              tx "t" "user" income 1 "Salary" (year ++ "-" ++ month ++ "-15"))
         ["01"; "02"; "03"; "04"; "05"; "06"; "07"; "08"; "09"; "10"; "11"; "12"])
    ["2010"; "2011"; "2012"; "2013"; "2014"; "2015"; "2016"; "2017"; "2018";
     "2019"].

Definition decade_store : Store := mkStore decade_ledger [].

Definition fixed_clock : Clock := mkClock "2024-11" "2024-05".


(** An expense dated on a day that February does not have. *)
Definition february_store : Store :=
  mkStore [tx "t1" "user" expense 20 "Food" "2024-02-30"] [].

(** A user with a budget of 200 for March 2024, and another user. *)
Definition budgeted_store : Store :=
  mkStore scenario_ledger [mkBudget "b1" "user" "Food" 200 "2024-03"].

Definition shared_store : Store :=
  mkStore
    (tx "o1" "other" expense 999 "Food" "2024-03-07" :: scenario_ledger
     ++ [tx "o2" "other" income 5 "Salary" "2024-03-09"])
    [mkBudget "o3" "other" "Food" 1 "2024-03";
     mkBudget "b1" "user" "Food" 200 "2024-03"].

(** Two budgets for Food, for March and April, then the second is moved to
    March. *)
Definition food_march : Budget := mkBudget "b1" "user" "Food" 100 "2024-03".
Definition food_april : Budget := mkBudget "b2" "user" "Food" 200 "2024-04".
Definition food_moved : Budget := mkBudget "b2" "user" "Food" 200 "2024-03".

Definition move_budget_requests : M BudgetResponse :=
  create_budget (mkBudgetCreate "Food" 100 "2024-03") "user" "b1" ;;;
  create_budget (mkBudgetCreate "Food" 200 "2024-04") "user" "b2" ;;;
  update_budget "b2" (mkBudgetUpdate None (Some "2024-03")) "user".

(* ================================================================== *)
(** * Transaction routes *)
(* ================================================================== *)

Record TransactionCreate : Type := mkTransactionCreate {
  tc_type : tx_type;
  tc_amount : Q;
  tc_category : string;
  tc_description : option string;
  tc_date : string;
  tc_notes : option string
}.

Definition insert_one_transaction (t : Transaction) : M unit :=
  fun s => (Ok tt, mkStore (transactions s ++ [t])%list (budgets s)).

Definition delete_one_transaction (query : Transaction -> bool) : M nat :=
  fun s =>
    let r := delete_first query (transactions s) in
    (Ok (fst r), mkStore (snd r) (budgets s)).

(** [uuid] is the [uuid4()] drawn by the request and [now] the reading of
    the clock that becomes [created_at]. *)
Definition create_transaction (data : TransactionCreate)
    (user_id uuid now : string) : M Transaction :=
  let transaction :=
    mkTransaction uuid user_id (tc_type data) (tc_amount data)
      (tc_category data) (tc_description data) (tc_date data)
      (tc_notes data) now in
  insert_one_transaction transaction ;;;
  ret transaction.

Definition get_transaction (transaction_id user_id : string) : M Transaction :=
  transaction <- find_one_transaction
      (fun t => String.eqb (t_id t) transaction_id
                && String.eqb (t_user_id t) user_id) ;;
  match transaction with
  | None => raise 404 "Transaction not found"
  | Some transaction => ret transaction
  end.

Definition delete_transaction (transaction_id user_id : string) : M string :=
  deleted_count <- delete_one_transaction
      (fun t => String.eqb (t_id t) transaction_id
                && String.eqb (t_user_id t) user_id) ;;
  if (deleted_count =? 0)%nat then raise 404 "Transaction not found"
  else ret "Transaction deleted".

(** ** Listing transactions *)

Definition type_name (type_ : tx_type) : string :=
  match type_ with
  | income => "income"
  | expense => "expense"
  end.

(** An optional query parameter that passes an [if x:] test. *)
Definition truthy (x : option string) : option string :=
  match x with
  | Some EmptyString => None
  | _ => x
  end.

(** [query[field] = x] when [x] is given: an equality condition, or none. *)
Definition field_is (x : option string) (value : string) : bool :=
  match truthy x with
  | Some v => String.eqb value v
  | None => true
  end.

(** Values a transaction field can hold, in the store's sort order: null
    before numbers before strings. *)
Inductive sort_value : Type :=
| SNull
| SNum (q : Q)
| SStr (s : string).

Definition sort_value_leb (a b : sort_value) : bool :=
  match a, b with
  | SNull, _ => true
  | SNum _, SNull => false
  | SNum x, SNum y => Qle_bool x y
  | SNum _, SStr _ => true
  | SStr x, SStr y => str_leb x y
  | SStr _, _ => false
  end.

Definition option_value (x : option string) : sort_value :=
  match x with
  | None => SNull
  | Some s => SStr s
  end.

(** The value of a named field of a transaction document; [None] for a
    name that is not one of the fields written by [create_transaction]
    (the sort is then outside the model). *)
Definition sort_field (name : string) : option (Transaction -> sort_value) :=
  if String.eqb name "date" then Some (fun t => SStr (t_date t))
  else if String.eqb name "amount" then Some (fun t => SNum (t_amount t))
  else if String.eqb name "category" then Some (fun t => SStr (t_category t))
  else if String.eqb name "type" then Some (fun t => SStr (type_name (t_type t)))
  else if String.eqb name "description"
       then Some (fun t => option_value (t_description t))
  else if String.eqb name "notes" then Some (fun t => option_value (t_notes t))
  else if String.eqb name "created_at" then Some (fun t => SStr (t_created_at t))
  else if String.eqb name "id" then Some (fun t => SStr (t_id t))
  else if String.eqb name "user_id" then Some (fun t => SStr (t_user_id t))
  else None.

(** [.sort(sort_by, sort_dir)] with [sort_dir = -1 if sort_order == 'desc'
    else 1]. *)
Definition sort_order_le (key : Transaction -> sort_value) (sort_order : string)
    (a b : Transaction) : bool :=
  if String.eqb sort_order "desc" then sort_value_leb (key b) (key a)
  else sort_value_leb (key a) (key b).

(** [find(query).sort(...).to_list(n)] with a query that may hold a regular
    expression; a case-insensitive [search] is outside the modelled
    fragment of regular expressions. *)
Definition find_sort_transactions
    (query : list Transaction -> option (list Transaction))
    (le : option (Transaction -> Transaction -> bool)) (n : nat)
  : M (list Transaction) :=
  fun s =>
    match query (transactions s), le with
    | Some docs, Some le => (Ok (firstn n (sort_by le docs)), s)
    | _, _ => (Unmodelled, s)
    end.

Definition get_transactions (month type_ category search : option string)
    (sort_by_field sort_order : string) (user_id : string)
  : M (list Transaction) :=
  let others t :=
    String.eqb (t_user_id t) user_id
    && field_is type_ (type_name (t_type t))
    && field_is category (t_category t) in
  find_sort_transactions
    (fun docs =>
       match truthy search with
       | Some _ => None
       | None =>
           match truthy month with
           | Some m => match_regex ("^" ++ m) t_date others docs
           | None => Some (filter others docs)
           end
       end)
    (option_map (fun key => sort_order_le key sort_order)
       (sort_field sort_by_field))
    1000.

(** ** Listing budgets *)

Definition find_budgets (query : Budget -> bool) (n : nat) : M (list Budget) :=
  fun s => (Ok (firstn n (filter query (budgets s))), s).

(** The loop of [get_budgets]: a [spent] is computed for each budget in
    turn and the responses are collected in order. *)
Fixpoint budgets_with_spent (user_id : string) (budgets : list Budget)
  : M (list BudgetResponse) :=
  match budgets with
  | [] => ret []
  | budget :: rest =>
      spent <- calculate_spent user_id (b_category budget) (b_month budget) ;;
      result <- budgets_with_spent user_id rest ;;
      ret (mkBudgetResponse budget spent :: result)
  end.

Definition get_budgets (month : option string) (user_id : string)
  : M (list BudgetResponse) :=
  budgets <- find_budgets
      (fun b => String.eqb (b_user_id b) user_id && field_is month (b_month b))
      100 ;;
  budgets_with_spent user_id budgets.

(** ** Closed forms used in the statements about the write handlers *)

(** The document that [create_transaction] stores and returns. *)
Definition created_transaction (data : TransactionCreate)
    (user_id uuid now : string) : Transaction :=
  mkTransaction uuid user_id (tc_type data) (tc_amount data) (tc_category data)
    (tc_description data) (tc_date data) (tc_notes data) now.

Definition or_keep {A : Type} (new : option A) (old : A) : A :=
  match new with
  | Some v => v
  | None => old
  end.

Definition or_keep_option {A : Type} (new : option A) (old : option A)
  : option A :=
  match new with
  | Some v => Some v
  | None => old
  end.

(** A transaction after [$set] of the fields of a body that are present. *)
Definition updated_transaction (data : TransactionUpdate) (t : Transaction)
  : Transaction :=
  mkTransaction (t_id t) (t_user_id t)
    (or_keep (tu_type data) (t_type t))
    (or_keep (tu_amount data) (t_amount t))
    (or_keep (tu_category data) (t_category t))
    (or_keep_option (tu_description data) (t_description t))
    (or_keep (tu_date data) (t_date t))
    (or_keep_option (tu_notes data) (t_notes t))
    (t_created_at t).

Definition updated_budget (data : BudgetUpdate) (b : Budget) : Budget :=
  mkBudget (b_id b) (b_user_id b) (b_category b)
    (or_keep (bu_amount data) (b_amount b))
    (or_keep (bu_month data) (b_month b)).

Definition owns_transaction (transaction_id user_id : string) (t : Transaction)
  : bool :=
  String.eqb (t_id t) transaction_id && String.eqb (t_user_id t) user_id.

Definition owns_budget (budget_id user_id : string) (b : Budget) : bool :=
  String.eqb (b_id b) budget_id && String.eqb (b_user_id b) user_id.

(** Example data. *)
Definition lunch : TransactionCreate :=
  mkTransactionCreate expense 12 "Food" (Some "lunch") "2024-03-21" None.

Definition only_amount : TransactionUpdate :=
  mkTransactionUpdate None (Some 75) None None None None.

Definition move_to_april : BudgetUpdate := mkBudgetUpdate (Some 250) (Some "2024-04").

(** The budgets that [get_budgets] reads, and the response for one of them
    when its month is free of metacharacters. *)
Definition listed_budgets (month : option string) (user_id : string)
    (s : Store) : list Budget :=
  firstn 100
    (filter (fun b => String.eqb (b_user_id b) user_id
                      && field_is month (b_month b)) (budgets s)).

Definition with_spent (user_id : string) (s : Store) (b : Budget)
  : BudgetResponse :=
  mkBudgetResponse b
    (spec_spent user_id (b_category b) (b_month b) (transactions s)).

Definition food_budget : BudgetCreate := mkBudgetCreate "Food" 200 "2024-03".

(* ================================================================== *)
(** * Users, categories and payments *)
(* ================================================================== *)

(** A document of [db.users] (see [register]); [pro_since] is written by
    [check_payment_status] only. *)
Record User : Type := mkUser {
  u_id : string;
  u_email : string;
  u_password : string;
  u_name : string;
  u_is_pro : bool;
  u_pin : option string;
  u_created_at : string;
  u_pro_since : option string
}.

(** A document of [db.categories]. *)
Record Category : Type := mkCategory {
  c_id : string;
  c_user_id : string;
  c_name : string;
  c_color : string;
  c_icon : string;
  c_is_default : bool
}.

(** A document of [db.payment_transactions] (see [create_checkout]). *)
Record Payment : Type := mkPayment {
  p_id : string;
  p_user_id : string;
  p_session_id : string;
  p_amount : Q;
  p_currency : string;
  p_status : string;
  p_payment_status : string;
  p_created_at : string
}.

(** The collections that the account, category and payment routes touch. *)
Record Accounts : Type := mkAccounts {
  users : list User;
  categories : list Category;
  payment_transactions : list Payment
}.

(** Handlers over these collections: the same monad over another state. *)
Definition A_ (T : Type) : Type := Accounts -> result T * Accounts.

Definition aret {T : Type} (a : T) : A_ T := fun s => (Ok a, s).

Definition abind {T U : Type} (m : A_ T) (k : T -> A_ U) : A_ U :=
  fun s =>
    match m s with
    | (Ok a, s') => k a s'
    | (HTTPException c d, s') => (HTTPException c d, s')
    | (Unmodelled, s') => (Unmodelled, s')
    end.

Definition araise {T : Type} (status_code : nat) (detail : string) : A_ T :=
  fun s => (HTTPException status_code detail, s).

Notation "x <~ m ;; k" := (abind m (fun x => k))
  (at level 61, m at next level, right associativity) : handler_scope.
Notation "m ;;~ k" := (abind m (fun _ => k))
  (at level 61, right associativity) : handler_scope.

Definition find_one_user (query : User -> bool) : A_ (option User) :=
  fun s => (Ok (find query (users s)), s).

Definition insert_one_user (u : User) : A_ unit :=
  fun s => (Ok tt, mkAccounts (users s ++ [u])%list (categories s)
                     (payment_transactions s)).

Definition update_one_user (query : User -> bool) (set : User -> User)
  : A_ nat :=
  fun s =>
    let r := update_first query set (users s) in
    (Ok (fst r), mkAccounts (snd r) (categories s) (payment_transactions s)).

Definition find_categories (query : Category -> bool) (n : nat)
  : A_ (list Category) :=
  fun s => (Ok (firstn n (filter query (categories s))), s).

Definition find_one_category (query : Category -> bool) : A_ (option Category) :=
  fun s => (Ok (find query (categories s)), s).

Definition insert_one_category (c : Category) : A_ unit :=
  fun s => (Ok tt, mkAccounts (users s) (categories s ++ [c])%list
                     (payment_transactions s)).

Definition update_one_category (query : Category -> bool)
    (set : Category -> Category) : A_ nat :=
  fun s =>
    let r := update_first query set (categories s) in
    (Ok (fst r), mkAccounts (users s) (snd r) (payment_transactions s)).

Definition delete_one_category (query : Category -> bool) : A_ nat :=
  fun s =>
    let r := delete_first query (categories s) in
    (Ok (fst r), mkAccounts (users s) (snd r) (payment_transactions s)).

Definition find_one_payment (query : Payment -> bool) : A_ (option Payment) :=
  fun s => (Ok (find query (payment_transactions s)), s).

Definition insert_one_payment (p : Payment) : A_ unit :=
  fun s => (Ok tt, mkAccounts (users s) (categories s)
                     (payment_transactions s ++ [p])%list).

Definition update_one_payment (query : Payment -> bool)
    (set : Payment -> Payment) : A_ nat :=
  fun s =>
    let r := update_first query set (payment_transactions s) in
    (Ok (fst r), mkAccounts (users s) (categories s) (snd r)).

(** ** Category routes *)

Record CategoryCreate : Type := mkCategoryCreate {
  cc_name : string;
  cc_color : string;
  cc_icon : string
}.

Definition create_category (data : CategoryCreate) (user_id uuid : string)
  : A_ Category :=
  let category :=
    mkCategory uuid user_id (cc_name data) (cc_color data) (cc_icon data) false in
  insert_one_category category ;;~
  aret category.

Definition get_categories (user_id : string) : A_ (list Category) :=
  find_categories (fun c => String.eqb (c_user_id c) user_id) 100.

(** The query of [update_category] and [delete_category]. *)
Definition own_custom_category (category_id user_id : string) (c : Category)
  : bool :=
  String.eqb (c_id c) category_id && String.eqb (c_user_id c) user_id
  && Bool.eqb (c_is_default c) false.

Definition set_category (data : CategoryCreate) (c : Category) : Category :=
  mkCategory (c_id c) (c_user_id c) (cc_name data) (cc_color data)
    (cc_icon data) (c_is_default c).

Definition update_category (category_id : string) (data : CategoryCreate)
    (user_id : string) : A_ Category :=
  matched_count <~ update_one_category
      (own_custom_category category_id user_id) (set_category data) ;;
  if (matched_count =? 0)%nat
  then araise 404 "Category not found or is default"
  else
    category <~ find_one_category (fun c => String.eqb (c_id c) category_id) ;;
    match category with
    | None => araise 500 "Internal Server Error"
    | Some category => aret category
    end.

Definition delete_category (category_id user_id : string) : A_ string :=
  deleted_count <~ delete_one_category
      (own_custom_category category_id user_id) ;;
  if (deleted_count =? 0)%nat
  then araise 404 "Category not found or is default"
  else aret "Category deleted".

(** ** Account routes *)

(** What a request takes from outside the program: the bcrypt functions
    (with the salt drawn for the request) and the token issued by
    [create_token] at the time of the request. *)
Record Crypto : Type := mkCrypto {
  hash_password : string -> string;
  verify_password : string -> string -> bool;
  create_token : string -> string -> string
}.

Record UserRegister : Type := mkUserRegister {
  reg_email : string;
  reg_password : string;
  reg_name : string
}.

Record UserLogin : Type := mkUserLogin {
  login_email : string;
  login_password : string
}.

Record UserResponse : Type := mkUserResponse {
  ur_id : string;
  ur_email : string;
  ur_name : string;
  ur_is_pro : bool;
  ur_pin : option string
}.

Record TokenResponse : Type := mkTokenResponse {
  tr_token : string;
  tr_user : UserResponse
}.

(** [DEFAULT_CATEGORIES]: name, color, icon. *)
Definition DEFAULT_CATEGORIES : list (string * string * string) :=
  [ ("Food", "#ef4444", "utensils");
    ("Rent", "#3b82f6", "home");
    ("Utilities", "#f59e0b", "zap");
    ("Transportation", "#8b5cf6", "car");
    ("Entertainment", "#ec4899", "film");
    ("Shopping", "#10b981", "shopping-bag");
    ("Health", "#06b6d4", "heart");
    ("Other", "#6b7280", "more-horizontal");
    ("Salary", "#22c55e", "briefcase");
    ("Freelance", "#14b8a6", "laptop");
    ("Investment", "#f97316", "trending-up") ].

Definition default_category (user_id uuid : string)
    (cat : string * string * string) : Category :=
  mkCategory uuid user_id (fst (fst cat)) (snd (fst cat)) (snd cat) true.

(** The loop over [DEFAULT_CATEGORIES]; [uuid i] is the [i]-th identifier
    drawn by the request. *)
Fixpoint insert_default_categories (user_id : string) (uuid : nat -> string)
    (i : nat) (cats : list (string * string * string)) : A_ unit :=
  match cats with
  | [] => aret tt
  | cat :: rest =>
      insert_one_category (default_category user_id (uuid i) cat) ;;~
      insert_default_categories user_id uuid (S i) rest
  end.

Definition register (crypto : Crypto) (data : UserRegister)
    (uuid : nat -> string) (now : string) : A_ TokenResponse :=
  existing <~ find_one_user (fun u => String.eqb (u_email u) (reg_email data)) ;;
  match existing with
  | Some _ => araise 400 "Email already registered"
  | None =>
      let user_id := uuid 0%nat in
      let user :=
        mkUser user_id (reg_email data)
          (hash_password crypto (reg_password data)) (reg_name data)
          false None now None in
      insert_one_user user ;;~
      insert_default_categories user_id uuid 1 DEFAULT_CATEGORIES ;;~
      let token := create_token crypto user_id (reg_email data) in
      aret (mkTokenResponse token
              (mkUserResponse user_id (reg_email data) (reg_name data)
                 false None))
  end.

Definition login (crypto : Crypto) (data : UserLogin) : A_ TokenResponse :=
  user <~ find_one_user (fun u => String.eqb (u_email u) (login_email data)) ;;
  match user with
  | None => araise 401 "Invalid credentials"
  | Some user =>
      if negb (verify_password crypto (login_password data) (u_password user))
      then araise 401 "Invalid credentials"
      else
        let token := create_token crypto (u_id user) (login_email data) in
        aret (mkTokenResponse token
                (mkUserResponse (u_id user) (u_email user) (u_name user)
                   (u_is_pro user) (u_pin user)))
  end.

(** The part of [get_current_user] that follows the decoding of the token:
    [user_id] is the [user_id] of its payload. *)
Definition get_current_user (user_id : string) : A_ User :=
  user <~ find_one_user (fun u => String.eqb (u_id u) user_id) ;;
  match user with
  | None => araise 401 "User not found"
  | Some user => aret user
  end.

Definition set_pin (pin : string) (u : User) : User :=
  mkUser (u_id u) (u_email u) (u_password u) (u_name u) (u_is_pro u)
    (Some pin) (u_created_at u) (u_pro_since u).

Definition update_pin (pin : string) (user : User) : A_ string :=
  update_one_user (fun u => String.eqb (u_id u) (u_id user)) (set_pin pin) ;;~
  aret "PIN updated successfully".

Definition option_string_eqb (a : option string) (b : string) : bool :=
  match a with
  | Some x => String.eqb x b
  | None => false
  end.

Definition verify_pin (pin : string) (user : User) : A_ string :=
  if negb (option_string_eqb (u_pin user) pin)
  then araise 401 "Invalid PIN"
  else aret "PIN verified".

(** ** Payment routes *)

(** What the payment processor answers. *)
Record CheckoutSession : Type := mkCheckoutSession {
  cs_url : string;
  cs_session_id : string
}.

Record CheckoutStatus : Type := mkCheckoutStatus {
  st_status : string;
  st_payment_status : string;
  st_amount_total : Z;
  st_currency : string
}.

Record WebhookEvent : Type := mkWebhookEvent {
  ev_payment_status : string;
  ev_session_id : string
}.

Record PaymentStatus : Type := mkPaymentStatus {
  ps_status : string;
  ps_payment_status : string;
  ps_amount : Q;
  ps_currency : string
}.

(** [session] is the session that the processor created for the request. *)
Definition create_checkout (session : CheckoutSession)
    (user_id uuid now : string) : A_ CheckoutSession :=
  insert_one_payment
    (mkPayment uuid user_id (cs_session_id session) (999 # 100) "usd"
       "pending" "initiated" now) ;;~
  aret (mkCheckoutSession (cs_url session) (cs_session_id session)).

Definition set_paid (p : Payment) : Payment :=
  mkPayment (p_id p) (p_user_id p) (p_session_id p) (p_amount p)
    (p_currency p) "completed" "paid" (p_created_at p).

Definition set_pro (since : option string) (u : User) : User :=
  mkUser (u_id u) (u_email u) (u_password u) (u_name u) true (u_pin u)
    (u_created_at u) (or_keep_option since (u_pro_since u)).

(** [status] is what the processor reports for [session_id]. *)
Definition check_payment_status (status : CheckoutStatus)
    (session_id user_id now : string) : A_ PaymentStatus :=
  (if String.eqb (st_payment_status status) "paid"
   then
     update_one_payment
       (fun p => String.eqb (p_session_id p) session_id
                 && String.eqb (p_user_id p) user_id) set_paid ;;~
     update_one_user (fun u => String.eqb (u_id u) user_id)
       (set_pro (Some now)) ;;~
     aret tt
   else aret tt) ;;~
  aret (mkPaymentStatus (st_status status) (st_payment_status status)
          (inject_Z (st_amount_total status) / 100) (st_currency status)).

(** [event] is the verified event, or [None] when [handle_webhook] raises;
    the answer is the [received] flag. *)
Definition stripe_webhook (event : option WebhookEvent) : A_ bool :=
  match event with
  | None => aret false
  | Some event =>
      (if String.eqb (ev_payment_status event) "paid"
       then
         update_one_payment
           (fun p => String.eqb (p_session_id p) (ev_session_id event))
           set_paid ;;~
         transaction <~ find_one_payment
             (fun p => String.eqb (p_session_id p) (ev_session_id event)) ;;
         match transaction with
         | Some transaction =>
             update_one_user
               (fun u => String.eqb (u_id u) (p_user_id transaction))
               (set_pro None) ;;~
             aret tt
         | None => aret tt
         end
       else aret tt) ;;~
      aret true
  end.

(** Example accounts. *)
Definition alice : User :=
  mkUser "u1" "alice@example.com" "hash:secret" "Alice" false None
    "2024-01-01T00:00:00+00:00" None.

Definition bob : User :=
  mkUser "u2" "bob@example.com" "hash:hunter2" "Bob" false None
    "2024-01-02T00:00:00+00:00" None.

Definition alice_food : Category :=
  mkCategory "c1" "u1" "Food" "#ef4444" "utensils" true.

Definition alice_pets : Category :=
  mkCategory "c2" "u1" "Pets" "#000000" "paw" false.

Definition two_users : Accounts :=
  mkAccounts [alice; bob] [alice_food; alice_pets] [].

(** A stand-in for the bcrypt functions and the token. *)
Definition toy_crypto : Crypto :=
  mkCrypto (fun p => "hash:" ++ p)
    (fun p h => String.eqb h ("hash:" ++ p))
    (fun user_id email => "token:" ++ user_id).

Definition numbered_uuid (i : nat) : string :=
  String (ascii_of_nat (65 + i)) "-uuid".

Definition carol_registration : UserRegister :=
  mkUserRegister "carol@example.com" "pw" "Carol".

(** The categories seeded for a new user. *)
Definition seeded_categories (user_id : string) (uuid : nat -> string)
  : list Category :=
  map (fun ic => default_category user_id (uuid (fst ic)) (snd ic))
    (combine (seq 1 (List.length DEFAULT_CATEGORIES)) DEFAULT_CATEGORIES).

Definition paid_status : CheckoutStatus := mkCheckoutStatus "complete" "paid" 999 "usd".
Definition open_status : CheckoutStatus := mkCheckoutStatus "open" "unpaid" 999 "usd".
Definition bob_session : CheckoutSession :=
  mkCheckoutSession "https://pay.example/cs_1" "cs_1".

(* ================================================================== *)
(** * AI insights: the figures computed by [get_ai_insights] *)
(* ================================================================== *)

(** The texts of the response ([insights], [savings_suggestions]) come from
    the chat service or from its fallback and are not modelled.  Neither is
    [health_score]: it truncates a binary floating-point number to an
    integer, which a truncation of the exact rational does not reproduce
    (with an income of 100 and expenses of 128 the float is just below 22).
    What is modelled are the three lists of figures, computed from the
    ledger alone outside the [try] block, and the errors raised on the way
    to them; [Ok] carries these lists.  As everywhere in this development
    amounts are exact rationals: neither the rounding of a float nor its
    overflow to infinity is modelled. *)

(** ** The calendar behind the start date *)

(** [date.max.toordinal()], the ordinal of 9999-12-31; day 1 is 0001-01-01. *)
Definition MAXORDINAL : Z := 3652059.

(** Year, month and day of a day of the proleptic Gregorian calendar, given
    by its ordinal. *)
Definition ord2ymd (n : Z) : Z * Z * Z :=
  let z := (n + 305)%Z in
  let era := (z / 146097)%Z in
  let doe := (z mod 146097)%Z in
  let yoe := ((doe - doe / 1460 + doe / 36524 - doe / 146096) / 365)%Z in
  let doy := (doe - (365 * yoe + yoe / 4 - yoe / 100))%Z in
  let mp := ((5 * doy + 2) / 153)%Z in
  let d := (doy - (153 * mp + 2) / 5 + 1)%Z in
  let m := (if mp <? 10 then mp + 3 else mp - 9)%Z in
  let y := (yoe + era * 400 + (if m <=? 2 then 1 else 0))%Z in
  (y, m, d).

Definition digit (n : Z) : ascii := ascii_of_nat (48 + Z.to_nat n).

Fixpoint decimal_digits (fuel : nat) (n : Z) (acc : string) : string :=
  match fuel with
  | O => acc
  | S fuel' =>
      let acc := String (digit (n mod 10)) acc in
      if (n / 10 =? 0)%Z then acc else decimal_digits fuel' (n / 10) acc
  end.

(** [%m] and [%d]: two digits. *)
Definition two_digits (n : Z) : string :=
  String (digit (n / 10)) (String (digit (n mod 10)) EmptyString).

(** [strftime('%Y-%m-%d')]; [%Y] is the year as the C library of a Linux
    server prints it, without leading zeros (years below 1000 only). *)
Definition strftime_ymd (date : Z * Z * Z) : string :=
  let '(y, m, d) := date in
  decimal_digits 4 y EmptyString ++ "-" ++ two_digits m ++ "-" ++ two_digits d.

(** [(datetime.now(timezone.utc) - timedelta(days=days)).strftime('%Y-%m-%d')]
    for a request made on the day of ordinal [today].  [None] stands for
    the [OverflowError] that Python raises when [days] is more than a
    [timedelta] holds or the date leaves the years 1 to 9999. *)
Definition days_ago (today days : Z) : option string :=
  if (999999999 <? Z.abs days)%Z then None
  else
    let n := (today - days)%Z in
    if (1 <=? n)%Z && (n <=? MAXORDINAL)%Z
    then Some (strftime_ymd (ord2ymd n))
    else None.

(** ** The loop over the transactions *)

Record MonthTotals : Type := mkMonthTotals {
  mt_income : Q;
  mt_expense : Q
}.

Record SpendingPattern : Type := mkSpendingPattern {
  sp_category : string;
  sp_amount : Q;
  sp_percentage : Q
}.

Record InsightFigures : Type := mkInsightFigures {
  spending_patterns : list SpendingPattern;
  budget_recommendations : list (string * Q);
  predicted_expenses : list (string * Q)
}.

(** [find(query).to_list(n)] on the transactions. *)
Definition find_transactions (query : Transaction -> bool) (n : nat)
  : M (list Transaction) :=
  fun s => (Ok (firstn n (filter query (transactions s))), s).

(** [category_totals[cat] = category_totals.get(cat, 0) + amount] *)
Fixpoint category_add (cat : string) (amount : Q) (d : list (string * Q))
  : list (string * Q) :=
  match d with
  | [] => [(cat, 0 + amount)]
  | (k, v) :: d' =>
      if String.eqb k cat then (k, v + amount) :: d'
      else (k, v) :: category_add cat amount d'
  end.

(** [totals[type_] += amount] *)
Definition bump (type_ : tx_type) (amount : Q) (v : MonthTotals) : MonthTotals :=
  match type_ with
  | income => mkMonthTotals (mt_income v + amount) (mt_expense v)
  | expense => mkMonthTotals (mt_income v) (mt_expense v + amount)
  end.

(** [if month not in monthly_totals: monthly_totals[month] = {0, 0}]
    followed by [monthly_totals[month][type_] += amount]. *)
Fixpoint month_add (month : string) (type_ : tx_type) (amount : Q)
    (d : list (string * MonthTotals)) : list (string * MonthTotals) :=
  match d with
  | [] => [(month, bump type_ amount (mkMonthTotals 0 0))]
  | (k, v) :: d' =>
      if String.eqb k month then (k, bump type_ amount v) :: d'
      else (k, v) :: month_add month type_ amount d'
  end.

(** One iteration of the loop over the transactions. *)
Definition totals_step
    (acc : list (string * Q) * list (string * MonthTotals)) (t : Transaction)
  : list (string * Q) * list (string * MonthTotals) :=
  let month := month_of (t_date t) in
  match t_type t with
  | expense =>
      (category_add (t_category t) (t_amount t) (fst acc),
       month_add month expense (t_amount t) (snd acc))
  | income => (fst acc, month_add month income (t_amount t) (snd acc))
  end.

(** Python's [sum]. *)
Definition py_sum (l : list Q) : Q := fold_left Qplus l 0.

(** [sorted(..., key=lambda x: -x[1])] *)
Definition by_minus_amount (a b : string * Q) : bool :=
  Qle_bool (- snd a) (- snd b).

(** [months] is [data.months], [is_pro] the flag of the calling user and
    [clock days] stands for
    [(datetime.now(timezone.utc) - timedelta(days=days)).strftime('%Y-%m-%d')],
    which is [days_ago today days] on the day [today].  The
    [OverflowError] of the calendar and the [ZeroDivisionError] of the
    prediction are raised outside the [try] block and reach the client as
    a 500 response. *)
Definition get_ai_insights (months : Z) (is_pro : bool) (user_id : string)
    (clock : Z -> option string) : M InsightFigures :=
  if negb is_pro then raise 403 "Pro subscription required"
  else
    match clock (months * 30)%Z with
    | None => internal_error
    | Some start_date =>
        transactions <- find_transactions
            (fun t => String.eqb (t_user_id t) user_id
                      && str_leb start_date (t_date t)) 1000 ;;
        match transactions with
        | [] => ret (mkInsightFigures [] [] [])
        | _ :: _ =>
            let totals := fold_left totals_step transactions ([], []) in
            let category_totals := fst totals in
            let total_expenses := py_sum (map snd category_totals) in
            let spending_patterns :=
              map (fun c =>
                     mkSpendingPattern (fst c) (snd c)
                       (if Qlt_le_dec 0 total_expenses
                        then snd c / total_expenses * 100 else 0))
                (firstn 5 (sort_by by_minus_amount category_totals)) in
            match category_totals, Z.eqb months 0 with
            | _ :: _, true => internal_error
            | _, _ =>
                let predicted_expenses :=
                  map (fun c => (fst c, snd c / inject_Z months * (105 # 100)))
                    category_totals in
                ret (mkInsightFigures spending_patterns
                       (map (fun c => (fst c, snd c * (9 # 10)))
                          (firstn 3 category_totals))
                       predicted_expenses)
            end
        end
    end.

(** The transactions that [get_ai_insights] reads. *)
Definition insight_transactions (user_id start_date : string) (s : Store)
  : list Transaction :=
  firstn 1000
    (filter (fun t => String.eqb (t_user_id t) user_id
                      && str_leb start_date (t_date t)) (transactions s)).

(** The lists of an answer, from the dict of category totals. *)
Definition insight_figures (months : Z) (category_totals : list (string * Q))
  : InsightFigures :=
  let total_expenses := py_sum (map snd category_totals) in
  mkInsightFigures
    (map (fun c =>
            mkSpendingPattern (fst c) (snd c)
              (if Qlt_le_dec 0 total_expenses
               then snd c / total_expenses * 100 else 0))
       (firstn 5 (sort_by by_minus_amount category_totals)))
    (map (fun c => (fst c, snd c * (9 # 10))) (firstn 3 category_totals))
    (map (fun c => (fst c, snd c / inject_Z months * (105 # 100)))
       category_totals).

(** [d.get(cat, 0)] *)
Fixpoint category_get (cat : string) (d : list (string * Q)) : Q :=
  match d with
  | [] => 0
  | (k, v) :: d' => if String.eqb k cat then v else category_get cat d'
  end.

(** The expenses of one category among a list of transactions. *)
Definition category_expenses (cat : string) (docs : list Transaction)
  : list Transaction :=
  filter (fun t => is_expense t && String.eqb (t_category t) cat) docs.

(** The ordinal of 2024-03-21, the day of the requests in the examples. *)
Definition march_21 : Z := 738966.

Definition spender_store : Store :=
  mkStore [ tx "t1" "user" expense 30 "Food" "2024-03-01";
            tx "t2" "user" expense 400 "Rent" "2024-03-02";
            tx "t3" "user" expense 20 "Food" "2024-03-03" ] [].



(* ================================================================== *)
(** * Properties *)
(* ================================================================== *)

(** ** Regular expressions built from a literal month *)

Lemma regex_items_literal (m : string) :
  literal_string m = true ->
  regex_items m = Some (map ReLit (list_ascii_of_string m)).
Proof.
  induction m as [|c m IH]; simpl; intro H; [reflexivity|].
  apply andb_prop in H as [Hc Hm].
  destruct (Ascii.eqb c ".") eqn:Edot.
  - apply Ascii.eqb_eq in Edot. subst c. discriminate Hc.
  - apply negb_true_iff in Hc. rewrite Hc, (IH Hm). reflexivity.
Qed.

Lemma match_here_literal (m d : string) :
  match_here (map ReLit (list_ascii_of_string m)) d = String.prefix m d.
Proof.
  revert d. induction m as [|c m IH]; intros d; simpl.
  - destruct d; reflexivity.
  - destruct d as [|x d]; [reflexivity|]. simpl.
    destruct (ascii_dec c x) as [->|Hne].
    + rewrite Ascii.eqb_refl. apply IH.
    + apply Ascii.eqb_neq in Hne. rewrite Hne. reflexivity.
Qed.

Lemma regex_compile_literal (m : string) :
  literal_string m = true ->
  regex_compile ("^" ++ m) = Some (true, map ReLit (list_ascii_of_string m)).
Proof.
  intro H. simpl. rewrite (regex_items_literal m H). reflexivity.
Qed.

Lemma match_regex_literal {A : Type} (m : string) (field : A -> string)
    (others : A -> bool) (docs : list A) :
  literal_string m = true ->
  match_regex ("^" ++ m) field others docs
  = Some (filter (fun d => others d && String.prefix m (field d)) docs).
Proof.
  intro H. unfold match_regex. rewrite (regex_compile_literal m H).
  f_equal. apply filter_ext. intro d. unfold regex_exec. simpl.
  rewrite match_here_literal. reflexivity.
Qed.

(** ** Sums *)

Lemma total_or_zero_group_all {A : Type} (amount : A -> Q) (docs : list A) :
  total_or_zero (firstn 1 (group_all_sum amount docs))
  = fold_left Qplus (map amount docs) 0.
Proof. destruct docs; reflexivity. Qed.

Lemma fold_Qplus_nonneg (l : list Q) (acc : Q) :
  0 <= acc -> Forall (fun q => 0 <= q) l -> 0 <= fold_left Qplus l acc.
Proof.
  revert acc. induction l as [|q l IH]; intros acc Hacc Hl; simpl; [exact Hacc|].
  inversion Hl; subst. apply IH; [|assumption].
  replace 0 with (0 + 0) by reflexivity. apply Qplus_le_compat; assumption.
Qed.

Lemma sum_amounts_nonneg (docs : list Transaction) :
  (forall t, In t docs -> 0 <= t_amount t) -> 0 <= sum_amounts docs.
Proof.
  intro H. unfold sum_amounts. apply fold_Qplus_nonneg; [apply Qle_refl|].
  apply Forall_forall. intros q Hq. apply in_map_iff in Hq as [t [<- Ht]].
  apply H, Ht.
Qed.

(** ** [calculate_spent] *)

Lemma calculate_spent_run (user_id category month : string) (s : Store) :
  calculate_spent user_id category month s
  = match regex_compile ("^" ++ month) with
    | Some re =>
        (Ok (sum_amounts
               (filter (fun t => (String.eqb (t_user_id t) user_id
                                  && String.eqb (t_category t) category
                                  && is_expense t)
                                 && regex_exec re (t_date t))
                       (transactions s))), s)
    | None => (Unmodelled, s)
    end.
Proof.
  unfold calculate_spent, bind, aggregate_transactions, match_regex, ret.
  destruct (regex_compile ("^" ++ month)) as [re|]; [|reflexivity].
  cbn [option_map]. rewrite total_or_zero_group_all. reflexivity.
Qed.

Lemma calculate_spent_literal (user_id category month : string) (s : Store) :
  literal_string month = true ->
  calculate_spent user_id category month s
  = (Ok (spec_spent user_id category month (transactions s)), s).
Proof.
  intro H. rewrite calculate_spent_run, (regex_compile_literal month H).
  unfold spec_spent. do 3 f_equal. apply filter_ext. intro t.
  unfold regex_exec, spent_filter. simpl. rewrite match_here_literal.
  destruct (String.eqb (t_user_id t) user_id),
    (String.eqb (t_category t) category), (is_expense t); reflexivity.
Qed.


Lemma is_expense_income (t : Transaction) :
  t_type t = income -> is_expense t = false.
Proof. unfold is_expense. intros ->. reflexivity. Qed.

Lemma filter_skip {A : Type} (p : A -> bool) (l1 l2 : list A) (x : A) :
  p x = false -> filter p (l1 ++ x :: l2)%list = filter p (l1 ++ l2)%list.
Proof.
  intro H. rewrite !filter_app. simpl. rewrite H. reflexivity.
Qed.

(** C1 (as amended): for a month free of regular-expression metacharacters,
    [calculate_spent] returns exactly the sum of [amount] over the
    transactions of the user whose type is expense, whose category is the
    given one (compared exactly) and whose date starts with the month; for
    any month, inserting an income transaction anywhere in the ledger leaves
    the result unchanged; on the ledger of the scenario 150 is returned for
    (user, Food, 2024-03). *)
Theorem calculate_spent_sums_matching_expenses :
  forall (user_id category month : string) (s : Store),
    (literal_string month = true ->
     calculate_spent user_id category month s
     = (Ok (spec_spent user_id category month (transactions s)), s))
    /\ (forall (l1 l2 : list Transaction) (bs : list Budget) (t : Transaction),
          t_type t = income ->
          fst (calculate_spent user_id category month
                 (mkStore (l1 ++ t :: l2) bs))
          = fst (calculate_spent user_id category month
                   (mkStore (l1 ++ l2) bs)))
    /\ calculate_spent "user" "Food" "2024-03" scenario_store
       = (Ok 150, scenario_store).
Proof.
  intros user_id category month s. split; [|split].
  - apply calculate_spent_literal.
  - intros l1 l2 bs t Ht. rewrite !calculate_spent_run.
    destruct (regex_compile ("^" ++ month)) as [re|]; [|reflexivity].
    cbn [fst transactions]. rewrite filter_skip; [reflexivity|].
    rewrite (is_expense_income t Ht), andb_false_r. reflexivity.
  - reflexivity.
Qed.

(** On the scenario of the specification the sum is that of the two Food
    expenses, the salary entry does not count, and the category is compared
    case-sensitively. *)
Lemma calculate_spent_scenario :
  literal_string "2024-03" = true
  /\ calculate_spent "user" "Food" "2024-03" scenario_store
     = (Ok (spec_spent "user" "Food" "2024-03" scenario_ledger), scenario_store)
  /\ spec_spent "user" "Food" "2024-03" scenario_ledger = 150
  /\ spec_spent "user" "food" "2024-03" scenario_ledger = 0
  /\ fst (calculate_spent "user" "Food" "2024-03"
            (mkStore (firstn 2 scenario_ledger
                      ++ [tx "t3" "user" income 3000 "Salary" "2024-03-01"]) []))
     = fst (calculate_spent "user" "Food" "2024-03"
              (mkStore (firstn 2 scenario_ledger ++ []) [])).
Proof.
  split; [reflexivity|].
  destruct (calculate_spent_sums_matching_expenses
              "user" "Food" "2024-03" scenario_store) as [Hrun [Hinc _]].
  split; [exact (Hrun eq_refl)|]. split; [reflexivity|]. split; [reflexivity|].
  exact (Hinc (firstn 2 scenario_ledger) []%list []%list
           (tx "t3" "user" income 3000 "Salary" "2024-03-01") eq_refl).
Defined.

(** C1 (as stated) fails when the month holds a metacharacter: the pattern
    [^2024-0.] matches the date 2024-03-05, which does not start with the
    string [2024-0.]. *)
Lemma calculate_spent_wildcard_month :
  calculate_spent "user" "Food" "2024-0." march_store = (Ok 100, march_store)
  /\ spec_spent "user" "Food" "2024-0." (transactions march_store) = 0
  /\ fst (calculate_spent "user" "Food" "2024-0." march_store)
     <> Ok (spec_spent "user" "Food" "2024-0." (transactions march_store)).
Proof.
  split; [reflexivity|]. split; [reflexivity|].
  intro H. vm_compute in H. discriminate H.
Qed.

(** ** The lexicographic order *)

Lemma str_leb_refl (a : string) : str_leb a a = true.
Proof.
  induction a as [|x a IH]; simpl; [reflexivity|].
  rewrite Nat.ltb_irrefl, Nat.eqb_refl. exact IH.
Qed.

Lemma str_leb_total (a b : string) : str_leb a b = false -> str_leb b a = true.
Proof.
  revert b. induction a as [|x a IH]; intros [|y b]; simpl; try discriminate;
    try reflexivity.
  destruct (nat_of_ascii x <? nat_of_ascii y)%nat eqn:Hlt; [discriminate|].
  destruct (nat_of_ascii x =? nat_of_ascii y)%nat eqn:Heq.
  - apply Nat.eqb_eq in Heq. rewrite <- Heq, Nat.ltb_irrefl, Nat.eqb_refl.
    apply IH.
  - intros _. apply Nat.ltb_ge in Hlt. apply Nat.eqb_neq in Heq.
    assert (Hyx : (nat_of_ascii y <? nat_of_ascii x)%nat = true)
      by (apply Nat.ltb_lt; lia).
    rewrite Hyx. reflexivity.
Qed.

Lemma str_leb_trans (a b c : string) :
  str_leb a b = true -> str_leb b c = true -> str_leb a c = true.
Proof.
  revert b c. induction a as [|x a IH]; intros [|y b] [|z c]; simpl;
    try discriminate; try reflexivity.
  destruct (nat_of_ascii x <? nat_of_ascii y)%nat eqn:Hxy;
    destruct (nat_of_ascii y <? nat_of_ascii z)%nat eqn:Hyz;
    destruct (nat_of_ascii x =? nat_of_ascii y)%nat eqn:Exy;
    destruct (nat_of_ascii y =? nat_of_ascii z)%nat eqn:Eyz;
    try discriminate;
    repeat match goal with
      | H : (_ <? _)%nat = true |- _ => apply Nat.ltb_lt in H
      | H : (_ <? _)%nat = false |- _ => apply Nat.ltb_ge in H
      | H : (_ =? _)%nat = true |- _ => apply Nat.eqb_eq in H
      | H : (_ =? _)%nat = false |- _ => apply Nat.eqb_neq in H
      end;
    intros Hab Hbc;
    try (assert (Hxz : (nat_of_ascii x <? nat_of_ascii z)%nat = true)
          by (apply Nat.ltb_lt; lia); rewrite Hxz; reflexivity);
    try lia.
  assert (Hxz : (nat_of_ascii x <? nat_of_ascii z)%nat = false)
    by (apply Nat.ltb_ge; lia).
  assert (Exz : (nat_of_ascii x =? nat_of_ascii z)%nat = true)
    by (apply Nat.eqb_eq; lia).
  rewrite Hxz, Exz. exact (IH b c Hab Hbc).
Qed.

Lemma nat_of_ascii_inj (x y : ascii) : nat_of_ascii x = nat_of_ascii y -> x = y.
Proof.
  intro H. rewrite <- (ascii_nat_embedding x), <- (ascii_nat_embedding y), H.
  reflexivity.
Qed.

Lemma str_leb_antisym (a b : string) :
  str_leb a b = true -> str_leb b a = true -> a = b.
Proof.
  revert b. induction a as [|x a IH]; intros [|y b]; simpl; try discriminate;
    try reflexivity.
  destruct (nat_of_ascii x <? nat_of_ascii y)%nat eqn:Hxy;
    destruct (nat_of_ascii y <? nat_of_ascii x)%nat eqn:Hyx;
    destruct (nat_of_ascii x =? nat_of_ascii y)%nat eqn:Exy;
    destruct (nat_of_ascii y =? nat_of_ascii x)%nat eqn:Eyx;
    try discriminate;
    repeat match goal with
      | H : (_ <? _)%nat = true |- _ => apply Nat.ltb_lt in H
      | H : (_ <? _)%nat = false |- _ => apply Nat.ltb_ge in H
      | H : (_ =? _)%nat = true |- _ => apply Nat.eqb_eq in H
      | H : (_ =? _)%nat = false |- _ => apply Nat.eqb_neq in H
      end;
    intros Hab Hba; try lia.
  rewrite (nat_of_ascii_inj x y Exy), (IH b Hab Hba). reflexivity.
Qed.

(** [str_leb] decides the lexicographic order. *)
Lemma str_leb_lex_le (a b : string) : str_leb a b = true <-> lex_le a b.
Proof.
  split.
  - revert b. induction a as [|x a IH]; intros [|y b]; simpl; intro H;
      try discriminate; try apply lex_le_nil.
    destruct (nat_of_ascii x <? nat_of_ascii y)%nat eqn:Hxy.
    + apply lex_le_lt. apply Nat.ltb_lt. exact Hxy.
    + destruct (nat_of_ascii x =? nat_of_ascii y)%nat eqn:Exy; [|discriminate].
      apply Nat.eqb_eq in Exy. apply nat_of_ascii_inj in Exy. subst y.
      apply lex_le_eq. apply IH. exact H.
  - induction 1 as [b|x y a b Hlt|x a b _ IH]; simpl.
    + reflexivity.
    + apply Nat.ltb_lt in Hlt. rewrite Hlt. reflexivity.
    + rewrite Nat.ltb_irrefl, Nat.eqb_refl. exact IH.
Qed.

(** ** Insertion sort *)

Section Sorting.

Context {A : Type}.
Variable le : A -> A -> bool.

Lemma insert_by_perm (x : A) (l : list A) :
  Permutation (x :: l) (insert_by le x l).
Proof.
  induction l as [|y l IH]; simpl; [apply Permutation_refl|].
  destruct (le x y); [apply Permutation_refl|].
  eapply perm_trans; [apply perm_swap|]. apply perm_skip, IH.
Qed.

Lemma sort_by_perm (l : list A) : Permutation l (sort_by le l).
Proof.
  induction l as [|x l IH]; simpl; [apply perm_nil|].
  eapply perm_trans; [apply perm_skip, IH|]. apply insert_by_perm.
Qed.

Lemma sort_by_In (l : list A) (x : A) : In x (sort_by le l) <-> In x l.
Proof.
  split; apply Permutation_in;
    [apply Permutation_sym|]; apply sort_by_perm.
Qed.

Lemma sort_by_length (l : list A) : List.length (sort_by le l)  = List.length l.
Proof. symmetry. apply Permutation_length, sort_by_perm. Qed.

Hypothesis le_total : forall a b, le a b = false -> le b a = true.
Hypothesis le_trans : forall a b c, le a b = true -> le b c = true -> le a c = true.

Lemma insert_by_sorted (x : A) (l : list A) :
  StronglySorted (fun a b => le a b = true) l ->
  StronglySorted (fun a b => le a b = true) (insert_by le x l).
Proof.
  induction 1 as [|y l Hs IH Hy]; simpl.
  - repeat constructor.
  - destruct (le x y) eqn:Hxy.
    + constructor; [constructor; assumption|].
      constructor; [exact Hxy|].
      eapply Forall_impl; [|exact Hy].
      intros z Hyz. exact (le_trans x y z Hxy Hyz).
    + constructor; [exact IH|].
      apply Forall_forall. intros z Hz.
      apply (Permutation_in z (Permutation_sym (insert_by_perm x l))) in Hz.
      destruct Hz as [<-|Hz]; [apply le_total, Hxy|].
      rewrite Forall_forall in Hy. apply Hy, Hz.
Qed.

Lemma sort_by_sorted (l : list A) :
  StronglySorted (fun a b => le a b = true) (sort_by le l).
Proof.
  induction l as [|x l IH]; simpl; [constructor|].
  apply insert_by_sorted, IH.
Qed.

End Sorting.

(** ** Distinct keys and [$group] *)

Section Grouping.

Context {K : Type}.
Variable eqb : K -> K -> bool.
Hypothesis eqb_spec : forall a b, eqb a b = true <-> a = b.

Lemma distinct_In (l : list K) (k : K) : In k (distinct eqb l) <-> In k l.
Proof.
  induction l as [|x l IH]; simpl; [tauto|].
  rewrite filter_In, IH. split.
  - intros [H|[H _]]; auto.
  - intros [H|H]; [auto|].
    destruct (eqb k x) eqn:E.
    + left. symmetry. apply eqb_spec, E.
    + right. auto.
Qed.

Lemma distinct_NoDup (l : list K) : NoDup (distinct eqb l).
Proof.
  induction l as [|x l IH]; simpl; constructor.
  - rewrite filter_In. intros [_ H].
    assert (E : eqb x x = true) by (apply eqb_spec; reflexivity).
    rewrite E in H. discriminate H.
  - apply NoDup_filter, IH.
Qed.

Variable key : Transaction -> K.

Lemma group_sum_keys (docs : list Transaction) :
  map fst (group_sum eqb key docs) = distinct eqb (map key docs).
Proof.
  unfold group_sum. rewrite map_map. simpl. apply map_id.
Qed.

Lemma group_sum_NoDup (docs : list Transaction) :
  NoDup (map fst (group_sum eqb key docs)).
Proof. rewrite group_sum_keys. apply distinct_NoDup. Qed.

Lemma group_sum_In (docs : list Transaction) (k : K) (q : Q) :
  In (k, q) (group_sum eqb key docs)
  <-> (exists t, In t docs /\ key t = k)
      /\ q = sum_amounts (filter (fun t => eqb (key t) k) docs).
Proof.
  unfold group_sum. rewrite in_map_iff. split.
  - intros [k' [E Hk]]. inversion E; subst. split; [|reflexivity].
    apply distinct_In, in_map_iff in Hk as [t [Ht Hin]]. eauto.
  - intros [[t [Hin Ht]] ->]. exists k. split; [reflexivity|].
    apply distinct_In, in_map_iff. eauto.
Qed.

Lemma group_sum_length (docs : list Transaction) :
  (List.length (group_sum eqb key docs) <= List.length docs)%nat.
Proof.
  unfold group_sum. rewrite List.length_map.
  assert (H : forall l : list K, (List.length (distinct eqb l) <= List.length l)%nat).
  { induction l as [|x l IH]; simpl; [lia|].
    pose proof (filter_length_le (fun k' => negb (eqb k' x)) (distinct eqb l)).
    lia. }
  rewrite <- (List.length_map key docs). apply H.
Qed.

End Grouping.

Lemma month_type_eqb_spec (a b : string * tx_type) :
  month_type_eqb a b = true <-> a = b.
Proof.
  destruct a as [m1 t1], b as [m2 t2]. unfold month_type_eqb. simpl.
  rewrite andb_true_iff, String.eqb_eq. split.
  - intros [-> H]. destruct t1, t2; try discriminate; reflexivity.
  - intro E. inversion E; subst. split; [reflexivity|]. destruct t2; reflexivity.
Qed.

(** ** Sorted lists *)

Section SortedLists.

Context {A : Type}.
Variable R : A -> A -> Prop.

Lemma StronglySorted_firstn (n : nat) (l : list A) :
  StronglySorted R l -> StronglySorted R (firstn n l).
Proof.
  intro H. revert n. induction H as [|x l Hs IH Hx]; intros [|n]; simpl;
    try constructor.
  - apply IH.
  - rewrite Forall_forall in *. intros y Hy. apply Hx.
    rewrite <- (firstn_skipn n l). apply in_or_app. left. exact Hy.
Qed.

Lemma StronglySorted_cross (l1 l2 : list A) :
  StronglySorted R (l1 ++ l2)%list ->
  forall x y, In x l1 -> In y l2 -> R x y.
Proof.
  induction l1 as [|a l1 IH]; simpl; intros H x y Hx Hy; [contradiction|].
  inversion H as [|a' l' Hs Ha]; subst. destruct Hx as [<-|Hx].
  - rewrite Forall_forall in Ha. apply Ha, in_or_app. right. exact Hy.
  - exact (IH Hs x y Hx Hy).
Qed.

Lemma StronglySorted_map {B : Type} (f : B -> A) (l : list B) :
  StronglySorted (fun a b => R (f a) (f b)) l -> StronglySorted R (map f l).
Proof.
  induction 1 as [|x l Hs IH Hx]; simpl; constructor; [exact IH|].
  rewrite Forall_forall in *. intros y Hy.
  apply in_map_iff in Hy as [b [<- Hb]]. apply Hx, Hb.
Qed.

End SortedLists.

Lemma StronglySorted_weaken {A : Type} (R S : A -> A -> Prop) (l : list A) :
  (forall a b, R a b -> S a b) -> StronglySorted R l -> StronglySorted S l.
Proof.
  intros HRS. induction 1 as [|x l Hs IH Hx]; constructor; [exact IH|].
  eapply Forall_impl; [|exact Hx]. intros y. apply HRS.
Qed.

Lemma In_firstn {A : Type} (n : nat) (l : list A) (x : A) :
  In x (firstn n l) -> In x l.
Proof.
  intro H. rewrite <- (firstn_skipn n l). apply in_or_app. left. exact H.
Qed.

(** In a sorted list cut after [n] elements, what was cut off comes after
    everything that was kept. *)
Lemma firstn_sorted_top {A : Type} (R : A -> A -> Prop) (n : nat) (l : list A) :
  StronglySorted R l ->
  forall y, In y l -> In y (firstn n l)
            \/ (List.length (firstn n l) = n
                /\ forall x, In x (firstn n l) -> R x y).
Proof.
  intros Hs y Hy. rewrite <- (firstn_skipn n l) in Hy, Hs.
  apply in_app_or in Hy as [Hy|Hy]; [left; exact Hy|]. right. split.
  - apply firstn_length_le.
    destruct (Nat.le_gt_cases n (List.length l)) as [Hle|Hgt]; [exact Hle|].
    rewrite skipn_all2 in Hy by lia. contradiction.
  - intros x Hx. exact (StronglySorted_cross R _ _ Hs x y Hx Hy).
Qed.

(** ** [get_analytics]: the category breakdown *)

Lemma get_analytics_run (start_month end_month : option string)
    (user_id : string) (clock : Clock) (s : Store) :
  get_analytics start_month end_month user_id clock s
  = (Ok (mkAnalytics
           (map (fun c => mkCategoryAmount (fst c) (snd c))
              (firstn 20
                 (category_pipeline user_id
                    (or_default start_month (lookback_month clock))
                    (or_default end_month (now_month clock))
                    (transactions s))))
           (sort_by record_asc
              (map snd
                 (pivot
                    (firstn 100
                       (monthly_pipeline user_id
                          (or_default start_month (lookback_month clock))
                          (or_default end_month (now_month clock))
                          (transactions s))))))
           (or_default start_month (lookback_month clock))
           (or_default end_month (now_month clock))), s).
Proof. reflexivity. Qed.

Lemma total_desc_total (a b : string * Q) :
  total_desc a b = false -> total_desc b a = true.
Proof.
  unfold total_desc. intro H. apply Qle_bool_iff.
  destruct (Qlt_le_dec (snd a) (snd b)) as [Hlt|Hle].
  - apply Qlt_le_weak, Hlt.
  - apply Qle_bool_iff in Hle. rewrite Hle in H. discriminate H.
Qed.

Lemma total_desc_trans (a b c : string * Q) :
  total_desc a b = true -> total_desc b c = true -> total_desc a c = true.
Proof.
  unfold total_desc. rewrite !Qle_bool_iff. intros Hab Hbc.
  exact (Qle_trans _ _ _ Hbc Hab).
Qed.

Lemma category_pipeline_sorted (user_id start_month end_month : string)
    (docs : list Transaction) :
  StronglySorted (fun a b => snd b <= snd a)
    (category_pipeline user_id start_month end_month docs).
Proof.
  apply StronglySorted_weaken with (R := fun a b => total_desc a b = true).
  - intros a b H. apply Qle_bool_iff, H.
  - apply sort_by_sorted; [apply total_desc_total|apply total_desc_trans].
Qed.

Lemma category_pipeline_In (user_id start_month end_month : string)
    (docs : list Transaction) (c : string) (q : Q) :
  In (c, q) (category_pipeline user_id start_month end_month docs)
  <-> (exists t, In t (filter (category_match user_id start_month end_month) docs)
                 /\ t_category t = c)
      /\ q = sum_amounts
               (filter (fun t => String.eqb (t_category t) c)
                  (filter (category_match user_id start_month end_month) docs)).
Proof.
  unfold category_pipeline, category_groups. rewrite sort_by_In.
  apply group_sum_In. apply String.eqb_eq.
Qed.

Lemma in_range_lex (start_month end_month : string) (t : Transaction) :
  in_range start_month end_month t = true
  <-> lex_le (start_month ++ "-01") (t_date t)
      /\ lex_le (t_date t) (end_month ++ "-31").
Proof.
  unfold in_range, date_between.
  rewrite andb_true_iff, !str_leb_lex_le. reflexivity.
Qed.

Lemma monthly_match_spec (user_id start_month end_month : string)
    (t : Transaction) :
  monthly_match user_id start_month end_month t = true
  <-> t_user_id t = user_id
      /\ lex_le (start_month ++ "-01") (t_date t)
      /\ lex_le (t_date t) (end_month ++ "-31").
Proof.
  unfold monthly_match.
  rewrite andb_true_iff, String.eqb_eq, in_range_lex. reflexivity.
Qed.

Lemma category_match_spec (user_id start_month end_month : string)
    (t : Transaction) :
  category_match user_id start_month end_month t = true
  <-> t_user_id t = user_id /\ t_type t = expense
      /\ lex_le (start_month ++ "-01") (t_date t)
      /\ lex_le (t_date t) (end_month ++ "-31").
Proof.
  unfold category_match.
  rewrite !andb_true_iff, String.eqb_eq, in_range_lex. unfold is_expense.
  split.
  - intros [[Hu He] Hr]. repeat split; try tauto.
    destruct (t_type t); [discriminate He|reflexivity].
  - intros [Hu [He Hr]]. rewrite He. tauto.
Qed.

Lemma category_match_income (user_id start_month end_month : string)
    (t : Transaction) :
  t_type t = income -> category_match user_id start_month end_month t = false.
Proof.
  intro H. unfold category_match.
  rewrite (is_expense_income t H), andb_false_r. reflexivity.
Qed.

(** Whatever order the store gives to groups of equal total: the first [n]
    of any descending arrangement of the groups are groups, pairwise of
    different keys, in descending order, and no smaller than the groups left
    out. *)
Lemma top_of_sorted_groups (groups sorted : list (string * Q)) (n : nat) :
  Permutation groups sorted ->
  StronglySorted (fun a b => snd b <= snd a) sorted ->
  NoDup (map fst groups) ->
  let top := map (fun c => mkCategoryAmount (fst c) (snd c)) (firstn n sorted) in
  (forall e, In e top -> In (ca_category e, ca_amount e) groups)
  /\ NoDup (map ca_category top)
  /\ StronglySorted (fun x y => ca_amount y <= ca_amount x) top
  /\ (List.length top <= n)%nat
  /\ (forall g, In g groups ->
        In (mkCategoryAmount (fst g) (snd g)) top
        \/ (List.length top = n
            /\ forall e, In e top -> snd g <= ca_amount e)).
Proof.
  intros Hperm Hsorted Hnd top. subst top.
  split; [|split; [|split; [|split]]].
  - intros e He. apply in_map_iff in He as [[c q] [<- Hin]].
    apply In_firstn in Hin. simpl.
    exact (Permutation_in _ (Permutation_sym Hperm) Hin).
  - replace (map ca_category
               (map (fun c => mkCategoryAmount (fst c) (snd c))
                  (firstn n sorted)))
      with (firstn n (map fst sorted))
      by (rewrite firstn_map, map_map; reflexivity).
    assert (Hnd' : NoDup (map fst sorted))
      by (eapply Permutation_NoDup; [apply Permutation_map, Hperm|exact Hnd]).
    rewrite <- (firstn_skipn n (map fst sorted)) in Hnd'.
    apply NoDup_app_remove_r in Hnd'. exact Hnd'.
  - apply StronglySorted_map with (R := fun x y => ca_amount y <= ca_amount x).
    cbn [ca_amount]. apply StronglySorted_firstn, Hsorted.
  - rewrite List.length_map. apply firstn_le_length.
  - intros g Hg. apply (Permutation_in _ Hperm) in Hg.
    destruct (firstn_sorted_top _ n sorted Hsorted _ Hg) as [H|[Hlen Htop]].
    + left. apply in_map_iff. exists g. split; [reflexivity|exact H].
    + right. rewrite List.length_map. split; [exact Hlen|].
      intros e He. apply in_map_iff in He as [x [<- Hx]]. simpl.
      exact (Htop x Hx).
Qed.

(** C2: the category breakdown lists categories of the user's expense
    transactions in the date range, each with the sum of the amounts of
    those transactions in that category; it has no category twice, is sorted
    by amount in descending order and holds at most 20 entries, a category
    left out having a total no larger than any entry kept; inserting an
    income transaction anywhere in the ledger does not change it. *)
Theorem category_breakdown_groups_expenses :
  forall (start_month end_month : option string) (user_id : string)
         (clock : Clock) (s : Store),
    let sm := or_default start_month (lookback_month clock) in
    let em := or_default end_month (now_month clock) in
    let expenses := filter (category_match user_id sm em) (transactions s) in
    let total c := sum_amounts
                     (filter (fun t => String.eqb (t_category t) c) expenses) in
    exists a : Analytics,
      get_analytics start_month end_month user_id clock s = (Ok a, s)
      /\ (forall e, In e (category_breakdown a) ->
            (exists t, In t expenses /\ t_type t = expense
                       /\ t_category t = ca_category e)
            /\ ca_amount e = total (ca_category e))
      /\ NoDup (map ca_category (category_breakdown a))
      /\ StronglySorted (fun x y => ca_amount y <= ca_amount x)
           (category_breakdown a)
      /\ (List.length (category_breakdown a) <= 20)%nat
      /\ (forall t, In t expenses ->
            In (mkCategoryAmount (t_category t) (total (t_category t)))
               (category_breakdown a)
            \/ (List.length (category_breakdown a) = 20%nat
                /\ forall e, In e (category_breakdown a) ->
                             total (t_category t) <= ca_amount e))
      /\ (forall (l1 l2 : list Transaction) (bs : list Budget) (t : Transaction),
            t_type t = income ->
            result_map category_breakdown
              (fst (get_analytics start_month end_month user_id clock
                      (mkStore (l1 ++ t :: l2) bs)))
            = result_map category_breakdown
                (fst (get_analytics start_month end_month user_id clock
                        (mkStore (l1 ++ l2) bs)))).
Proof.
  intros start_month end_month user_id clock s sm em expenses total.
  eexists. split; [apply get_analytics_run|]. cbn [category_breakdown].
  fold sm em.
  destruct (top_of_sorted_groups
              (category_groups user_id sm em (transactions s))
              (category_pipeline user_id sm em (transactions s)) 20)
    as [Hin [Hnd [Hsorted [Hlen Htop]]]].
  - apply sort_by_perm.
  - apply category_pipeline_sorted.
  - apply group_sum_NoDup, String.eqb_eq.
  - split; [|split; [|split; [|split; [|split]]]].
    + intros e He. apply Hin in He.
      apply (group_sum_In String.eqb String.eqb_eq) in He as [[t [Ht Hc]] Hq].
      split; [|exact Hq]. exists t. split; [exact Ht|]. split; [|exact Hc].
      apply filter_In in Ht as [_ Ht].
      apply category_match_spec in Ht. tauto.
    + exact Hnd.
    + exact Hsorted.
    + exact Hlen.
    + intros t Ht. apply (Htop (t_category t, total (t_category t))).
      apply (group_sum_In String.eqb String.eqb_eq). split; [|reflexivity].
      exists t. split; [exact Ht|reflexivity].
    + intros l1 l2 bs t Ht. rewrite !get_analytics_run.
      cbn [fst result_map category_breakdown transactions].
      unfold category_pipeline, category_groups.
      rewrite filter_skip by (apply category_match_income, Ht). reflexivity.
Qed.

(** ** The pivot loop of [get_analytics] *)

Lemma distinct_snoc (l : list string) (m : string) :
  distinct String.eqb (l ++ [m])
  = if existsb (String.eqb m) l then distinct String.eqb l
    else (distinct String.eqb l ++ [m])%list.
Proof.
  induction l as [|k l IH]; simpl; [reflexivity|].
  rewrite IH. destruct (String.eqb m k) eqn:Emk; simpl.
  - destruct (existsb (String.eqb m) l); [reflexivity|].
    rewrite filter_app. simpl. rewrite Emk. simpl.
    rewrite app_nil_r. reflexivity.
  - destruct (existsb (String.eqb m) l); [reflexivity|].
    rewrite filter_app. simpl. rewrite Emk. reflexivity.
Qed.

Lemma existsb_eqb_In (m : string) (l : list string) :
  existsb (String.eqb m) l = true <-> In m l.
Proof.
  rewrite existsb_exists. split.
  - intros [x [Hx E]]. apply String.eqb_eq in E. subst x. exact Hx.
  - intro H. exists m. split; [exact H|apply String.eqb_refl].
Qed.

Lemma dict_mem_map (g : string -> MonthRecord) (l : list string) (m : string) :
  dict_mem m (map (fun k => (k, g k)) l) = existsb (String.eqb m) l.
Proof.
  induction l as [|k l IH]; simpl; [reflexivity|].
  rewrite IH, (String.eqb_sym k m). reflexivity.
Qed.

Lemma dict_update_map (f : MonthRecord -> MonthRecord)
    (g g' : string -> MonthRecord) (l : list string) (m : string) :
  NoDup l ->
  g' m = f (g m) ->
  (forall k, k <> m -> g' k = g k) ->
  dict_update m f (map (fun k => (k, g k)) l) = map (fun k => (k, g' k)) l.
Proof.
  intros Hnd Hm Hother. induction l as [|k l IH]; simpl; [reflexivity|].
  inversion Hnd as [|k' l' Hk Hl]; subst.
  destruct (String.eqb k m) eqn:E.
  - apply String.eqb_eq in E. subst k. rewrite Hm. f_equal.
    apply map_ext_in. intros k Hin. rewrite Hother; [reflexivity|].
    intros ->. contradiction.
  - apply String.eqb_neq in E. rewrite (Hother k E), (IH Hl). reflexivity.
Qed.

Lemma find_snoc {A : Type} (p : A -> bool) (l : list A) (x : A) :
  find p (l ++ [x]) = match find p l with
                      | Some y => Some y
                      | None => if p x then Some x else None
                      end.
Proof.
  induction l as [|y l IH]; simpl; [reflexivity|].
  destruct (p y); [reflexivity|exact IH].
Qed.

Lemma find_none_key (G : list ((string * tx_type) * Q)) (k : string * tx_type) :
  ~ In k (map fst G) -> find (fun item => month_type_eqb (fst item) k) G = None.
Proof.
  intro H. destruct (find _ G) as [item|] eqn:E; [|reflexivity].
  apply find_some in E as [Hin Hk]. apply month_type_eqb_spec in Hk.
  exfalso. apply H. rewrite <- Hk. apply in_map, Hin.
Qed.

Lemma lookup_total_absent_month (G : list ((string * tx_type) * Q))
    (m : string) (ty : tx_type) :
  ~ In m (map item_month G) -> lookup_total G m ty = 0.
Proof.
  intro H. unfold lookup_total. rewrite find_none_key; [reflexivity|].
  intro Hin. apply H. apply in_map_iff in Hin as [item [Hk Hitem]].
  apply in_map_iff. exists item. split; [|exact Hitem].
  unfold item_month. rewrite Hk. reflexivity.
Qed.

Lemma lookup_total_snoc (G : list ((string * tx_type) * Q))
    (m : string) (ty : tx_type) (q : Q) (m' : string) (ty' : tx_type) :
  ~ In (m, ty) (map fst G) ->
  lookup_total (G ++ [((m, ty), q)]) m' ty'
  = if month_type_eqb (m, ty) (m', ty') then q else lookup_total G m' ty'.
Proof.
  intro Hfresh. unfold lookup_total. rewrite find_snoc. cbn [fst snd].
  destruct (month_type_eqb (m, ty) (m', ty')) eqn:E.
  - apply month_type_eqb_spec in E. inversion E; subst.
    rewrite (find_none_key G _ Hfresh). reflexivity.
  - destruct (find _ G); reflexivity.
Qed.

(** The dict built by the loop holds, in order of first appearance, one
    record per month of [monthly_data], with the totals of its groups. *)
Lemma pivot_closed_form (G : list ((string * tx_type) * Q)) :
  NoDup (map fst G) ->
  pivot G = map (fun m => (m, month_record G m))
              (distinct String.eqb (map item_month G)).
Proof.
  unfold pivot. induction G as [|[[m ty] q] G IH] using rev_ind; intro Hnd;
    [reflexivity|].
  rewrite map_app in Hnd. simpl in Hnd.
  assert (Hfresh : ~ In (m, ty) (map fst G)).
  { apply NoDup_remove_2 in Hnd. rewrite app_nil_r in Hnd. exact Hnd. }
  apply NoDup_remove_1 in Hnd. rewrite app_nil_r in Hnd.
  rewrite fold_left_app, (IH Hnd). cbn [fold_left].
  rewrite map_app. cbn [map]. unfold item_month at 3. cbn [fst].
  rewrite distinct_snoc. unfold pivot_step. cbn [fst snd].
  rewrite dict_mem_map.
  pose proof (distinct_NoDup String.eqb String.eqb_eq (map item_month G)) as HndD.
  assert (Hother : forall k, k <> m ->
            month_record (G ++ [((m, ty), q)]) k = month_record G k).
  { intros k Hk. unfold month_record.
    rewrite !lookup_total_snoc by exact Hfresh. unfold month_type_eqb.
    cbn [fst snd]. apply not_eq_sym, String.eqb_neq in Hk. rewrite Hk.
    reflexivity. }
  destruct (existsb (String.eqb m) (distinct String.eqb (map item_month G)))
    eqn:Emem.
  - assert (Emem' : existsb (String.eqb m) (map item_month G) = true).
    { apply existsb_eqb_In. apply existsb_eqb_In in Emem.
      exact (proj1 (distinct_In String.eqb String.eqb_eq _ _) Emem). }
    rewrite Emem'. apply dict_update_map; [exact HndD| |exact Hother].
    unfold month_record. rewrite !lookup_total_snoc by exact Hfresh.
    unfold month_type_eqb. cbn [fst snd]. rewrite String.eqb_refl.
    destruct ty; reflexivity.
  - assert (Emem' : existsb (String.eqb m) (map item_month G) = false).
    { apply not_true_is_false. intro H. apply existsb_eqb_In in H.
      apply (proj2 (distinct_In String.eqb String.eqb_eq _ _)) in H.
      apply existsb_eqb_In in H. rewrite H in Emem. discriminate Emem. }
    rewrite Emem'.
    replace (map (fun k => (k, month_record G k))
               (distinct String.eqb (map item_month G))
             ++ [(m, mkMonthRecord m 0 0)])%list
      with (map (fun k => (k, if String.eqb k m then mkMonthRecord m 0 0
                              else month_record G k))
              (distinct String.eqb (map item_month G) ++ [m])%list).
    2:{ rewrite map_app. cbn [map]. rewrite String.eqb_refl. f_equal.
        apply map_ext_in. intros k Hk.
        destruct (String.eqb k m) eqn:E; [|reflexivity].
        apply String.eqb_eq in E. subst k. exfalso.
        apply existsb_eqb_In in Hk. rewrite Hk in Emem. discriminate Emem. }
    apply dict_update_map.
    + apply NoDup_app; [exact HndD|repeat constructor; intros []|].
      intros k Hk [<-|[]]. apply existsb_eqb_In in Hk.
      rewrite Hk in Emem. discriminate Emem.
    + rewrite String.eqb_refl. unfold month_record.
      rewrite !lookup_total_snoc by exact Hfresh.
      unfold month_type_eqb. cbn [fst snd]. rewrite String.eqb_refl.
      assert (Habs : ~ In m (map item_month G)).
      { intro H. apply existsb_eqb_In in H. rewrite H in Emem'.
        discriminate Emem'. }
      destruct ty; cbn [tx_type_eqb andb set_type mr_month mr_income mr_expense];
        rewrite (lookup_total_absent_month G m _ Habs); reflexivity.
    + intros k Hk. apply String.eqb_neq in Hk as Hk'. rewrite Hk'.
      apply Hother, Hk.
Qed.

(** ** [get_analytics]: the monthly trend *)

Lemma filter_none {A : Type} (p : A -> bool) (l : list A) :
  (forall x, In x l -> p x = false) -> filter p l = [].
Proof.
  induction l as [|x l IH]; simpl; intro H; [reflexivity|].
  rewrite (H x (or_introl eq_refl)). apply IH. intros y Hy. apply H. right.
  exact Hy.
Qed.

Lemma monthly_pipeline_In (user_id start_month end_month : string)
    (docs : list Transaction) (k : string * tx_type) (q : Q) :
  In (k, q) (monthly_pipeline user_id start_month end_month docs)
  <-> (exists t, In t (filter (monthly_match user_id start_month end_month) docs)
                 /\ month_type_key t = k)
      /\ q = sum_amounts
               (filter (fun t => month_type_eqb (month_type_key t) k)
                  (filter (monthly_match user_id start_month end_month) docs)).
Proof.
  unfold monthly_pipeline, monthly_groups. rewrite sort_by_In.
  apply group_sum_In. apply month_type_eqb_spec.
Qed.

Lemma monthly_pipeline_NoDup (user_id start_month end_month : string)
    (docs : list Transaction) :
  NoDup (map fst (monthly_pipeline user_id start_month end_month docs)).
Proof.
  eapply Permutation_NoDup.
  - apply Permutation_map, sort_by_perm.
  - apply group_sum_NoDup, month_type_eqb_spec.
Qed.

Lemma monthly_pipeline_months (user_id start_month end_month : string)
    (docs : list Transaction) (m : string) :
  In m (map item_month (monthly_pipeline user_id start_month end_month docs))
  <-> exists t, In t (filter (monthly_match user_id start_month end_month) docs)
                /\ month_of (t_date t) = m.
Proof.
  rewrite in_map_iff. split.
  - intros [[[m' ty] q] [Hm Hin]]. unfold item_month in Hm. simpl in Hm. subst m'.
    apply monthly_pipeline_In in Hin as [[t [Ht Hk]] _].
    exists t. split; [exact Ht|]. unfold month_type_key in Hk.
    inversion Hk. reflexivity.
  - intros [t [Ht Hm]].
    exists (month_type_key t,
            sum_amounts
              (filter (fun t' => month_type_eqb (month_type_key t')
                                   (month_type_key t))
                 (filter (monthly_match user_id start_month end_month) docs))).
    split; [exact Hm|]. apply monthly_pipeline_In. split; [|reflexivity].
    exists t. split; [exact Ht|reflexivity].
Qed.

Lemma lookup_total_pipeline (user_id start_month end_month : string)
    (docs : list Transaction) (m : string) (ty : tx_type) :
  lookup_total (monthly_pipeline user_id start_month end_month docs) m ty
  = month_total ty m (filter (monthly_match user_id start_month end_month) docs).
Proof.
  unfold lookup_total, month_total.
  destruct (find _ (monthly_pipeline user_id start_month end_month docs))
    as [[k q]|] eqn:E.
  - apply find_some in E as [Hin Hk]. simpl in Hk.
    apply month_type_eqb_spec in Hk. subst k.
    apply monthly_pipeline_In in Hin as [_ ->]. reflexivity.
  - rewrite (filter_none (fun t => String.eqb (month_of (t_date t)) m
                                   && tx_type_eqb (t_type t) ty));
      [reflexivity|].
    intros t Ht. apply not_true_is_false. intro Hp.
    assert (Hk : month_type_key t = (m, ty)) by (apply month_type_eqb_spec, Hp).
    pose proof (find_none _ _ E) as Hnone.
    assert (Hin : In (month_type_key t,
                      sum_amounts
                        (filter (fun t' => month_type_eqb (month_type_key t')
                                             (month_type_key t))
                           (filter (monthly_match user_id start_month end_month)
                              docs)))
                    (monthly_pipeline user_id start_month end_month docs)).
    { apply monthly_pipeline_In. split; [|reflexivity]. exists t. auto. }
    apply Hnone in Hin. simpl in Hin. rewrite Hk in Hin.
    assert (Hrefl : month_type_eqb (m, ty) (m, ty) = true)
      by (apply month_type_eqb_spec; reflexivity).
    rewrite Hrefl in Hin. discriminate Hin.
Qed.

Lemma record_asc_total (a b : MonthRecord) :
  record_asc a b = false -> record_asc b a = true.
Proof. apply str_leb_total. Qed.

Lemma record_asc_trans (a b c : MonthRecord) :
  record_asc a b = true -> record_asc b c = true -> record_asc a c = true.
Proof. apply str_leb_trans. Qed.

(** ** The trend does not depend on the order of the groups *)

Lemma NoDup_fst_functional {K V : Type} (l : list (K * V)) (k : K) (v v' : V) :
  NoDup (map fst l) -> In (k, v) l -> In (k, v') l -> v = v'.
Proof.
  induction l as [|[k0 v0] l IH]; simpl; intros Hnd H H'; [contradiction|].
  inversion Hnd as [|x xs Hk Hl]; subst.
  destruct H as [H|H], H' as [H'|H'].
  - congruence.
  - inversion H; subst. exfalso. apply Hk.
    change k with (fst (k, v')). apply in_map, H'.
  - inversion H'; subst. exfalso. apply Hk.
    change k with (fst (k, v)). apply in_map, H.
  - exact (IH Hl H H').
Qed.

Lemma lookup_total_In (G : list ((string * tx_type) * Q))
    (m : string) (ty : tx_type) (q : Q) :
  NoDup (map fst G) -> In ((m, ty), q) G -> lookup_total G m ty = q.
Proof.
  intros Hnd Hin. unfold lookup_total.
  destruct (find _ G) as [[k q']|] eqn:E.
  - apply find_some in E as [Hin' Hk]. simpl in Hk.
    apply month_type_eqb_spec in Hk. subst k. simpl.
    exact (NoDup_fst_functional G _ _ _ Hnd Hin' Hin).
  - pose proof (find_none _ _ E _ Hin) as H. simpl in H.
    assert (Hrefl : month_type_eqb (m, ty) (m, ty) = true)
      by (apply month_type_eqb_spec; reflexivity).
    rewrite Hrefl in H. discriminate H.
Qed.

Lemma lookup_total_perm (G G' : list ((string * tx_type) * Q))
    (m : string) (ty : tx_type) :
  NoDup (map fst G) -> Permutation G G' ->
  lookup_total G' m ty = lookup_total G m ty.
Proof.
  intros Hnd Hperm.
  assert (Hnd' : NoDup (map fst G'))
    by (eapply Permutation_NoDup; [apply Permutation_map, Hperm|exact Hnd]).
  destruct (find (fun item => month_type_eqb (fst item) (m, ty)) G)
    as [[k q]|] eqn:E.
  - apply find_some in E as [Hin Hk]. simpl in Hk.
    apply month_type_eqb_spec in Hk. subst k.
    rewrite (lookup_total_In G m ty q Hnd Hin).
    apply lookup_total_In; [exact Hnd'|]. exact (Permutation_in _ Hperm Hin).
  - unfold lookup_total. rewrite E. rewrite find_none_key; [reflexivity|].
    intro Hin. apply in_map_iff in Hin as [[k q] [Hk Hin]]. simpl in Hk. subst k.
    apply (Permutation_in _ (Permutation_sym Hperm)) in Hin.
    pose proof (find_none _ _ E _ Hin) as H. simpl in H.
    assert (Hrefl : month_type_eqb (m, ty) (m, ty) = true)
      by (apply month_type_eqb_spec; reflexivity).
    rewrite Hrefl in H. discriminate H.
Qed.

(** Two ascending arrangements of the same records, no two of the same
    month, are the same list. *)
Lemma sorted_records_unique (l1 l2 : list MonthRecord) :
  Permutation l1 l2 ->
  NoDup (map mr_month l1) ->
  StronglySorted (fun a b => record_asc a b = true) l1 ->
  StronglySorted (fun a b => record_asc a b = true) l2 ->
  l1 = l2.
Proof.
  revert l2. induction l1 as [|x l1 IH]; intros l2 Hperm Hnd Hs1 Hs2.
  - apply Permutation_nil in Hperm. symmetry. exact Hperm.
  - destruct l2 as [|y l2];
      [apply Permutation_sym, Permutation_nil in Hperm; discriminate Hperm|].
    inversion Hnd as [|k ks Hk Hl]; subst.
    inversion Hs1 as [|x' l1' Hs1' Hx]; subst.
    inversion Hs2 as [|y' l2' Hs2' Hy]; subst.
    rewrite Forall_forall in Hx, Hy.
    assert (Hxy : x = y).
    { assert (Hxin : In x (y :: l2))
        by (apply (Permutation_in _ Hperm); left; reflexivity).
      assert (Hyin : In y (x :: l1))
        by (apply (Permutation_in _ (Permutation_sym Hperm)); left;
            reflexivity).
      destruct Hxin as [Hxin|Hxin]; [symmetry; exact Hxin|].
      destruct Hyin as [Hyin|Hyin]; [exact Hyin|].
      exfalso. apply Hk.
      rewrite (str_leb_antisym _ _ (Hx y Hyin) (Hy x Hxin)).
      apply in_map, Hyin. }
    subst y. f_equal. apply IH; try assumption.
    exact (Permutation_cons_inv Hperm).
Qed.

(** The records built from the groups are the same in whatever order the
    groups are handed to the loop, as long as all of them are. *)
Lemma monthly_trend_order_independent (G G' : list ((string * tx_type) * Q)) :
  NoDup (map fst G) -> Permutation G G' ->
  sort_by record_asc (map snd (pivot G'))
  = sort_by record_asc (map snd (pivot G)).
Proof.
  intros Hnd Hperm.
  assert (Hnd' : NoDup (map fst G'))
    by (eapply Permutation_NoDup; [apply Permutation_map, Hperm|exact Hnd]).
  rewrite (pivot_closed_form G Hnd), (pivot_closed_form G' Hnd'), !map_map.
  cbn [snd].
  set (months := distinct String.eqb (map item_month G)).
  set (months' := distinct String.eqb (map item_month G')).
  assert (Hmonths : Permutation months' months).
  { apply NoDup_Permutation; try apply distinct_NoDup, String.eqb_eq.
    intro m. unfold months, months'.
    rewrite !(distinct_In String.eqb String.eqb_eq).
    split; apply Permutation_in, Permutation_map;
      [apply Permutation_sym|]; exact Hperm. }
  assert (Hrecords : Permutation (map (month_record G') months')
                       (map (month_record G) months)).
  { rewrite (map_ext (month_record G') (month_record G)).
    - apply Permutation_map, Hmonths.
    - intro m. unfold month_record.
      rewrite !(lookup_total_perm G G') by assumption. reflexivity. }
  apply sorted_records_unique.
  - eapply perm_trans; [apply Permutation_sym, sort_by_perm|].
    eapply perm_trans; [exact Hrecords|apply sort_by_perm].
  - eapply Permutation_NoDup.
    + apply Permutation_map. eapply perm_trans; [|apply sort_by_perm].
      apply Permutation_sym, Hrecords.
    + rewrite map_map. cbn [month_record mr_month]. rewrite map_id.
      apply distinct_NoDup, String.eqb_eq.
  - apply sort_by_sorted; [apply record_asc_total|apply record_asc_trans].
  - apply sort_by_sorted; [apply record_asc_total|apply record_asc_trans].
Qed.

(** The trend when no group is cut off by [to_list(100)]. *)
Lemma monthly_trend_untruncated (user_id sm em : string)
    (docs : list Transaction) :
  let G := monthly_pipeline user_id sm em docs in
  (List.length (monthly_groups user_id sm em docs) <= 100)%nat ->
  sort_by record_asc (map snd (pivot (firstn 100 G)))
  = sort_by record_asc
      (map (month_record G) (distinct String.eqb (map item_month G))).
Proof.
  intros G Hlen.
  rewrite firstn_all2
    by (unfold G, monthly_pipeline; rewrite sort_by_length; exact Hlen).
  rewrite pivot_closed_form by apply monthly_pipeline_NoDup.
  rewrite map_map. reflexivity.
Qed.

(** C3 (as amended): when the transactions of the user in the date range
    fall into at most 100 (month, type) groups, the monthly trend has exactly
    one record per month (7-character date prefix) in which the user has a
    transaction in the range, and no other record; the [income] and
    [expense] of a record are the sums of the amounts of that month's
    income and expense transactions in the range, 0 when there is none; the
    records are in ascending order of the month string. *)
Theorem monthly_trend_one_record_per_active_month :
  forall (start_month end_month : option string) (user_id : string)
         (clock : Clock) (s : Store),
    let sm := or_default start_month (lookback_month clock) in
    let em := or_default end_month (now_month clock) in
    let in_range_txs := filter (monthly_match user_id sm em) (transactions s) in
    (List.length (monthly_groups user_id sm em (transactions s)) <= 100)%nat ->
    exists a : Analytics,
      get_analytics start_month end_month user_id clock s = (Ok a, s)
      /\ (forall m, In m (map mr_month (monthly_trend a))
                    <-> exists t, In t in_range_txs /\ month_of (t_date t) = m)
      /\ NoDup (map mr_month (monthly_trend a))
      /\ (forall r, In r (monthly_trend a) ->
            mr_income r = month_total income (mr_month r) in_range_txs
            /\ mr_expense r = month_total expense (mr_month r) in_range_txs)
      /\ StronglySorted (fun x y => lex_le (mr_month x) (mr_month y))
           (monthly_trend a).
Proof.
  intros start_month end_month user_id clock s sm em in_range_txs Hlen.
  subst in_range_txs. rewrite get_analytics_run. fold sm em.
  eexists. split; [reflexivity|]. cbn [monthly_trend].
  rewrite (monthly_trend_untruncated user_id sm em (transactions s) Hlen).
  set (G := monthly_pipeline user_id sm em (transactions s)).
  set (months := distinct String.eqb (map item_month G)).
  assert (Hmonths : map mr_month (map (month_record G) months) = months).
  { rewrite map_map. apply map_id. }
  assert (Hperm : Permutation months
            (map mr_month (sort_by record_asc (map (month_record G) months)))).
  { rewrite <- Hmonths at 1. apply Permutation_map, sort_by_perm. }
  split; [|split; [|split]].
  - intro m. split; intro H.
    + apply (Permutation_in m (Permutation_sym Hperm)) in H.
      apply (proj1 (distinct_In String.eqb String.eqb_eq _ _)) in H.
      exact (proj1 (monthly_pipeline_months _ _ _ _ _) H).
    + apply (proj2 (monthly_pipeline_months _ _ _ _ _)) in H.
      apply (proj2 (distinct_In String.eqb String.eqb_eq _ _)) in H.
      exact (Permutation_in m Hperm H).
  - eapply Permutation_NoDup; [exact Hperm|].
    apply distinct_NoDup, String.eqb_eq.
  - intros r Hr. apply sort_by_In, in_map_iff in Hr as [m [<- _]].
    unfold month_record, G. cbn [mr_income mr_expense mr_month].
    rewrite !lookup_total_pipeline. split; reflexivity.
  - apply StronglySorted_weaken with (R := fun a b => record_asc a b = true).
    + intros a b H. apply str_leb_lex_le, H.
    + apply sort_by_sorted; [apply record_asc_total|apply record_asc_trans].
Qed.

(** The scenario of the specification satisfies the bound on the number of
    groups, and its analytics are as the theorem says. *)
Lemma monthly_trend_scenario :
  (List.length (monthly_groups "user" "2024-03" "2024-03" scenario_ledger)
   <= 100)%nat
  /\ exists a : Analytics,
       get_analytics (Some "2024-03") (Some "2024-03") "user" fixed_clock
         scenario_store = (Ok a, scenario_store)
       /\ (forall m, In m (map mr_month (monthly_trend a))
                     <-> exists t,
                           In t (filter (monthly_match "user" "2024-03" "2024-03")
                                   scenario_ledger)
                           /\ month_of (t_date t) = m)
       /\ NoDup (map mr_month (monthly_trend a))
       /\ (forall r, In r (monthly_trend a) ->
             mr_income r
             = month_total income (mr_month r)
                 (filter (monthly_match "user" "2024-03" "2024-03")
                    scenario_ledger)
             /\ mr_expense r
                = month_total expense (mr_month r)
                    (filter (monthly_match "user" "2024-03" "2024-03")
                       scenario_ledger))
       /\ StronglySorted (fun x y => lex_le (mr_month x) (mr_month y))
            (monthly_trend a).
Proof.
  assert (H : (List.length
                 (monthly_groups "user" "2024-03" "2024-03" scenario_ledger)
               <= 100)%nat) by (vm_compute; lia).
  split; [exact H|].
  exact (monthly_trend_one_record_per_active_month
           (Some "2024-03") (Some "2024-03") "user" fixed_clock scenario_store H).
Defined.

(** The analytics of the scenario, computed. *)
Example get_analytics_scenario :
  get_analytics (Some "2024-03") (Some "2024-03") "user" fixed_clock
    scenario_store
  = (Ok (mkAnalytics [mkCategoryAmount "Food" 150]
           [mkMonthRecord "2024-03" 3000 150] "2024-03" "2024-03"),
     scenario_store).
Proof. reflexivity. Qed.

Lemma forallb_not_In (x : string) (l : list string) :
  forallb (fun y => negb (String.eqb y x)) l = true -> ~ In x l.
Proof.
  intros H Hin. rewrite forallb_forall in H. specialize (H x Hin).
  rewrite String.eqb_refl in H. discriminate H.
Qed.

(** C3 (as stated) fails beyond 100 groups: of 120 months with a salary
    entry each, all within the range, only the first 100 reach the trend;
    December 2019 has a transaction in the range and no record. *)
Lemma monthly_trend_cut_after_100_groups :
  exists a : Analytics,
    get_analytics (Some "2010-01") (Some "2019-12") "user" fixed_clock
      decade_store = (Ok a, decade_store)
    /\ (exists t, In t (filter (monthly_match "user" "2010-01" "2019-12")
                          (transactions decade_store))
                  /\ month_of (t_date t) = "2019-12")
    /\ ~ In "2019-12" (map mr_month (monthly_trend a))
    /\ List.length (monthly_trend a) = 100%nat.
Proof.
  eexists. split; [apply get_analytics_run|]. split; [|split].
  - exists (tx "t" "user" income 1 "Salary" "2019-12-15").
    split; [|reflexivity]. apply filter_In. split; [|reflexivity].
    apply in_flat_map. exists "2019". split; simpl; tauto.
  - apply forallb_not_In. vm_compute. reflexivity.
  - vm_compute. reflexivity.
Qed.

(** ** [calculate_spent]: no matching entry, and the sign of the result *)

(** C5 (as amended): for a month free of regular-expression metacharacters
    (well-formed or not), [calculate_spent] returns a value, and that value
    is 0 when no transaction passes the user / expense / category /
    month-prefix filter; and whatever the month, a value it returns is
    non-negative when no stored amount is negative. *)
Theorem calculate_spent_zero_and_nonnegative :
  forall (user_id category month : string) (s : Store),
    (literal_string month = true ->
     exists q, calculate_spent user_id category month s = (Ok q, s)
               /\ ((forall t, In t (transactions s) ->
                      spent_filter user_id category month t = false) ->
                   q = 0))
    /\ (forall q s',
          calculate_spent user_id category month s = (Ok q, s') ->
          (forall t, In t (transactions s) -> 0 <= t_amount t) ->
          0 <= q).
Proof.
  intros user_id category month s. split.
  - intro H. eexists. split; [apply calculate_spent_literal, H|].
    intro Hnone. unfold spec_spent. rewrite (filter_none _ _ Hnone).
    reflexivity.
  - intros q s' Hrun Hpos. rewrite calculate_spent_run in Hrun.
    destruct (regex_compile ("^" ++ month)) as [re|]; [|discriminate Hrun].
    injection Hrun as <- _. apply sum_amounts_nonneg.
    intros t Ht. apply filter_In in Ht as [Ht _]. apply Hpos, Ht.
Qed.

(** A malformed but literal month on the scenario: the result is 0, and the
    150 of the well-formed month is non-negative. *)
Lemma calculate_spent_zero_and_nonnegative_scenario :
  (exists q, calculate_spent "user" "Food" "March" scenario_store
             = (Ok q, scenario_store) /\ q = 0)
  /\ 0 <= 150.
Proof.
  destruct (calculate_spent_zero_and_nonnegative "user" "Food" "March"
              scenario_store) as [Hzero _].
  destruct (calculate_spent_zero_and_nonnegative "user" "Food" "2024-03"
              scenario_store) as [_ Hpos].
  split.
  - destruct (Hzero eq_refl) as [q [Hrun Hq]]. exists q. split; [exact Hrun|].
    apply Hq. intros t Ht. simpl in Ht.
    destruct Ht as [<-|[<-|[<-|[]]]]; reflexivity.
  - apply (Hpos 150 scenario_store eq_refl). intros t Ht. simpl in Ht.
    destruct Ht as [<-|[<-|[<-|[]]]]; discriminate.
Defined.

(** C5 (as stated) fails when the month holds a metacharacter: no date starts
    with the string [2024-1.], yet the pattern [^2024-1.] matches 2024-11-02
    and 40 is returned instead of 0. *)
Lemma calculate_spent_nonzero_without_prefix_match :
  (forall t, In t (transactions november_store) ->
             spent_filter "user" "Food" "2024-1." t = false)
  /\ calculate_spent "user" "Food" "2024-1." november_store
     = (Ok 40, november_store)
  /\ ~ 40 == 0.
Proof.
  split; [|split].
  - intros t [<-|[]]. reflexivity.
  - reflexivity.
  - discriminate.
Qed.

(** ** [get_analytics]: the date range *)

Lemma filter_implied {A : Type} (p q : A -> bool) (l : list A) :
  (forall x, p x = true -> q x = true) ->
  filter p (filter q l) = filter p l.
Proof.
  intro H. induction l as [|x l IH]; simpl; [reflexivity|].
  destruct (q x) eqn:Eq; simpl.
  - rewrite IH. reflexivity.
  - destruct (p x) eqn:Ep; [|exact IH].
    rewrite (H x Ep) in Eq. discriminate Eq.
Qed.

Lemma or_default_given (x default : string) :
  x <> EmptyString -> or_default (Some x) default = x.
Proof. destruct x; [congruence|reflexivity]. Qed.

Lemma filter_filter_iff {A : Type} (f g p : A -> bool) (l : list A) :
  (forall x, p x = true <-> g x = true /\ f x = true) ->
  filter f (filter g l) = filter p l.
Proof.
  intro H. induction l as [|x l IH]; [reflexivity|]. cbn [filter].
  destruct (g x) eqn:Eg; cbn [filter].
  - destruct (f x) eqn:Ef.
    + rewrite (proj2 (H x) (conj Eg Ef)), IH. reflexivity.
    + destruct (p x) eqn:Ep; [|exact IH].
      apply H in Ep as [_ Ep]. rewrite Ef in Ep. discriminate Ep.
  - destruct (p x) eqn:Ep; [|exact IH].
    apply H in Ep as [Ep _]. rewrite Eg in Ep. discriminate Ep.
Qed.

Lemma NoDup_map_firstn {A B : Type} (f : A -> B) (n : nat) (l : list A) :
  NoDup (map f l) -> NoDup (map f (firstn n l)).
Proof.
  intro H. rewrite <- firstn_map.
  rewrite <- (firstn_skipn n (map f l)) in H.
  exact (NoDup_app_remove_r _ _ H).
Qed.

(** The figures of a record of the trend, when no group is cut off: the
    sums over the matched transactions of its month, by type. *)
Lemma month_record_sums (user_id sm em : string) (docs : list Transaction)
    (m : string) (ty : tx_type) (p : Transaction -> bool) :
  (forall t, p t = true
             <-> monthly_match user_id sm em t = true
                 /\ t_type t = ty /\ month_of (t_date t) = m) ->
  lookup_total (monthly_pipeline user_id sm em docs) m ty
  = sum_amounts (filter p docs).
Proof.
  intro Hp. rewrite lookup_total_pipeline. unfold month_total. f_equal.
  apply filter_filter_iff. intro t.
  rewrite Hp, andb_true_iff, String.eqb_eq.
  assert (Hty : tx_type_eqb (t_type t) ty = true <-> t_type t = ty)
    by (destruct (t_type t), ty; simpl; split; congruence).
  rewrite Hty. tauto.
Qed.

(** C4: with [sm] and [em] the months in force (the given ones when given),
    a transaction is counted in the analytics exactly when it is one of the
    user whose date string lies between [sm ++ "-01"] and [em ++ "-31"] in
    the lexicographic order, bounds included: these are the transactions
    that the [$match] stage of the monthly pipeline passes on, and the
    expenses among them those that the category pipeline groups.  In the
    response, every entry of the category breakdown is the category of
    such an expense, and its amount is the sum over exactly the expenses of
    that kind in its category; every such expense has its category in the
    breakdown, unless 20 entries of totals no smaller are there.  Every
    record of the monthly trend is the month of such a transaction; while
    these transactions fall into at most 100 (month, type) groups, each of
    them has its month in the trend and the income and expense of a record
    are the sums over exactly the transactions of that kind in its month.
    A transaction of another user or outside the bounds changes nothing in
    the response.  The bounds compare raw strings: an expense dated
    2024-02-30 is counted in the analytics of 2024-02. *)
Theorem analytics_range_is_lexicographic :
  forall (start_month end_month : option string) (user_id : string)
         (clock : Clock) (s : Store),
    let sm := or_default start_month (lookback_month clock) in
    let em := or_default end_month (now_month clock) in
    let counted t := t_user_id t = user_id
                     /\ lex_le (sm ++ "-01") (t_date t)
                     /\ lex_le (t_date t) (em ++ "-31") in
    (forall x, start_month = Some x -> x <> EmptyString -> sm = x)
    /\ (forall y, end_month = Some y -> y <> EmptyString -> em = y)
    /\ (forall t, In t (filter (monthly_match user_id sm em) (transactions s))
                  <-> In t (transactions s) /\ counted t)
    /\ (forall t, In t (filter (category_match user_id sm em) (transactions s))
                  <-> In t (transactions s) /\ counted t
                      /\ t_type t = expense)
    /\ (exists a : Analytics,
          get_analytics start_month end_month user_id clock s = (Ok a, s)
          /\ (forall e, In e (category_breakdown a) ->
                (exists t, In t (transactions s) /\ counted t
                           /\ t_type t = expense
                           /\ t_category t = ca_category e)
                /\ forall p : Transaction -> bool,
                     (forall t, p t = true
                                <-> counted t /\ t_type t = expense
                                    /\ t_category t = ca_category e) ->
                     ca_amount e = sum_amounts (filter p (transactions s)))
          /\ (forall t, In t (transactions s) -> counted t ->
                t_type t = expense ->
                In (t_category t) (map ca_category (category_breakdown a))
                \/ (List.length (category_breakdown a) = 20%nat
                    /\ forall (e : CategoryAmount) (p : Transaction -> bool),
                         In e (category_breakdown a) ->
                         (forall t', p t' = true
                                     <-> counted t' /\ t_type t' = expense
                                         /\ t_category t' = t_category t) ->
                         sum_amounts (filter p (transactions s))
                         <= ca_amount e))
          /\ (forall r, In r (monthly_trend a) ->
                exists t, In t (transactions s) /\ counted t
                          /\ month_of (t_date t) = mr_month r)
          /\ ((forall keys : list (string * tx_type),
                 NoDup keys ->
                 (forall k, In k keys ->
                    exists t, In t (transactions s) /\ counted t
                              /\ (month_of (t_date t), t_type t) = k) ->
                 (List.length keys <= 100)%nat) ->
              (forall t, In t (transactions s) -> counted t ->
                 In (month_of (t_date t)) (map mr_month (monthly_trend a)))
              /\ (forall (r : MonthRecord) (p : tx_type -> Transaction -> bool),
                    In r (monthly_trend a) ->
                    (forall ty t, p ty t = true
                                  <-> counted t /\ t_type t = ty
                                      /\ month_of (t_date t) = mr_month r) ->
                    mr_income r
                    = sum_amounts (filter (p income) (transactions s))
                    /\ mr_expense r
                       = sum_amounts (filter (p expense) (transactions s)))))
    /\ (forall (l1 l2 : list Transaction) (bs : list Budget) (t : Transaction),
          ~ counted t ->
          fst (get_analytics start_month end_month user_id clock
                 (mkStore (l1 ++ t :: l2) bs))
          = fst (get_analytics start_month end_month user_id clock
                   (mkStore (l1 ++ l2) bs)))
    /\ (forall clock' : Clock,
          get_analytics (Some "2024-02") (Some "2024-02") "user" clock'
            february_store
          = (Ok (mkAnalytics [mkCategoryAmount "Food" 20]
                   [mkMonthRecord "2024-02" 0 20] "2024-02" "2024-02"),
             february_store)).
Proof.
  intros start_month end_month user_id clock s sm em counted.
  assert (Hmm : forall t, monthly_match user_id sm em t = true <-> counted t)
    by (intro t; apply monthly_match_spec).
  assert (Hcm : forall t, category_match user_id sm em t = true
                          <-> counted t /\ t_type t = expense).
  { intro t. rewrite category_match_spec. unfold counted. tauto. }
  split; [|split; [|split; [|split; [|split; [|split]]]]].
  - intros x -> Hx. apply or_default_given, Hx.
  - intros y -> Hy. apply or_default_given, Hy.
  - intro t. rewrite filter_In, Hmm. reflexivity.
  - intro t. rewrite filter_In, Hcm. reflexivity.
  - eexists. split; [apply get_analytics_run|].
    cbn [category_breakdown monthly_trend]. fold sm em.
    set (docs := transactions s).
    set (G := monthly_pipeline user_id sm em docs).
    destruct (top_of_sorted_groups
                (category_groups user_id sm em docs)
                (category_pipeline user_id sm em docs) 20)
      as [Hin [_ [_ [_ Htop]]]].
    { apply sort_by_perm. }
    { apply category_pipeline_sorted. }
    { apply group_sum_NoDup, String.eqb_eq. }
    assert (Hsum : forall c (p : Transaction -> bool),
              (forall t, p t = true
                         <-> counted t /\ t_type t = expense
                             /\ t_category t = c) ->
              sum_amounts
                (filter (fun t => String.eqb (t_category t) c)
                   (filter (category_match user_id sm em) docs))
              = sum_amounts (filter p docs)).
    { intros c p Hp. f_equal. apply filter_filter_iff. intro t.
      rewrite Hp, Hcm, String.eqb_eq. tauto. }
    split; [|split; [|split]].
    + intros e He. apply Hin in He.
      apply (group_sum_In String.eqb String.eqb_eq) in He as [[t [Ht Hc]] Hq].
      apply filter_In in Ht as [Ht Hm]. apply Hcm in Hm as [Hcount Hexp].
      split; [exists t; tauto|].
      intros p Hp. rewrite Hq. apply Hsum, Hp.
    + intros t Ht Hcount Hexp.
      set (total := sum_amounts
                      (filter (fun t' => String.eqb (t_category t')
                                           (t_category t))
                         (filter (category_match user_id sm em) docs))).
      destruct (Htop (t_category t, total)) as [H|[Hlen Hle]].
      * apply (group_sum_In String.eqb String.eqb_eq). split; [|reflexivity].
        exists t. split; [|reflexivity]. apply filter_In. split; [exact Ht|].
        apply Hcm. tauto.
      * left. apply in_map_iff. eexists. split; [|exact H]. reflexivity.
      * right. split; [exact Hlen|]. intros e p He Hp.
        rewrite <- (Hsum (t_category t) p Hp). exact (Hle e He).
    + intros r Hr. apply sort_by_In in Hr.
      rewrite pivot_closed_form in Hr
        by (apply NoDup_map_firstn, monthly_pipeline_NoDup).
      rewrite map_map in Hr. cbn [snd] in Hr.
      apply in_map_iff in Hr as [m [<- Hm]]. cbn [month_record mr_month].
      apply (proj1 (distinct_In String.eqb String.eqb_eq _ _)) in Hm.
      apply in_map_iff in Hm as [[k q] [Hk Hitem]].
      apply In_firstn in Hitem.
      apply monthly_pipeline_In in Hitem as [[t [Ht Hkey]] _].
      apply filter_In in Ht as [Ht Hmatch]. exists t.
      split; [exact Ht|]. split; [apply Hmm, Hmatch|].
      unfold item_month in Hk. cbn [fst] in Hk. rewrite <- Hk, <- Hkey.
      reflexivity.
    + intro Hcap.
      assert (Hlen : (List.length (monthly_groups user_id sm em docs)
                      <= 100)%nat).
      { rewrite <- (List.length_map fst). apply Hcap.
        - apply group_sum_NoDup, month_type_eqb_spec.
        - intros k Hk. apply in_map_iff in Hk as [[k' q] [Hk' Hin']].
          cbn [fst] in Hk'. subst k'.
          apply (group_sum_In month_type_eqb month_type_eqb_spec)
            in Hin' as [[t [Ht Hkey]] _].
          apply filter_In in Ht as [Ht Hmatch]. exists t.
          split; [exact Ht|]. split; [apply Hmm, Hmatch|exact Hkey]. }
      pose proof (monthly_trend_untruncated user_id sm em docs Hlen) as Hun.
      cbv zeta in Hun. fold G in Hun. rewrite Hun. clear Hun.
      split.
      * intros t Ht Hcount. apply in_map_iff.
        exists (month_record G (month_of (t_date t))). split; [reflexivity|].
        apply sort_by_In, in_map.
        apply (distinct_In String.eqb String.eqb_eq).
        apply monthly_pipeline_months. exists t. split; [|reflexivity].
        apply filter_In. split; [exact Ht|]. apply Hmm, Hcount.
      * intros r p Hr Hp. apply sort_by_In, in_map_iff in Hr as [m [<- _]].
        cbn [month_record mr_income mr_expense mr_month] in *.
        split; apply month_record_sums; intro t; rewrite Hp, Hmm; tauto.
  - intros l1 l2 bs t Hn. rewrite !get_analytics_run.
    cbn [fst transactions]. fold sm em.
    unfold category_pipeline, category_groups, monthly_pipeline, monthly_groups.
    rewrite !(filter_skip _ l1 l2 t); [reflexivity| |].
    + apply not_true_is_false. intro H. apply Hn, Hmm, H.
    + apply not_true_is_false. intro H. apply Hcm in H. tauto.
  - intro clock'. reflexivity.
Qed.

(** In the ledger with the expense of 2024-02-30 the groups are below the
    bound, and the expense is found in both charts of 2024-02. *)
Lemma analytics_range_february :
  exists a : Analytics,
    get_analytics (Some "2024-02") (Some "2024-02") "user" fixed_clock
      february_store = (Ok a, february_store)
    /\ In "Food" (map ca_category (category_breakdown a))
    /\ In "2024-02" (map mr_month (monthly_trend a)).
Proof.
  destruct (analytics_range_is_lexicographic (Some "2024-02") (Some "2024-02")
              "user" fixed_clock february_store)
    as [_ [_ [_ [_ [[a [Hrun [_ [Hcat [_ Htrend]]]]] _]]]]].
  exists a. split; [exact Hrun|].
  set (t := tx "t1" "user" expense 20 "Food" "2024-02-30").
  assert (Hin : In t (transactions february_store)) by (left; reflexivity).
  assert (Hcount : t_user_id t = "user"
                   /\ lex_le ("2024-02" ++ "-01") (t_date t)
                   /\ lex_le (t_date t) ("2024-02" ++ "-31"))
    by (split; [reflexivity|split; apply str_leb_lex_le; reflexivity]).
  split.
  - destruct (Hcat t Hin Hcount eq_refl) as [H|[Hlen _]]; [exact H|].
    exfalso. pose proof (get_analytics_run (Some "2024-02") (Some "2024-02")
                           "user" fixed_clock february_store) as Hrun'.
    rewrite Hrun in Hrun'. injection Hrun' as ->. discriminate Hlen.
  - refine (proj1 (Htrend _) t Hin Hcount).
    intros keys Hnd Hkeys.
    assert (Hall : forall k, In k keys -> k = ("2024-02", expense)).
    { intros k Hk. destruct (Hkeys k Hk) as [t' [[Ht'|[]] [_ <-]]].
      subst t'. reflexivity. }
    destruct keys as [|k1 [|k2 keys]]; cbn [List.length]; try lia.
    exfalso. inversion Hnd as [|x xs Hx _]; subst. apply Hx. left.
    rewrite (Hall k1), (Hall k2); [reflexivity| |]; simpl; tauto.
Defined.

(** The expense of the 30th of February is counted in the analytics of
    2024-02. *)
Example get_analytics_february :
  get_analytics (Some "2024-02") (Some "2024-02") "user" fixed_clock
    february_store
  = (Ok (mkAnalytics [mkCategoryAmount "Food" 20]
           [mkMonthRecord "2024-02" 0 20] "2024-02" "2024-02"),
     february_store).
Proof. reflexivity. Qed.

(** ** [get_dashboard] *)

(** The record that [get_dashboard] builds from the three totals. *)
Lemma get_dashboard_run (month : option string) (user_id : string)
    (clock : Clock) (s : Store) :
  let m := or_default month (now_month clock) in
  match regex_compile ("^" ++ m) with
  | None => get_dashboard month user_id clock s = (Unmodelled, s)
  | Some re =>
      let ti := sum_amounts
                  (filter (fun t => (String.eqb (t_user_id t) user_id
                                     && is_income t)
                                    && regex_exec re (t_date t))
                     (transactions s)) in
      let te := sum_amounts
                  (filter (fun t => (String.eqb (t_user_id t) user_id
                                     && is_expense t)
                                    && regex_exec re (t_date t))
                     (transactions s)) in
      let tb := sum_budgets
                  (filter (fun b => String.eqb (b_user_id b) user_id
                                    && String.eqb (b_month b) m)
                     (budgets s)) in
      get_dashboard month user_id clock s
      = (Ok (mkDashboard ti te (ti - te) tb
               (if Qlt_le_dec 0 tb then tb - te else 0)
               (if Qlt_le_dec 0 tb then te / tb * 100 else 0)
               (firstn 5
                  (sort_by date_desc
                     (filter (fun t => String.eqb (t_user_id t) user_id)
                        (transactions s))))
               m), s)
  end.
Proof.
  intro m. unfold get_dashboard, bind, aggregate_transactions,
    aggregate_budgets, match_regex, find_transactions_sorted, ret.
  fold m. destruct (regex_compile ("^" ++ m)) as [re|]; [|reflexivity].
  cbn [option_map]. rewrite !total_or_zero_group_all. reflexivity.
Qed.

(** C6: for a month free of metacharacters [get_dashboard] returns a
    summary, and in every summary it returns the balance is income minus
    expenses, [remaining_budget] is [total_budget - total_expenses] and
    [budget_used_percent] is [total_expenses / total_budget * 100] when
    [total_budget > 0], both are 0 otherwise; [total_budget] is 0 when the
    user has no budget for the month, so that no budget and a budget exactly
    used up both give a remaining budget of zero. *)
Theorem dashboard_budget_figures :
  forall (month : option string) (user_id : string) (clock : Clock) (s : Store),
    let m := or_default month (now_month clock) in
    (literal_string m = true ->
     exists d, get_dashboard month user_id clock s = (Ok d, s) /\ d_month d = m)
    /\ (forall d s',
          get_dashboard month user_id clock s = (Ok d, s') ->
          balance d = total_income d - total_expenses d
          /\ (0 < total_budget d ->
              remaining_budget d = total_budget d - total_expenses d
              /\ budget_used_percent d
                 = total_expenses d / total_budget d * 100)
          /\ (~ 0 < total_budget d ->
              remaining_budget d = 0 /\ budget_used_percent d = 0)
          /\ ((forall b, In b (budgets s) -> b_user_id b = user_id ->
                         b_month b <> m) ->
              total_budget d = 0 /\ remaining_budget d = 0
              /\ budget_used_percent d = 0)
          /\ (total_budget d == total_expenses d -> remaining_budget d == 0)).
Proof.
  intros month user_id clock s m.
  pose proof (get_dashboard_run month user_id clock s) as Hrun.
  cbv zeta in Hrun. fold m in Hrun. split.
  - intro Hlit. rewrite (regex_compile_literal m Hlit) in Hrun.
    eexists. split; [exact Hrun|reflexivity].
  - intros d s' Hd.
    destruct (regex_compile ("^" ++ m)) as [re|];
      rewrite Hrun in Hd; [|discriminate Hd].
    injection Hd as <- _. cbn [balance total_income total_expenses total_budget
                                 remaining_budget budget_used_percent].
    set (tb := sum_budgets _).
    split; [reflexivity|]. split; [|split; [|split]].
    + intro Hpos. destruct (Qlt_le_dec 0 tb) as [_|Hle]; [split; reflexivity|].
      exfalso. exact (Qlt_not_le _ _ Hpos Hle).
    + intro Hneg. destruct (Qlt_le_dec 0 tb) as [Hpos|_]; [contradiction|].
      split; reflexivity.
    + intro Hnone.
      assert (Htb : tb = 0).
      { unfold tb. rewrite filter_none; [reflexivity|].
        intros b Hb. apply not_true_is_false. intro H.
        apply andb_prop in H as [Hu Hm].
        apply String.eqb_eq in Hu. apply String.eqb_eq in Hm.
        exact (Hnone b Hb Hu Hm). }
      rewrite Htb. repeat split; reflexivity.
    + intro Heq. destruct (Qlt_le_dec 0 tb); [|reflexivity].
      rewrite Heq. ring.
Qed.

(** The scenario with a budget of 200 for Food: 150 of it is used, 75 per
    cent, and 50 remain. *)
Lemma dashboard_budget_figures_scenario :
  literal_string "2024-03" = true
  /\ exists d,
       get_dashboard (Some "2024-03") "user" fixed_clock budgeted_store
       = (Ok d, budgeted_store)
       /\ balance d = total_income d - total_expenses d
       /\ (0 < total_budget d ->
           remaining_budget d = total_budget d - total_expenses d
           /\ budget_used_percent d = total_expenses d / total_budget d * 100)
       /\ total_budget d = 200 /\ total_expenses d = 150.
Proof.
  split; [reflexivity|].
  destruct (dashboard_budget_figures (Some "2024-03") "user" fixed_clock
              budgeted_store) as [Hret Hfig].
  destruct (Hret eq_refl) as [d [Hrun _]]. exists d.
  destruct (Hfig d budgeted_store Hrun) as [Hbal [Hpos _]].
  split; [exact Hrun|]. split; [exact Hbal|]. split; [exact Hpos|].
  pose proof (get_dashboard_run (Some "2024-03") "user" fixed_clock
                budgeted_store) as Hrun'.
  cbv zeta in Hrun'. simpl regex_compile in Hrun'. cbv iota in Hrun'.
  rewrite Hrun in Hrun'. injection Hrun' as ->. split; reflexivity.
Defined.

(** ** Purity of the aggregators *)





(** ** No cross-user visibility *)

Lemma filter_and {A : Type} (p q : A -> bool) (l : list A) :
  filter (fun x => p x && q x) l = filter q (filter p l).
Proof.
  induction l as [|x l IH]; simpl; [reflexivity|].
  destruct (p x); simpl; [destruct (q x)|]; rewrite IH; reflexivity.
Qed.

(** Inserting, removing or replacing a record of another user does not change
    the records of the user. *)
Lemma foreign_transaction_invisible (user_id : string)
    (l1 l2 : list Transaction) (t t' : Transaction) :
  t_user_id t <> user_id -> t_user_id t' <> user_id ->
  filter (owned_tx user_id) (l1 ++ t :: l2)%list
  = filter (owned_tx user_id) (l1 ++ l2)%list
  /\ filter (owned_tx user_id) (l1 ++ t :: l2)%list
     = filter (owned_tx user_id) (l1 ++ t' :: l2)%list.
Proof.
  intros Ht Ht'. apply String.eqb_neq in Ht, Ht'.
  rewrite !filter_skip by assumption. split; reflexivity.
Qed.

Lemma foreign_budget_invisible (user_id : string)
    (l1 l2 : list Budget) (b b' : Budget) :
  b_user_id b <> user_id -> b_user_id b' <> user_id ->
  filter (owned_budget user_id) (l1 ++ b :: l2)%list
  = filter (owned_budget user_id) (l1 ++ l2)%list
  /\ filter (owned_budget user_id) (l1 ++ b :: l2)%list
     = filter (owned_budget user_id) (l1 ++ b' :: l2)%list.
Proof.
  intros Hb Hb'. apply String.eqb_neq in Hb, Hb'.
  rewrite !filter_skip by assumption. split; reflexivity.
Qed.

Section UserScoped.

Variable user_id : string.
Variables s1 s2 : Store.
Hypothesis same_transactions :
  filter (owned_tx user_id) (transactions s1)
  = filter (owned_tx user_id) (transactions s2).
Hypothesis same_budgets :
  filter (owned_budget user_id) (budgets s1)
  = filter (owned_budget user_id) (budgets s2).


(** A filter that starts with the test on [user_id] sees the same documents
    in both stores. *)
Lemma owned_filter_tx (rest : Transaction -> bool) :
  filter (fun t => owned_tx user_id t && rest t) (transactions s1)
  = filter (fun t => owned_tx user_id t && rest t) (transactions s2).
Proof.
  rewrite !filter_and, same_transactions. reflexivity.
Qed.

Lemma owned_filter_budget (rest : Budget -> bool) :
  filter (fun b => owned_budget user_id b && rest b) (budgets s1)
  = filter (fun b => owned_budget user_id b && rest b) (budgets s2).
Proof.
  rewrite !filter_and, same_budgets. reflexivity.
Qed.

Lemma calculate_spent_scoped (category month : string) :
  fst (calculate_spent user_id category month s1)
  = fst (calculate_spent user_id category month s2).
Proof.
  rewrite !calculate_spent_run.
  destruct (regex_compile ("^" ++ month)) as [re|]; [|reflexivity].
  cbn [fst]. do 2 f_equal.
  rewrite (filter_ext _
             (fun t => owned_tx user_id t
                       && (String.eqb (t_category t) category && is_expense t
                           && regex_exec re (t_date t))))
    by (intro t; unfold owned_tx; rewrite !andb_assoc; reflexivity).
  rewrite owned_filter_tx. apply filter_ext.
  intro t. unfold owned_tx. rewrite !andb_assoc. reflexivity.
Qed.

Lemma get_analytics_scoped (start_month end_month : option string)
    (clock : Clock) :
  fst (get_analytics start_month end_month user_id clock s1)
  = fst (get_analytics start_month end_month user_id clock s2).
Proof.
  rewrite !get_analytics_run. cbn [fst].
  unfold category_pipeline, category_groups, monthly_pipeline, monthly_groups.
  set (sm := or_default start_month (lookback_month clock)).
  set (em := or_default end_month (now_month clock)).
  assert (Hc : filter (category_match user_id sm em) (transactions s1)
               = filter (category_match user_id sm em) (transactions s2)).
  { rewrite !(filter_ext (category_match user_id sm em)
                (fun t => owned_tx user_id t && (is_expense t && in_range sm em t)))
      by (intro t; unfold category_match, owned_tx; rewrite andb_assoc;
          reflexivity).
    apply owned_filter_tx. }
  assert (Hm : filter (monthly_match user_id sm em) (transactions s1)
               = filter (monthly_match user_id sm em) (transactions s2)).
  { exact (owned_filter_tx (in_range sm em)). }
  rewrite Hc, Hm. reflexivity.
Qed.

Lemma get_dashboard_scoped (month : option string) (clock : Clock) :
  fst (get_dashboard month user_id clock s1)
  = fst (get_dashboard month user_id clock s2).
Proof.
  pose proof (get_dashboard_run month user_id clock s1) as H1.
  pose proof (get_dashboard_run month user_id clock s2) as H2.
  cbv zeta in H1, H2.
  destruct (regex_compile ("^" ++ or_default month (now_month clock)))
    as [re|]; rewrite H1, H2; [|reflexivity].
  cbn [fst].
  rewrite !(filter_ext
              (fun t => String.eqb (t_user_id t) user_id && is_income t
                        && regex_exec re (t_date t))
              (fun t => owned_tx user_id t && (is_income t && regex_exec re (t_date t))))
    by (intro t; unfold owned_tx; rewrite andb_assoc; reflexivity).
  rewrite !(filter_ext
              (fun t => String.eqb (t_user_id t) user_id && is_expense t
                        && regex_exec re (t_date t))
              (fun t => owned_tx user_id t && (is_expense t && regex_exec re (t_date t))))
    by (intro t; unfold owned_tx; rewrite andb_assoc; reflexivity).
  rewrite !owned_filter_tx.
  change (fun b => String.eqb (b_user_id b) user_id
                   && String.eqb (b_month b) (or_default month (now_month clock)))
    with (fun b => owned_budget user_id b
                   && String.eqb (b_month b) (or_default month (now_month clock))).
  rewrite owned_filter_budget.
  change (fun t => String.eqb (t_user_id t) user_id) with (owned_tx user_id).
  rewrite same_transactions. reflexivity.
Qed.

End UserScoped.

(** C8: two stores whose transactions and budgets of a user are the same
    (in the same order) give that user the same spent amounts, analytics and
    dashboard, whatever they hold for other users. *)
Theorem results_depend_on_own_records_only :
  forall (user_id : string) (s1 s2 : Store),
    filter (owned_tx user_id) (transactions s1)
    = filter (owned_tx user_id) (transactions s2) ->
    filter (owned_budget user_id) (budgets s1)
    = filter (owned_budget user_id) (budgets s2) ->
    forall (category month : string) (start_month end_month dash_month : option string)
           (clock : Clock),
      fst (calculate_spent user_id category month s1)
      = fst (calculate_spent user_id category month s2)
      /\ fst (get_analytics start_month end_month user_id clock s1)
         = fst (get_analytics start_month end_month user_id clock s2)
      /\ fst (get_dashboard dash_month user_id clock s1)
         = fst (get_dashboard dash_month user_id clock s2).
Proof.
  intros user_id s1 s2 Htx Hb category month start_month end_month dash_month
    clock.
  split; [|split].
  - apply calculate_spent_scoped, Htx.
  - apply get_analytics_scoped, Htx.
  - apply get_dashboard_scoped; assumption.
Qed.

(** The scenario with and without the records of another user. *)
Lemma results_depend_on_own_records_only_scenario :
  filter (owned_tx "user") (transactions budgeted_store)
  = filter (owned_tx "user") (transactions shared_store)
  /\ filter (owned_budget "user") (budgets budgeted_store)
     = filter (owned_budget "user") (budgets shared_store)
  /\ fst (calculate_spent "user" "Food" "2024-03" budgeted_store)
     = fst (calculate_spent "user" "Food" "2024-03" shared_store)
  /\ fst (get_analytics (Some "2024-03") (Some "2024-03") "user" fixed_clock
            budgeted_store)
     = fst (get_analytics (Some "2024-03") (Some "2024-03") "user" fixed_clock
              shared_store)
  /\ fst (get_dashboard (Some "2024-03") "user" fixed_clock budgeted_store)
     = fst (get_dashboard (Some "2024-03") "user" fixed_clock shared_store).
Proof.
  split; [reflexivity|]. split; [reflexivity|].
  exact (results_depend_on_own_records_only "user" budgeted_store shared_store
           eq_refl eq_refl "Food" "2024-03" (Some "2024-03") (Some "2024-03")
           (Some "2024-03") fixed_clock).
Defined.

(** ** [create_budget] and the uniqueness of budgets *)

Lemma find_budget_none (user_id category month : string) (bs : list Budget) :
  find (fun b => String.eqb (b_user_id b) user_id
                 && String.eqb (b_category b) category
                 && String.eqb (b_month b) month) bs = None
  <-> ~ In (user_id, category, month) (map budget_key bs).
Proof.
  split.
  - intros Hnone Hin. apply in_map_iff in Hin as [b [Hk Hb]].
    pose proof (find_none _ _ Hnone b Hb) as H. cbv beta in H.
    unfold budget_key in Hk. inversion Hk; subst.
    rewrite !String.eqb_refl in H. discriminate H.
  - intro Hnot. destruct (find _ bs) as [b|] eqn:E; [|reflexivity].
    apply find_some in E as [Hb Hk]. exfalso. apply Hnot.
    apply andb_prop in Hk as [Hk Hm]. apply andb_prop in Hk as [Hu Hc].
    apply String.eqb_eq in Hu, Hc, Hm. apply in_map_iff. exists b.
    split; [|exact Hb]. unfold budget_key. rewrite Hu, Hc, Hm. reflexivity.
Qed.

(** What [create_budget] does in each of its two cases, and that it keeps
    budgets unique. *)
Lemma create_budget_cases (data : BudgetCreate) (user_id uuid : string)
    (s : Store) :
  let key := (user_id, bc_category data, bc_month data) in
  let budget := mkBudget uuid user_id (bc_category data) (bc_amount data)
                  (bc_month data) in
  (In key (map budget_key (budgets s)) ->
   create_budget data user_id uuid s
   = (HTTPException 400 "Budget already exists for this category/month", s))
  /\ (~ In key (map budget_key (budgets s)) ->
      create_budget data user_id uuid s
      = (Ok (mkBudgetResponse budget 0),
         mkStore (transactions s) (budgets s ++ [budget])))
  /\ (unique_budgets s ->
      unique_budgets (snd (create_budget data user_id uuid s))).
Proof.
  intros key budget.
  assert (Hcases :
    match find (fun b => String.eqb (b_user_id b) user_id
                         && String.eqb (b_category b) (bc_category data)
                         && String.eqb (b_month b) (bc_month data)) (budgets s)
    with
    | Some _ => create_budget data user_id uuid s
                = (HTTPException 400
                     "Budget already exists for this category/month", s)
    | None => create_budget data user_id uuid s
              = (Ok (mkBudgetResponse budget 0),
                 mkStore (transactions s) (budgets s ++ [budget]))
    end).
  { unfold create_budget, bind, find_one_budget.
    destruct (find _ (budgets s)); reflexivity. }
  pose proof (find_budget_none user_id (bc_category data) (bc_month data)
                (budgets s)) as Hnone.
  destruct (find _ (budgets s)) as [b|] eqn:E.
  - assert (Hin : In key (map budget_key (budgets s))).
    { apply find_some in E as [Hb Hk].
      apply andb_prop in Hk as [Hk Hm]. apply andb_prop in Hk as [Hu Hc].
      apply String.eqb_eq in Hu, Hc, Hm. apply in_map_iff. exists b.
      split; [|exact Hb]. unfold budget_key, key. rewrite Hu, Hc, Hm.
      reflexivity. }
    split; [intros _; exact Hcases|]. split; [intro H; contradiction|].
    intro Hu. rewrite Hcases. exact Hu.
  - assert (Hnot : ~ In key (map budget_key (budgets s)))
      by (apply Hnone; reflexivity).
    split; [intro H; contradiction|]. split; [intros _; exact Hcases|].
    intro Hu. rewrite Hcases. unfold unique_budgets in *. cbn [snd budgets].
    rewrite map_app. apply NoDup_app; [exact Hu|repeat constructor; intros []|].
    intros k Hk [<-|[]]. exact (Hnot Hk).
Qed.

Lemma delete_first_keys {A K : Type} (key : A -> K) (q : A -> bool)
    (l : list A) :
  NoDup (map key l) -> NoDup (map key (snd (delete_first q l))).
Proof.
  induction l as [|x l IH]; simpl; intro H; [exact H|].
  inversion H as [|k l' Hk Hl]; subst.
  destruct (q x); simpl; [exact Hl|]. constructor; [|apply IH, Hl].
  intro Hin. apply Hk. clear - Hin.
  induction l as [|y l IH]; simpl in *; [exact Hin|].
  destruct (q y); simpl in *; [right; exact Hin|].
  destruct Hin as [Hin|Hin]; [left; exact Hin|right; apply IH, Hin].
Qed.

Lemma update_first_keys {A K : Type} (key : A -> K) (q : A -> bool)
    (set : A -> A) (l : list A) :
  (forall x, key (set x) = key x) ->
  map key (snd (update_first q set l)) = map key l.
Proof.
  intro H. induction l as [|x l IH]; simpl; [reflexivity|].
  destruct (q x); simpl; [rewrite H|rewrite IH]; reflexivity.
Qed.

Lemma update_budget_budgets (budget_id : string) (data : BudgetUpdate)
    (user_id : string) (s : Store) :
  budgets (snd (update_budget budget_id data user_id s))
  = match budget_update_data data with
    | [] => budgets s
    | _ :: _ =>
        snd (update_first
               (fun b => String.eqb (b_id b) budget_id
                         && String.eqb (b_user_id b) user_id)
               (fun b => fold_left set_budget_field (budget_update_data data) b)
               (budgets s))
    end.
Proof.
  unfold update_budget. destruct (budget_update_data data) as [|f fs] eqn:E;
    [reflexivity|].
  unfold bind, update_one_budget.
  set (r := update_first _ _ (budgets s)).
  destruct (fst r =? 0)%nat; [reflexivity|].
  unfold find_one_budget. cbn [budgets].
  destruct (find _ (snd r)) as [b|]; [|reflexivity].
  pose proof (calculate_spent_run user_id (b_category b) (b_month b)
                (mkStore (transactions s) (snd r))) as Hc.
  destruct (regex_compile ("^" ++ b_month b)); rewrite Hc; reflexivity.
Qed.

(** Requests that do not rewrite a month keep budgets unique. *)
Lemma month_keeping_unique (s s' : Store) :
  month_keeping_request s s' -> unique_budgets s -> unique_budgets s'.
Proof.
  intros Hreq Hu. destruct Hreq as [data user_id uuid s|budget_id amount user_id s
                                   |budget_id user_id s].
  - apply create_budget_cases, Hu.
  - unfold unique_budgets. rewrite update_budget_budgets.
    destruct (budget_update_data (mkBudgetUpdate amount None)) as [|f fs] eqn:E;
      [exact Hu|].
    rewrite <- E. rewrite update_first_keys; [exact Hu|].
    intro x. destruct amount; reflexivity.
  - unfold unique_budgets, delete_budget, bind, delete_one_budget.
    set (r := delete_first _ (budgets s)).
    assert (Hr : NoDup (map budget_key (snd r))) by apply delete_first_keys, Hu.
    destruct (fst r =? 0)%nat; exact Hr.
Qed.

(** C9 (the code at the failing input): two budgets are created for Food,
    for March and for April 2024, and the second is then moved to March by
    [update_budget]; every request succeeds, and the store that is reached
    holds two budgets for (user, Food, 2024-03). *)
Theorem update_budget_duplicates_a_budget :
  move_budget_requests (mkStore [] [])
  = (Ok (mkBudgetResponse food_moved 0), mkStore [] [food_march; food_moved])
  /\ reachable (mkStore [] [food_march; food_moved])
  /\ budget_key food_march = budget_key food_moved
  /\ ~ unique_budgets (mkStore [] [food_march; food_moved]).
Proof.
  split; [reflexivity|]. split; [|split].
  - apply reachable_request with (s := mkStore [] [food_march; food_april]).
    + apply reachable_request with (s := mkStore [] [food_march]).
      * apply reachable_request with (s := mkStore [] []).
        -- apply reachable_empty.
        -- exact (request_create (mkBudgetCreate "Food" 100 "2024-03") "user"
                    "b1" (mkStore [] [])).
      * exact (request_create (mkBudgetCreate "Food" 200 "2024-04") "user"
                 "b2" (mkStore [] [food_march])).
    + exact (request_update "b2" (mkBudgetUpdate None (Some "2024-03")) "user"
               (mkStore [] [food_march; food_april])).
  - reflexivity.
  - unfold unique_budgets. simpl. intro H.
    inversion H as [|k l Hk _]; subst. apply Hk. left. reflexivity.
Qed.

(** ** Updates without data *)

(** C10: with every optional field of the body absent, [update_transaction]
    and [update_budget] raise 400 'No data to update' and hand the store
    back as it was. *)
Theorem update_without_data_rejected :
  forall (transaction_id budget_id user_id : string) (s : Store),
    update_transaction transaction_id
      (mkTransactionUpdate None None None None None None) user_id s
    = (HTTPException 400 "No data to update", s)
    /\ update_budget budget_id (mkBudgetUpdate None None) user_id s
       = (HTTPException 400 "No data to update", s).
Proof. intros. split; reflexivity. Qed.

(* ================================================================== *)
(** * Further properties of the handlers *)
(* ================================================================== *)

(** ** Rewriting and deleting the first match *)

Lemma delete_first_none {A : Type} (q : A -> bool) (l : list A) :
  (forall x, In x l -> q x = false) -> delete_first q l = (0%nat, l).
Proof.
  induction l as [|x l IH]; simpl; intro H; [reflexivity|].
  rewrite (H x (or_introl eq_refl)), IH; [reflexivity|].
  intros y Hy. apply H. right. exact Hy.
Qed.

Lemma delete_first_split {A : Type} (q : A -> bool) (l1 l2 : list A) (x : A) :
  (forall y, In y l1 -> q y = false) -> q x = true ->
  delete_first q (l1 ++ x :: l2) = (1%nat, (l1 ++ l2)%list).
Proof.
  induction l1 as [|y l1 IH]; simpl; intros H Hx; [rewrite Hx; reflexivity|].
  rewrite (H y (or_introl eq_refl)), IH; [reflexivity| |exact Hx].
  intros z Hz. apply H. right. exact Hz.
Qed.

Lemma update_first_none {A : Type} (q : A -> bool) (f : A -> A) (l : list A) :
  (forall x, In x l -> q x = false) -> update_first q f l = (0%nat, l).
Proof.
  induction l as [|x l IH]; simpl; intro H; [reflexivity|].
  rewrite (H x (or_introl eq_refl)), IH; [reflexivity|].
  intros y Hy. apply H. right. exact Hy.
Qed.

Lemma update_first_split {A : Type} (q : A -> bool) (f : A -> A)
    (l1 l2 : list A) (x : A) :
  (forall y, In y l1 -> q y = false) -> q x = true ->
  update_first q f (l1 ++ x :: l2) = (1%nat, (l1 ++ f x :: l2)%list).
Proof.
  induction l1 as [|y l1 IH]; simpl; intros H Hx; [rewrite Hx; reflexivity|].
  rewrite (H y (or_introl eq_refl)), IH; [reflexivity| |exact Hx].
  intros z Hz. apply H. right. exact Hz.
Qed.

(** A list either has no match, or splits at its first match. *)
Lemma first_match_split {A : Type} (q : A -> bool) (l : list A) :
  (forall x, In x l -> q x = false)
  \/ exists l1 x l2, l = (l1 ++ x :: l2)%list /\ q x = true
                     /\ forall y, In y l1 -> q y = false.
Proof.
  induction l as [|x l IH]; [left; intros x []|].
  destruct (q x) eqn:Hx.
  - right. exists [], x, l. split; [reflexivity|]. split; [exact Hx|].
    intros y [].
  - destruct IH as [IH|[l1 [y [l2 [-> [Hy Hl1]]]]]].
    + left. intros y [<-|Hy]; [exact Hx|apply IH, Hy].
    + right. exists (x :: l1), y, l2. split; [reflexivity|].
      split; [exact Hy|]. intros z [<-|Hz]; [exact Hx|apply Hl1, Hz].
Qed.

Lemma find_split {A : Type} (q : A -> bool) (l1 l2 : list A) (x : A) :
  (forall y, In y l1 -> q y = false) -> q x = true ->
  find q (l1 ++ x :: l2) = Some x.
Proof.
  induction l1 as [|y l1 IH]; simpl; intros H Hx; [rewrite Hx; reflexivity|].
  rewrite (H y (or_introl eq_refl)). apply IH; [|exact Hx].
  intros z Hz. apply H. right. exact Hz.
Qed.

Lemma find_none_iff {A : Type} (q : A -> bool) (l : list A) :
  (forall x, In x l -> q x = false) -> find q l = None.
Proof.
  induction l as [|x l IH]; simpl; intro H; [reflexivity|].
  rewrite (H x (or_introl eq_refl)). apply IH. intros y Hy. apply H. right.
  exact Hy.
Qed.

(** ** Creating, reading and deleting a transaction *)

Lemma store_eta (s : Store) : mkStore (transactions s) (budgets s) = s.
Proof. destruct s; reflexivity. Qed.

(** ** Creating, reading and deleting a transaction *)

(** X1: a transaction created under an id that no stored transaction has is
    appended to the ledger as the only change, is returned, and can then be
    read by its owner; any other user gets 404 for it. *)
Theorem created_transaction_readable_by_owner_only :
  forall (data : TransactionCreate) (user_id uuid now : string) (s : Store),
    (forall t, In t (transactions s) -> t_id t <> uuid) ->
    let t := created_transaction data user_id uuid now in
    let s' := mkStore (transactions s ++ [t]) (budgets s) in
    create_transaction data user_id uuid now s = (Ok t, s')
    /\ get_transaction uuid user_id s' = (Ok t, s')
    /\ (forall other, other <> user_id ->
          get_transaction uuid other s'
          = (HTTPException 404 "Transaction not found", s')).
Proof.
  intros data user_id uuid now s Hfresh t s'.
  split; [reflexivity|]. split.
  - unfold get_transaction, bind, find_one_transaction. cbn [transactions s'].
    rewrite find_split; [reflexivity| |].
    + intros y Hy. apply Hfresh, String.eqb_neq in Hy. rewrite Hy. reflexivity.
    + cbn. rewrite !String.eqb_refl. reflexivity.
  - intros other Hother.
    unfold get_transaction, bind, find_one_transaction. cbn [transactions s'].
    rewrite find_none_iff; [reflexivity|].
    intros y Hy. apply in_app_or in Hy as [Hy|[<-|[]]].
    + apply Hfresh, String.eqb_neq in Hy. rewrite Hy. reflexivity.
    + cbn. apply not_eq_sym, String.eqb_neq in Hother. rewrite Hother.
      apply andb_false_r.
Qed.

Lemma created_transaction_readable_example :
  (forall t, In t (transactions scenario_store) -> t_id t <> "t9")
  /\ get_transaction "t9" "user"
       (snd (create_transaction lunch "user" "t9" "2024-03-21T12:00:00"
               scenario_store))
     = (Ok (created_transaction lunch "user" "t9" "2024-03-21T12:00:00"),
        mkStore (scenario_ledger
                 ++ [created_transaction lunch "user" "t9"
                       "2024-03-21T12:00:00"]) []).
Proof.
  assert (H : forall t, In t (transactions scenario_store) -> t_id t <> "t9").
  { intros t [<-|[<-|[<-|[]]]]; discriminate. }
  split; [exact H|].
  exact (proj1 (proj2 (created_transaction_readable_by_owner_only
                         lunch "user" "t9" "2024-03-21T12:00:00"
                         scenario_store H))).
Defined.

Lemma sum_amounts_snoc (docs : list Transaction) (t : Transaction) :
  sum_amounts (docs ++ [t]) = sum_amounts docs + t_amount t.
Proof.
  unfold sum_amounts. rewrite map_app, fold_left_app. reflexivity.
Qed.

(** X2: for a month free of metacharacters, creating a transaction raises
    the spent amount of (user, category, month) by exactly its amount when
    it is an expense of that user and category dated in that month, and
    leaves it as it was otherwise. *)
Theorem created_expense_raises_spent :
  forall (data : TransactionCreate) (creator uuid now : string)
         (user_id category month : string) (s : Store),
    literal_string month = true ->
    let s' := snd (create_transaction data creator uuid now s) in
    exists before : Q,
      calculate_spent user_id category month s = (Ok before, s)
      /\ calculate_spent user_id category month s'
         = (Ok (if String.eqb creator user_id
                   && tx_type_eqb (tc_type data) expense
                   && String.eqb (tc_category data) category
                   && String.prefix month (tc_date data)
                then before + tc_amount data
                else before), s').
Proof.
  intros data creator uuid now user_id category month s Hlit s'.
  exists (spec_spent user_id category month (transactions s)).
  split; [apply calculate_spent_literal, Hlit|].
  rewrite (calculate_spent_literal _ _ _ s' Hlit). f_equal. f_equal.
  unfold spec_spent, s'. cbn [snd create_transaction transactions].
  change (transactions (snd (create_transaction data creator uuid now s)))
    with (transactions s ++ [created_transaction data creator uuid now])%list.
  rewrite filter_app. cbn [filter].
  unfold spent_filter at 2. unfold is_expense.
  cbn [created_transaction t_user_id t_type t_category t_date].
  destruct (String.eqb creator user_id && tx_type_eqb (tc_type data) expense
            && String.eqb (tc_category data) category
            && String.prefix month (tc_date data)).
  - apply sum_amounts_snoc.
  - rewrite app_nil_r. reflexivity.
Qed.

Lemma created_expense_raises_spent_example :
  literal_string "2024-03" = true
  /\ calculate_spent "user" "Food" "2024-03"
       (snd (create_transaction lunch "user" "t9" "2024-03-21T12:00:00"
               scenario_store))
     = (Ok 162,
        snd (create_transaction lunch "user" "t9" "2024-03-21T12:00:00"
               scenario_store)).
Proof.
  split; [reflexivity|].
  destruct (created_expense_raises_spent lunch "user" "t9"
              "2024-03-21T12:00:00" "user" "Food" "2024-03" scenario_store
              eq_refl) as [before [Hbefore Hafter]].
  rewrite Hafter. vm_compute in Hbefore. injection Hbefore as <-. reflexivity.
Defined.

(** X3: [delete_transaction] answers 404 and changes nothing when the user
    owns no transaction with the id (also when another user does);
    otherwise it removes the first such transaction and nothing else. *)
Theorem delete_transaction_removes_one_owned :
  forall (transaction_id user_id : string) (s : Store),
    ((forall t, In t (transactions s) ->
                owns_transaction transaction_id user_id t = false)
     /\ delete_transaction transaction_id user_id s
        = (HTTPException 404 "Transaction not found", s))
    \/ (exists l1 t l2,
          transactions s = (l1 ++ t :: l2)%list
          /\ t_id t = transaction_id /\ t_user_id t = user_id
          /\ (forall y, In y l1 -> owns_transaction transaction_id user_id y = false)
          /\ delete_transaction transaction_id user_id s
             = (Ok "Transaction deleted", mkStore (l1 ++ l2) (budgets s))).
Proof.
  intros transaction_id user_id s.
  unfold delete_transaction, bind, delete_one_transaction.
  change (fun t => String.eqb (t_id t) transaction_id
                   && String.eqb (t_user_id t) user_id)
    with (owns_transaction transaction_id user_id).
  destruct (first_match_split (owns_transaction transaction_id user_id)
              (transactions s)) as [Hnone|[l1 [t [l2 [Hsplit [Ht Hl1]]]]]].
  - left. split; [exact Hnone|].
    rewrite (delete_first_none _ _ Hnone). cbn. rewrite store_eta. reflexivity.
  - right. exists l1, t, l2. split; [exact Hsplit|].
    unfold owns_transaction in Ht. apply andb_prop in Ht as Ht'.
    destruct Ht' as [Hid Hu]. apply String.eqb_eq in Hid, Hu.
    split; [exact Hid|]. split; [exact Hu|]. split; [exact Hl1|].
    rewrite Hsplit, (delete_first_split _ l1 l2 t Hl1); [reflexivity|].
    exact Ht.
Qed.

(** ** Updating a transaction *)

Lemma set_transaction_fields (data : TransactionUpdate) (t : Transaction) :
  fold_left set_transaction_field (transaction_update_data data) t
  = updated_transaction data t.
Proof.
  destruct data as [[ty|] [am|] [ca|] [de|] [da|] [no|]], t; reflexivity.
Qed.

Lemma set_budget_fields (data : BudgetUpdate) (b : Budget) :
  fold_left set_budget_field (budget_update_data data) b = updated_budget data b.
Proof. destruct data as [[am|] [mo|]], b; reflexivity. Qed.

(** X4: with at least one field in the body, [update_transaction] answers
    404 and changes nothing when the user owns no transaction with the id;
    otherwise it rewrites the first such transaction and no other: the
    fields present in the body take the given values, the absent ones and
    the id, owner and creation time stay, and this transaction is returned
    when no earlier document has the same id. *)
Theorem update_transaction_rewrites_one_owned :
  forall (transaction_id : string) (data : TransactionUpdate) (user_id : string)
         (s : Store),
    transaction_update_data data <> [] ->
    ((forall t, In t (transactions s) ->
                owns_transaction transaction_id user_id t = false)
     /\ update_transaction transaction_id data user_id s
        = (HTTPException 404 "Transaction not found", s))
    \/ (exists l1 t l2,
          transactions s = (l1 ++ t :: l2)%list
          /\ t_id t = transaction_id /\ t_user_id t = user_id
          /\ (forall y, In y l1 -> owns_transaction transaction_id user_id y = false)
          /\ snd (update_transaction transaction_id data user_id s)
             = mkStore (l1 ++ updated_transaction data t :: l2) (budgets s)
          /\ ((forall y, In y l1 -> t_id y <> transaction_id) ->
              fst (update_transaction transaction_id data user_id s)
              = Ok (updated_transaction data t))).
Proof.
  intros transaction_id data user_id s Hdata.
  unfold update_transaction.
  destruct (transaction_update_data data) as [|f fs] eqn:E; [congruence|].
  rewrite <- E. clear E Hdata f fs.
  unfold bind, update_one_transaction.
  change (fun t => String.eqb (t_id t) transaction_id
                   && String.eqb (t_user_id t) user_id)
    with (owns_transaction transaction_id user_id).
  destruct (first_match_split (owns_transaction transaction_id user_id)
              (transactions s)) as [Hnone|[l1 [t [l2 [Hsplit [Ht Hl1]]]]]].
  - left. split; [exact Hnone|].
    rewrite (update_first_none _ _ _ Hnone). cbn. rewrite store_eta.
    reflexivity.
  - right. exists l1, t, l2. split; [exact Hsplit|].
    unfold owns_transaction in Ht. apply andb_prop in Ht as Ht'.
    destruct Ht' as [Hid Hu]. apply String.eqb_eq in Hid, Hu.
    split; [exact Hid|]. split; [exact Hu|]. split; [exact Hl1|].
    rewrite Hsplit, (update_first_split _ _ l1 l2 t Hl1) by exact Ht.
    cbn [fst snd Nat.eqb]. rewrite set_transaction_fields.
    unfold find_one_transaction. cbn [transactions].
    split.
    + destruct (find _ _); reflexivity.
    + intro Hids. rewrite find_split; [reflexivity| |].
      * intros y Hy. apply Hids, String.eqb_neq in Hy. exact Hy.
      * cbn. rewrite Hid. apply String.eqb_refl.
Qed.

Lemma update_transaction_example :
  transaction_update_data only_amount <> []
  /\ update_transaction "t2" only_amount "user" scenario_store
     = (Ok (tx "t2" "user" expense 75 "Food" "2024-03-20"),
        mkStore [ tx "t1" "user" expense 100 "Food" "2024-03-05";
                  tx "t2" "user" expense 75 "Food" "2024-03-20";
                  tx "t3" "user" income 3000 "Salary" "2024-03-01" ] [])
  /\ update_transaction "t2" only_amount "other" scenario_store
     = (HTTPException 404 "Transaction not found", scenario_store).
Proof.
  assert (H : transaction_update_data only_amount <> []) by discriminate.
  split; [exact H|].
  destruct (update_transaction_rewrites_one_owned "t2" only_amount "other"
              scenario_store H) as [[_ Hrun]|[l1 [t [l2 [Hsplit [_ [Hu _]]]]]]].
  - split; [reflexivity|exact Hrun].
  - exfalso. assert (Hin : In t (transactions scenario_store))
      by (rewrite Hsplit; apply in_elt).
    destruct Hin as [<-|[<-|[<-|[]]]]; discriminate Hu.
Defined.

(** ** Deleting and updating a budget *)

(** X5: [delete_budget] answers 404 and changes nothing when the user owns
    no budget with the id (also when another user does); otherwise it
    removes the first such budget and nothing else. *)
Theorem delete_budget_removes_one_owned :
  forall (budget_id user_id : string) (s : Store),
    ((forall b, In b (budgets s) -> owns_budget budget_id user_id b = false)
     /\ delete_budget budget_id user_id s
        = (HTTPException 404 "Budget not found", s))
    \/ (exists l1 b l2,
          budgets s = (l1 ++ b :: l2)%list
          /\ b_id b = budget_id /\ b_user_id b = user_id
          /\ (forall y, In y l1 -> owns_budget budget_id user_id y = false)
          /\ delete_budget budget_id user_id s
             = (Ok "Budget deleted", mkStore (transactions s) (l1 ++ l2))).
Proof.
  intros budget_id user_id s.
  unfold delete_budget, bind, delete_one_budget.
  change (fun b => String.eqb (b_id b) budget_id
                   && String.eqb (b_user_id b) user_id)
    with (owns_budget budget_id user_id).
  destruct (first_match_split (owns_budget budget_id user_id) (budgets s))
    as [Hnone|[l1 [b [l2 [Hsplit [Hb Hl1]]]]]].
  - left. split; [exact Hnone|].
    rewrite (delete_first_none _ _ Hnone). cbn. rewrite store_eta. reflexivity.
  - right. exists l1, b, l2. split; [exact Hsplit|].
    unfold owns_budget in Hb. apply andb_prop in Hb as Hb'.
    destruct Hb' as [Hid Hu]. apply String.eqb_eq in Hid, Hu.
    split; [exact Hid|]. split; [exact Hu|]. split; [exact Hl1|].
    rewrite Hsplit, (delete_first_split _ l1 l2 b Hl1); [reflexivity|].
    exact Hb.
Qed.

(** X6: with at least one field in the body, [update_budget] answers 404
    and changes nothing when the user owns no budget with the id; otherwise
    it rewrites the first such budget and no other, setting the amount and
    the month that are present and never the id, the owner or the category;
    when no earlier budget has the same id and the month in force is free of
    metacharacters, the budget is returned with the amount spent on its
    category in that month. *)
Theorem update_budget_rewrites_one_owned :
  forall (budget_id : string) (data : BudgetUpdate) (user_id : string)
         (s : Store),
    budget_update_data data <> [] ->
    ((forall b, In b (budgets s) -> owns_budget budget_id user_id b = false)
     /\ update_budget budget_id data user_id s
        = (HTTPException 404 "Budget not found", s))
    \/ (exists l1 b l2,
          budgets s = (l1 ++ b :: l2)%list
          /\ b_id b = budget_id /\ b_user_id b = user_id
          /\ (forall y, In y l1 -> owns_budget budget_id user_id y = false)
          /\ snd (update_budget budget_id data user_id s)
             = mkStore (transactions s) (l1 ++ updated_budget data b :: l2)
          /\ ((forall y, In y l1 -> b_id y <> budget_id) ->
              literal_string (b_month (updated_budget data b)) = true ->
              fst (update_budget budget_id data user_id s)
              = Ok (mkBudgetResponse (updated_budget data b)
                      (spec_spent user_id (b_category b)
                         (b_month (updated_budget data b))
                         (transactions s))))).
Proof.
  intros budget_id data user_id s Hdata.
  unfold update_budget.
  destruct (budget_update_data data) as [|f fs] eqn:E; [congruence|].
  rewrite <- E. clear E Hdata f fs.
  unfold bind, update_one_budget.
  change (fun b => String.eqb (b_id b) budget_id
                   && String.eqb (b_user_id b) user_id)
    with (owns_budget budget_id user_id).
  destruct (first_match_split (owns_budget budget_id user_id) (budgets s))
    as [Hnone|[l1 [b [l2 [Hsplit [Hb Hl1]]]]]].
  - left. split; [exact Hnone|].
    rewrite (update_first_none _ _ _ Hnone). cbn. rewrite store_eta.
    reflexivity.
  - right. exists l1, b, l2. split; [exact Hsplit|].
    unfold owns_budget in Hb. apply andb_prop in Hb as Hb'.
    destruct Hb' as [Hid Hu]. apply String.eqb_eq in Hid, Hu.
    split; [exact Hid|]. split; [exact Hu|]. split; [exact Hl1|].
    rewrite Hsplit, (update_first_split _ _ l1 l2 b Hl1) by exact Hb.
    cbn [fst snd Nat.eqb]. rewrite set_budget_fields.
    unfold find_one_budget. cbn [budgets].
    split.
    + destruct (find _ _) as [b'|]; [|reflexivity].
      pose proof (calculate_spent_run user_id (b_category b') (b_month b')
                    (mkStore (transactions s)
                       (l1 ++ updated_budget data b :: l2))) as Hc.
      destruct (regex_compile ("^" ++ b_month b')); rewrite Hc; reflexivity.
    + intros Hids Hlit. rewrite find_split.
      * rewrite (calculate_spent_literal _ _ _ _ Hlit). reflexivity.
      * intros y Hy. apply Hids, String.eqb_neq in Hy. exact Hy.
      * cbn. rewrite Hid. apply String.eqb_refl.
Qed.

Lemma update_budget_example :
  budget_update_data move_to_april <> []
  /\ update_budget "b1" move_to_april "user" budgeted_store
     = (Ok (mkBudgetResponse (mkBudget "b1" "user" "Food" 250 "2024-04") 0),
        mkStore scenario_ledger [mkBudget "b1" "user" "Food" 250 "2024-04"])
  /\ update_budget "b1" move_to_april "other" budgeted_store
     = (HTTPException 404 "Budget not found", budgeted_store).
Proof.
  assert (H : budget_update_data move_to_april <> []) by discriminate.
  split; [exact H|].
  destruct (update_budget_rewrites_one_owned "b1" move_to_april "other"
              budgeted_store H) as [[_ Hrun]|[l1 [b [l2 [Hsplit [_ [Hu _]]]]]]].
  - split; [reflexivity|exact Hrun].
  - exfalso. assert (Hin : In b (budgets budgeted_store))
      by (rewrite Hsplit; apply in_elt).
    destruct Hin as [<-|[]]. discriminate Hu.
Defined.

(** ** Listing transactions *)

Lemma sort_value_leb_total (a b : sort_value) :
  sort_value_leb a b = false -> sort_value_leb b a = true.
Proof.
  destruct a as [|x|x], b as [|y|y]; simpl; try discriminate; try reflexivity.
  - intro H. apply Qle_bool_iff.
    destruct (Qlt_le_dec y x) as [Hlt|Hle]; [apply Qlt_le_weak, Hlt|].
    apply Qle_bool_iff in Hle. rewrite Hle in H. discriminate H.
  - apply str_leb_total.
Qed.

Lemma sort_value_leb_trans (a b c : sort_value) :
  sort_value_leb a b = true -> sort_value_leb b c = true ->
  sort_value_leb a c = true.
Proof.
  destruct a as [|x|x], b as [|y|y], c as [|z|z]; simpl; try discriminate;
    try reflexivity.
  - rewrite !Qle_bool_iff. apply Qle_trans.
  - apply str_leb_trans.
Qed.

Lemma sort_order_le_total (key : Transaction -> sort_value) (order : string)
    (a b : Transaction) :
  sort_order_le key order a b = false -> sort_order_le key order b a = true.
Proof.
  unfold sort_order_le. destruct (String.eqb order "desc");
    apply sort_value_leb_total.
Qed.

Lemma sort_order_le_trans (key : Transaction -> sort_value) (order : string)
    (a b c : Transaction) :
  sort_order_le key order a b = true -> sort_order_le key order b c = true ->
  sort_order_le key order a c = true.
Proof.
  unfold sort_order_le. destruct (String.eqb order "desc"); intros H1 H2.
  - exact (sort_value_leb_trans _ _ _ H2 H1).
  - exact (sort_value_leb_trans _ _ _ H1 H2).
Qed.

(** X7: without a search text, for a sort field that transactions have and
    a month free of metacharacters (or none), [get_transactions] returns
    transactions of the user only, each passing the type, category and
    month filters that are given, at most 1000 of them, in the order asked
    for; a matching transaction is left out only when 1000 others that sort
    no later are returned; the store is not changed. *)
Theorem get_transactions_lists_own_matches :
  forall (month type_ category search : option string)
         (sort_by_field sort_order user_id : string)
         (key : Transaction -> sort_value) (s : Store),
    truthy search = None ->
    sort_field sort_by_field = Some key ->
    (forall m, truthy month = Some m -> literal_string m = true) ->
    let matches t :=
      String.eqb (t_user_id t) user_id
      && field_is type_ (type_name (t_type t))
      && field_is category (t_category t)
      && match truthy month with
         | Some m => String.prefix m (t_date t)
         | None => true
         end in
    exists l,
      get_transactions month type_ category search sort_by_field sort_order
        user_id s = (Ok l, s)
      /\ (forall t, In t l ->
            In t (transactions s) /\ t_user_id t = user_id /\ matches t = true)
      /\ (List.length l <= 1000)%nat
      /\ StronglySorted (fun a b => sort_order_le key sort_order a b = true) l
      /\ (forall t, In t (transactions s) -> matches t = true ->
            In t l
            \/ (List.length l = 1000%nat
                /\ forall x, In x l -> sort_order_le key sort_order x t = true)).
Proof.
  intros month type_ category search sort_by_field sort_order user_id key s
    Hsearch Hkey Hmonth matches.
  set (others := fun t => String.eqb (t_user_id t) user_id
                          && field_is type_ (type_name (t_type t))
                          && field_is category (t_category t)).
  assert (Hquery :
    match truthy search with
    | Some _ => None
    | None =>
        match truthy month with
        | Some m => match_regex ("^" ++ m) t_date others (transactions s)
        | None => Some (filter others (transactions s))
        end
    end = Some (filter matches (transactions s))).
  { rewrite Hsearch. subst matches. destruct (truthy month) as [m|] eqn:Em.
    - rewrite (match_regex_literal m _ _ _ (Hmonth m eq_refl)). reflexivity.
    - f_equal. apply filter_ext. intro t. rewrite andb_true_r. reflexivity. }
  set (le := sort_order_le key sort_order).
  assert (Hsorted : StronglySorted (fun a b => le a b = true)
                      (sort_by le (filter matches (transactions s)))).
  { apply sort_by_sorted; [apply sort_order_le_total|apply sort_order_le_trans]. }
  exists (firstn 1000 (sort_by le (filter matches (transactions s)))).
  split.
  - unfold get_transactions, find_sort_transactions. fold others.
    rewrite Hquery, Hkey. reflexivity.
  - split; [|split; [|split]].
    + intros t Ht. apply In_firstn, sort_by_In, filter_In in Ht as [Hin Hm].
      split; [exact Hin|]. split; [|exact Hm].
      subst matches. cbv beta in Hm.
      apply andb_prop in Hm as [Hm _]. apply andb_prop in Hm as [Hm _].
      apply andb_prop in Hm as [Hm _]. apply String.eqb_eq, Hm.
    + apply firstn_le_length.
    + apply StronglySorted_firstn, Hsorted.
    + intros t Hin Hm.
      apply (firstn_sorted_top _ 1000 _ Hsorted).
      apply sort_by_In, filter_In. split; assumption.
Qed.

(** The defaults (by date, latest first) on the scenario, for expenses. *)
Lemma get_transactions_example :
  truthy None = None
  /\ sort_field "date" = Some (fun t => SStr (t_date t))
  /\ (forall m, truthy (Some "2024-03") = Some m -> literal_string m = true)
  /\ get_transactions (Some "2024-03") (Some "expense") None None "date" "desc"
       "user" scenario_store
     = (Ok [ tx "t2" "user" expense 50 "Food" "2024-03-20";
             tx "t1" "user" expense 100 "Food" "2024-03-05" ], scenario_store).
Proof.
  assert (Hm : forall m, truthy (Some "2024-03") = Some m ->
                         literal_string m = true).
  { intros m H. injection H as <-. reflexivity. }
  split; [reflexivity|]. split; [reflexivity|]. split; [exact Hm|].
  destruct (get_transactions_lists_own_matches (Some "2024-03") (Some "expense")
              None None "date" "desc" "user" (fun t => SStr (t_date t))
              scenario_store eq_refl eq_refl Hm) as [l [Hrun _]].
  rewrite Hrun. f_equal. f_equal. vm_compute in Hrun. injection Hrun as <-.
  reflexivity.
Defined.

(** ** The dashboard: totals and recent transactions *)

Lemma date_desc_total (a b : Transaction) :
  date_desc a b = false -> date_desc b a = true.
Proof. apply str_leb_total. Qed.

Lemma date_desc_trans (a b c : Transaction) :
  date_desc a b = true -> date_desc b c = true -> date_desc a c = true.
Proof. unfold date_desc. intros H1 H2. exact (str_leb_trans _ _ _ H2 H1). Qed.

(** X8: for a month free of metacharacters the totals of the dashboard are
    sums over the records of the user: [total_income] and [total_expenses]
    over the income and expense transactions whose date starts with the
    month, [total_budget] over the budgets whose month is exactly the
    month, whatever their category. *)
Theorem dashboard_totals_are_sums :
  forall (month : option string) (user_id : string) (clock : Clock) (s : Store),
    let m := or_default month (now_month clock) in
    literal_string m = true ->
    exists d,
      get_dashboard month user_id clock s = (Ok d, s)
      /\ total_income d
         = sum_amounts
             (filter (fun t => String.eqb (t_user_id t) user_id && is_income t
                               && String.prefix m (t_date t)) (transactions s))
      /\ total_expenses d
         = sum_amounts
             (filter (fun t => String.eqb (t_user_id t) user_id && is_expense t
                               && String.prefix m (t_date t)) (transactions s))
      /\ total_budget d
         = sum_budgets
             (filter (fun b => String.eqb (b_user_id b) user_id
                               && String.eqb (b_month b) m) (budgets s)).
Proof.
  intros month user_id clock s m Hlit.
  pose proof (get_dashboard_run month user_id clock s) as Hrun.
  cbv zeta in Hrun. fold m in Hrun.
  rewrite (regex_compile_literal m Hlit) in Hrun.
  eexists. split; [exact Hrun|].
  cbn [total_income total_expenses total_budget].
  split; [|split; [|reflexivity]]; f_equal; apply filter_ext; intro t;
    unfold regex_exec; simpl; rewrite match_here_literal; reflexivity.
Qed.

Lemma dashboard_totals_example :
  literal_string "2024-03" = true
  /\ exists d,
       get_dashboard (Some "2024-03") "user" fixed_clock shared_store
       = (Ok d, shared_store)
       /\ total_income d = 3000 /\ total_expenses d = 150
       /\ total_budget d = 200.
Proof.
  split; [reflexivity|].
  destruct (dashboard_totals_are_sums (Some "2024-03") "user" fixed_clock
              shared_store eq_refl) as [d [Hrun [Hi [He Hb]]]].
  exists d. split; [exact Hrun|]. rewrite Hi, He, Hb.
  repeat split; reflexivity.
Defined.

(** X9: the recent transactions of a dashboard are transactions of the user,
    at most five, latest date first, taken from the whole ledger and not
    from the month of the dashboard; a transaction of the user is left out
    only when five others dated no earlier are shown. *)
Theorem dashboard_recent_transactions :
  forall (month : option string) (user_id : string) (clock : Clock)
         (s s' : Store) (d : Dashboard),
    get_dashboard month user_id clock s = (Ok d, s') ->
    (forall t, In t (recent_transactions d) ->
               In t (transactions s) /\ t_user_id t = user_id)
    /\ (List.length (recent_transactions d) <= 5)%nat
    /\ StronglySorted (fun a b => lex_le (t_date b) (t_date a))
         (recent_transactions d)
    /\ (forall t, In t (transactions s) -> t_user_id t = user_id ->
          In t (recent_transactions d)
          \/ (List.length (recent_transactions d) = 5%nat
              /\ forall x, In x (recent_transactions d) ->
                           lex_le (t_date t) (t_date x)))
    /\ (forall month' d' s'',
          get_dashboard month' user_id clock s = (Ok d', s'') ->
          recent_transactions d' = recent_transactions d).
Proof.
  intros month user_id clock s s' d Hd.
  set (own := filter (fun t => String.eqb (t_user_id t) user_id)
                (transactions s)).
  assert (Hrecent : forall mo d0 s0,
            get_dashboard mo user_id clock s = (Ok d0, s0) ->
            recent_transactions d0 = firstn 5 (sort_by date_desc own)).
  { intros mo d0 s0 H0.
    pose proof (get_dashboard_run mo user_id clock s) as Hrun.
    cbv zeta in Hrun.
    destruct (regex_compile ("^" ++ or_default mo (now_month clock)));
      rewrite Hrun in H0; [|discriminate H0].
    injection H0 as <- _. reflexivity. }
  assert (Hsorted : StronglySorted (fun a b => lex_le (t_date b) (t_date a))
                      (sort_by date_desc own)).
  { apply StronglySorted_weaken with (R := fun a b => date_desc a b = true).
    - intros a b H. apply str_leb_lex_le, H.
    - apply sort_by_sorted; [apply date_desc_total|apply date_desc_trans]. }
  rewrite (Hrecent _ _ _ Hd).
  split; [|split; [|split; [|split]]].
  - intros t Ht. apply In_firstn, sort_by_In, filter_In in Ht as [Hin Hu].
    split; [exact Hin|apply String.eqb_eq, Hu].
  - apply firstn_le_length.
  - apply StronglySorted_firstn, Hsorted.
  - intros t Hin Hu. apply (firstn_sorted_top _ 5 _ Hsorted).
    apply sort_by_In, filter_In. split; [exact Hin|].
    apply String.eqb_eq, Hu.
  - intros month' d' s'' Hd'. apply (Hrecent _ _ _ Hd').
Qed.

Lemma dashboard_recent_example :
  exists d,
    get_dashboard (Some "2024-03") "user" fixed_clock shared_store
    = (Ok d, shared_store)
    /\ recent_transactions d
       = [ tx "t2" "user" expense 50 "Food" "2024-03-20";
           tx "t1" "user" expense 100 "Food" "2024-03-05";
           tx "t3" "user" income 3000 "Salary" "2024-03-01" ]
    /\ forall t, In t (recent_transactions d) ->
                 In t (transactions shared_store) /\ t_user_id t = "user".
Proof.
  pose proof (get_dashboard_run (Some "2024-03") "user" fixed_clock
                shared_store) as Hrun.
  cbv zeta in Hrun. simpl regex_compile in Hrun. cbv iota in Hrun.
  eexists. split; [exact Hrun|]. split; [vm_compute; reflexivity|].
  exact (proj1 (dashboard_recent_transactions _ _ _ _ _ _ Hrun)).
Defined.

(** ** Listing budgets *)

Lemma budgets_with_spent_literal (user_id : string) (bs : list Budget)
    (s : Store) :
  (forall b, In b bs -> literal_string (b_month b) = true) ->
  budgets_with_spent user_id bs s = (Ok (map (with_spent user_id s) bs), s).
Proof.
  induction bs as [|b bs IH]; intro H; [reflexivity|].
  cbn [budgets_with_spent]. unfold bind.
  rewrite (calculate_spent_literal _ _ _ s (H b (or_introl eq_refl))).
  rewrite IH by (intros b' Hb'; apply H; right; exact Hb').
  reflexivity.
Qed.

Lemma budgets_with_spent_ok (user_id : string) (bs : list Budget)
    (s s' : Store) (l : list BudgetResponse) :
  budgets_with_spent user_id bs s = (Ok l, s') ->
  s' = s /\ map br_budget l = bs
  /\ forall r, In r l ->
               calculate_spent user_id (b_category (br_budget r))
                 (b_month (br_budget r)) s = (Ok (br_spent r), s).
Proof.
  revert l s'. induction bs as [|b bs IH]; intros l s' H.
  - injection H as <- <-. repeat split. intros r [].
  - cbn [budgets_with_spent] in H. unfold bind, ret in H.
    pose proof (calculate_spent_run user_id (b_category b) (b_month b) s) as Hc.
    destruct (regex_compile ("^" ++ b_month b)) as [re|];
      rewrite Hc in H; [|discriminate H].
    destruct (budgets_with_spent user_id bs s) as [[l0| |] s0] eqn:E;
      try discriminate H.
    destruct (IH l0 s0 eq_refl) as [-> [Hmap Hall]].
    injection H as <- <-. split; [reflexivity|]. split.
    + cbn. rewrite Hmap. reflexivity.
    + intros r [<-|Hr]; [exact Hc|apply Hall, Hr].
Qed.

(** X10: [get_budgets] does not change the store; what it returns are, in
    the order of the collection, the first 100 budgets of the user (of the
    given month, when one is given), each with the amount that
    [calculate_spent] gives for its category and month; it does return them
    when their months are free of metacharacters, [spent] being then the sum
    of the matching expenses. *)
Theorem get_budgets_lists_own_budgets :
  forall (month : option string) (user_id : string) (s : Store),
    (forall b, In b (listed_budgets month user_id s) ->
       In b (budgets s) /\ b_user_id b = user_id
       /\ (forall m, truthy month = Some m -> b_month b = m))
    /\ (List.length (listed_budgets month user_id s) <= 100)%nat
    /\ (forall l s',
          get_budgets month user_id s = (Ok l, s') ->
          s' = s /\ map br_budget l = listed_budgets month user_id s
          /\ forall r, In r l ->
               calculate_spent user_id (b_category (br_budget r))
                 (b_month (br_budget r)) s = (Ok (br_spent r), s))
    /\ ((forall b, In b (listed_budgets month user_id s) ->
                   literal_string (b_month b) = true) ->
        get_budgets month user_id s
        = (Ok (map (with_spent user_id s) (listed_budgets month user_id s)), s)).
Proof.
  intros month user_id s. split; [|split; [|split]].
  - intros b Hb. apply In_firstn, filter_In in Hb as [Hin Hq].
    apply andb_prop in Hq as [Hu Hm]. apply String.eqb_eq in Hu.
    split; [exact Hin|]. split; [exact Hu|].
    intros m Em. unfold field_is in Hm. rewrite Em in Hm.
    apply String.eqb_eq, Hm.
  - apply firstn_le_length.
  - intros l s' H. unfold get_budgets, bind, find_budgets in H.
    apply budgets_with_spent_ok in H. exact H.
  - intro Hlit. unfold get_budgets, bind, find_budgets.
    apply budgets_with_spent_literal, Hlit.
Qed.

Lemma get_budgets_literal (month : option string) (user_id : string)
    (s : Store) :
  (forall b, In b (budgets s) -> b_user_id b = user_id ->
             literal_string (b_month b) = true) ->
  get_budgets month user_id s
  = (Ok (map (with_spent user_id s) (listed_budgets month user_id s)), s).
Proof.
  intro H. unfold get_budgets, bind, find_budgets.
  apply budgets_with_spent_literal. intros b Hb.
  apply In_firstn, filter_In in Hb as [Hin Hq].
  apply andb_prop in Hq as [Hu _]. apply String.eqb_eq in Hu.
  exact (H b Hin Hu).
Qed.

(** X11: a budget created for a (category, month) that the user has no
    budget for is answered with [spent = 0], whatever the ledger holds; the
    list of the user's budgets read right after ends with it (while the user
    has fewer than 100 budgets, and months are free of metacharacters) and
    reports for it the sum of the expenses already recorded for that
    category and month. *)
Theorem created_budget_is_listed_with_real_spent :
  forall (data : BudgetCreate) (user_id uuid : string) (s : Store),
    ~ In (user_id, bc_category data, bc_month data)
         (map budget_key (budgets s)) ->
    (forall b, In b (budgets s) -> b_user_id b = user_id ->
               literal_string (b_month b) = true) ->
    literal_string (bc_month data) = true ->
    (List.length (filter (owned_budget user_id) (budgets s)) < 100)%nat ->
    let budget := mkBudget uuid user_id (bc_category data) (bc_amount data)
                    (bc_month data) in
    let s' := mkStore (transactions s) (budgets s ++ [budget])%list in
    exists before,
      get_budgets None user_id s = (Ok before, s)
      /\ create_budget data user_id uuid s = (Ok (mkBudgetResponse budget 0), s')
      /\ get_budgets None user_id s'
         = (Ok (before
                ++ [mkBudgetResponse budget
                      (spec_spent user_id (bc_category data) (bc_month data)
                         (transactions s))])%list, s').
Proof.
  intros data user_id uuid s Hfresh Hlit Hnew Hlen budget s'.
  exists (map (with_spent user_id s) (listed_budgets None user_id s)).
  split; [apply get_budgets_literal, Hlit|]. split.
  - apply (create_budget_cases data user_id uuid s), Hfresh.
  - rewrite get_budgets_literal.
    + f_equal. f_equal. unfold listed_budgets, s'. cbn [budgets].
      rewrite filter_app. cbn [filter b_user_id budget b_month field_is truthy].
      rewrite String.eqb_refl. cbn [andb].
      assert (Heq : filter (fun b => String.eqb (b_user_id b) user_id && true)
                      (budgets s)
                    = filter (owned_budget user_id) (budgets s)).
      { apply filter_ext. intro b. apply andb_true_r. }
      rewrite Heq.
      rewrite !firstn_all2 by (rewrite ?length_app; cbn [List.length]; lia).
      rewrite map_app. reflexivity.
    + intros b Hb Hu. cbn [budgets s'] in Hb.
      apply in_app_or in Hb as [Hb|[<-|[]]]; [exact (Hlit b Hb Hu)|exact Hnew].
Qed.

(** On the scenario the new budget for Food is answered with 0 spent and
    listed with the 150 already spent. *)
Lemma created_budget_example :
  ~ In ("user", bc_category food_budget, bc_month food_budget)
       (map budget_key (budgets scenario_store))
  /\ (forall b, In b (budgets scenario_store) -> b_user_id b = "user" ->
                literal_string (b_month b) = true)
  /\ literal_string (bc_month food_budget) = true
  /\ (List.length (filter (owned_budget "user") (budgets scenario_store))
      < 100)%nat
  /\ get_budgets None "user"
       (mkStore scenario_ledger [mkBudget "b1" "user" "Food" 200 "2024-03"])
     = (Ok [mkBudgetResponse (mkBudget "b1" "user" "Food" 200 "2024-03") 150],
        mkStore scenario_ledger [mkBudget "b1" "user" "Food" 200 "2024-03"]).
Proof.
  assert (H1 : ~ In ("user", bc_category food_budget, bc_month food_budget)
                    (map budget_key (budgets scenario_store)))
    by (intros []).
  assert (H2 : forall b, In b (budgets scenario_store) -> b_user_id b = "user" ->
                         literal_string (b_month b) = true)
    by (intros b []).
  assert (H4 : (List.length (filter (owned_budget "user")
                               (budgets scenario_store)) < 100)%nat)
    by (cbn; lia).
  split; [exact H1|]. split; [exact H2|]. split; [reflexivity|].
  split; [exact H4|].
  destruct (created_budget_is_listed_with_real_spent food_budget "user" "b1"
              scenario_store H1 H2 eq_refl H4) as [before [Hb [_ Hafter]]].
  vm_compute in Hb. injection Hb as <-. exact Hafter.
Defined.

(** ** Sums of amounts *)

Lemma fold_Qplus_acc (l : list Q) (a : Q) :
  fold_left Qplus l a == a + fold_left Qplus l 0.
Proof.
  revert a. induction l as [|q l IH]; intro a; simpl; [ring|].
  rewrite (IH (a + q)), (IH (0 + q)). ring.
Qed.

Lemma sum_amounts_cons (t : Transaction) (docs : list Transaction) :
  sum_amounts (t :: docs) == t_amount t + sum_amounts docs.
Proof.
  unfold sum_amounts. simpl. rewrite fold_Qplus_acc. ring.
Qed.

(** ** Analytics of a range that ends before it starts *)

Lemma str_leb_same_length_prefix (a b x y : string) :
  String.length a = String.length b ->
  str_leb (a ++ x) (b ++ y) = true -> str_leb a b = true.
Proof.
  revert b. induction a as [|c a IH]; intros [|d b] Hlen H;
    try discriminate Hlen; [reflexivity|].
  cbn [append str_leb] in *.
  destruct (nat_of_ascii c <? nat_of_ascii d)%nat; [reflexivity|].
  destruct (nat_of_ascii c =? nat_of_ascii d)%nat; [|discriminate H].
  apply IH; [|exact H]. injection Hlen as Hlen. exact Hlen.
Qed.

(** X12: when both months are given, are of the same length (as two
    "YYYY-MM" strings are) and the end month is lexicographically before the
    start month, no date lies in the range: [get_analytics] answers with an
    empty category breakdown and an empty monthly trend, not with an error,
    and leaves the store unchanged. *)
Theorem analytics_of_inverted_range_are_empty :
  forall (start_month end_month user_id : string) (clock : Clock) (s : Store),
    start_month <> EmptyString ->
    String.length start_month = String.length end_month ->
    lex_le end_month start_month ->
    end_month <> start_month ->
    get_analytics (Some start_month) (Some end_month) user_id clock s
    = (Ok (mkAnalytics [] [] start_month end_month), s).
Proof.
  intros sm em user_id clock s Hsm Hlen Hle Hne.
  assert (Hem : em <> EmptyString).
  { intros ->. destruct sm; [congruence|discriminate Hlen]. }
  assert (Hout : forall t, in_range sm em t = false).
  { intro t. apply not_true_is_false. intro H.
    unfold in_range, date_between in H. apply andb_prop in H as [H1 H2].
    pose proof (str_leb_trans _ _ _ H1 H2) as H.
    apply str_leb_same_length_prefix in H; [|exact Hlen].
    apply Hne. apply str_leb_antisym; [|exact H].
    apply str_leb_lex_le, Hle. }
  rewrite get_analytics_run.
  rewrite (or_default_given sm _ Hsm), (or_default_given em _ Hem).
  unfold category_pipeline, category_groups, monthly_pipeline, monthly_groups.
  rewrite !filter_none; [reflexivity| |].
  - intros t _. unfold monthly_match. rewrite Hout. apply andb_false_r.
  - intros t _. unfold category_match. rewrite Hout. apply andb_false_r.
Qed.

(** The scenario asked for from May back to March: nothing is shown. *)
Lemma analytics_of_inverted_range_example :
  lex_le "2024-03" "2024-05"
  /\ get_analytics (Some "2024-05") (Some "2024-03") "user" fixed_clock
       scenario_store
     = (Ok (mkAnalytics [] [] "2024-05" "2024-03"), scenario_store).
Proof.
  assert (H : lex_le "2024-03" "2024-05") by (apply str_leb_lex_le; reflexivity).
  split; [exact H|].
  apply analytics_of_inverted_range_are_empty;
    [discriminate|reflexivity|exact H|discriminate].
Defined.

(** ** Categories *)

Lemma accounts_eta (s : Accounts) :
  mkAccounts (users s) (categories s) (payment_transactions s) = s.
Proof. destruct s; reflexivity. Qed.

Lemma own_custom_not_default (category_id user_id : string) (c : Category) :
  own_custom_category category_id user_id c = true -> c_is_default c = false.
Proof.
  unfold own_custom_category. intro H. apply andb_prop in H as [_ H].
  destruct (c_is_default c); [discriminate H|reflexivity].
Qed.

(** X13: no request of the category routes changes, removes or adds a
    default category: after [create_category], [update_category] or
    [delete_category], run by any user with any arguments, the default
    categories of the collection are what they were; and a request to
    update or delete a category that is a default one is answered 404 and
    changes nothing. *)
Theorem default_categories_never_change :
  forall (category_id : string) (data : CategoryCreate) (user_id uuid : string)
         (s : Accounts),
    filter c_is_default
      (categories (snd (create_category data user_id uuid s)))
    = filter c_is_default (categories s)
    /\ filter c_is_default
         (categories (snd (update_category category_id data user_id s)))
       = filter c_is_default (categories s)
    /\ filter c_is_default
         (categories (snd (delete_category category_id user_id s)))
       = filter c_is_default (categories s)
    /\ ((forall c, In c (categories s) -> c_id c = category_id ->
                   c_is_default c = true) ->
        update_category category_id data user_id s
        = (HTTPException 404 "Category not found or is default", s)
        /\ delete_category category_id user_id s
           = (HTTPException 404 "Category not found or is default", s)).
Proof.
  intros category_id data user_id uuid s.
  set (q := own_custom_category category_id user_id).
  split; [|split; [|split]].
  - cbn. rewrite filter_app. cbn. apply app_nil_r.
  - unfold update_category, abind, update_one_category. fold q.
    destruct (first_match_split q (categories s))
      as [Hnone|[l1 [c [l2 [Hsplit [Hc Hl1]]]]]].
    + rewrite (update_first_none _ _ _ Hnone). reflexivity.
    + rewrite Hsplit, (update_first_split _ _ l1 l2 c Hl1 Hc).
      cbn [fst snd Nat.eqb]. unfold find_one_category. cbn [categories].
      assert (Hfilter : filter c_is_default (l1 ++ set_category data c :: l2)
                        = filter c_is_default (l1 ++ c :: l2)).
      { rewrite !filter_app. cbn [filter set_category c_is_default].
        rewrite (own_custom_not_default _ _ _ Hc). reflexivity. }
      destruct (find _ _); cbn; exact Hfilter.
  - unfold delete_category, abind, delete_one_category. fold q.
    destruct (first_match_split q (categories s))
      as [Hnone|[l1 [c [l2 [Hsplit [Hc Hl1]]]]]].
    + rewrite (delete_first_none _ _ Hnone). reflexivity.
    + rewrite Hsplit, (delete_first_split _ l1 l2 c Hl1 Hc).
      cbn. rewrite !filter_app. cbn [filter].
      rewrite (own_custom_not_default _ _ _ Hc). reflexivity.
  - intro Hdef.
    assert (Hnone : forall c, In c (categories s) -> q c = false).
    { intros c Hc. apply not_true_is_false. intro Hq.
      pose proof (own_custom_not_default _ _ _ Hq) as Hnd.
      unfold q, own_custom_category in Hq.
      apply andb_prop in Hq as [Hq _]. apply andb_prop in Hq as [Hid _].
      apply String.eqb_eq in Hid. rewrite (Hdef c Hc Hid) in Hnd.
      discriminate Hnd. }
    unfold update_category, delete_category, abind, update_one_category,
      delete_one_category. fold q.
    rewrite (update_first_none _ _ _ Hnone), (delete_first_none _ _ Hnone).
    cbn. rewrite accounts_eta. split; reflexivity.
Qed.

(** The owner of a default category can neither rename nor delete it. *)
Lemma default_categories_example :
  (forall c, In c (categories two_users) -> c_id c = "c1" ->
             c_is_default c = true)
  /\ update_category "c1" (mkCategoryCreate "Groceries" "#fff" "cart") "u1"
       two_users
     = (HTTPException 404 "Category not found or is default", two_users)
  /\ delete_category "c1" "u1" two_users
     = (HTTPException 404 "Category not found or is default", two_users).
Proof.
  assert (H : forall c, In c (categories two_users) -> c_id c = "c1" ->
                        c_is_default c = true).
  { intros c [<-|[<-|[]]]; [reflexivity|discriminate]. }
  split; [exact H|].
  exact (proj2 (proj2 (proj2 (default_categories_never_change "c1"
                                (mkCategoryCreate "Groceries" "#fff" "cart")
                                "u1" "c9" two_users))) H).
Defined.

(** X14: [update_category] answers 404 and changes nothing when the user
    owns no custom category with the id; otherwise it gives the first such
    category the name, color and icon of the body, keeps its id and owner,
    leaves every other category alone, and returns it when no earlier
    category has the same id. *)
Theorem update_category_rewrites_one_custom :
  forall (category_id : string) (data : CategoryCreate) (user_id : string)
         (s : Accounts),
    ((forall c, In c (categories s) ->
                own_custom_category category_id user_id c = false)
     /\ update_category category_id data user_id s
        = (HTTPException 404 "Category not found or is default", s))
    \/ (exists l1 c l2,
          categories s = (l1 ++ c :: l2)%list
          /\ c_id c = category_id /\ c_user_id c = user_id
          /\ c_is_default c = false
          /\ (forall y, In y l1 ->
                        own_custom_category category_id user_id y = false)
          /\ snd (update_category category_id data user_id s)
             = mkAccounts (users s)
                 (l1 ++ mkCategory category_id user_id (cc_name data)
                          (cc_color data) (cc_icon data) false :: l2)
                 (payment_transactions s)
          /\ ((forall y, In y l1 -> c_id y <> category_id) ->
              fst (update_category category_id data user_id s)
              = Ok (mkCategory category_id user_id (cc_name data)
                      (cc_color data) (cc_icon data) false))).
Proof.
  intros category_id data user_id s.
  set (q := own_custom_category category_id user_id).
  unfold update_category, abind, update_one_category. fold q.
  destruct (first_match_split q (categories s))
    as [Hnone|[l1 [c [l2 [Hsplit [Hc Hl1]]]]]].
  - left. split; [exact Hnone|].
    rewrite (update_first_none _ _ _ Hnone). cbn. rewrite accounts_eta.
    reflexivity.
  - right. exists l1, c, l2. split; [exact Hsplit|].
    pose proof (own_custom_not_default _ _ _ Hc) as Hnd.
    unfold q, own_custom_category in Hc. apply andb_prop in Hc as Hc'.
    destruct Hc' as [Hc' _]. apply andb_prop in Hc' as [Hid Hu].
    apply String.eqb_eq in Hid, Hu.
    split; [exact Hid|]. split; [exact Hu|]. split; [exact Hnd|].
    split; [exact Hl1|].
    rewrite Hsplit, (update_first_split _ _ l1 l2 c Hl1 Hc).
    cbn [fst snd Nat.eqb]. unfold find_one_category. cbn [categories].
    unfold set_category. rewrite Hid, Hu, Hnd. split.
    + destruct (find _ _); reflexivity.
    + intro Hids. rewrite find_split; [reflexivity| |].
      * intros y Hy. apply Hids, String.eqb_neq in Hy. exact Hy.
      * cbn. apply String.eqb_refl.
Qed.

(** X15: a category created by a user is a custom one and, while the user
    has fewer than 100 categories, comes last in the list of the user's
    categories read right after; the list of any other user is what it
    was. *)
Theorem created_category_is_listed :
  forall (data : CategoryCreate) (user_id uuid : string) (s : Accounts),
    (List.length (filter (fun c => String.eqb (c_user_id c) user_id)
                    (categories s)) < 100)%nat ->
    let category := mkCategory uuid user_id (cc_name data) (cc_color data)
                      (cc_icon data) false in
    let s' := mkAccounts (users s) (categories s ++ [category])
                (payment_transactions s) in
    exists before,
      get_categories user_id s = (Ok before, s)
      /\ create_category data user_id uuid s = (Ok category, s')
      /\ get_categories user_id s' = (Ok (before ++ [category])%list, s')
      /\ (forall other, other <> user_id ->
            fst (get_categories other s') = fst (get_categories other s)).
Proof.
  intros data user_id uuid s Hlen category s'.
  eexists. split; [reflexivity|]. split; [reflexivity|]. split.
  - unfold get_categories, find_categories. cbn [categories s'].
    rewrite filter_app. cbn [filter category c_user_id].
    rewrite String.eqb_refl.
    rewrite !firstn_all2 by (rewrite ?length_app; cbn [List.length]; lia).
    reflexivity.
  - intros other Hother. unfold get_categories, find_categories.
    cbn [categories s' fst]. rewrite filter_app. cbn [filter category c_user_id].
    apply not_eq_sym, String.eqb_neq in Hother. rewrite Hother, app_nil_r.
    reflexivity.
Qed.

Lemma created_category_example :
  (List.length (filter (fun c => String.eqb (c_user_id c) "u1")
                  (categories two_users)) < 100)%nat
  /\ get_categories "u1"
       (snd (create_category (mkCategoryCreate "Gifts" "#123456" "gift") "u1"
               "c3" two_users))
     = (Ok [alice_food; alice_pets;
            mkCategory "c3" "u1" "Gifts" "#123456" "gift" false],
        mkAccounts [alice; bob]
          [alice_food; alice_pets;
           mkCategory "c3" "u1" "Gifts" "#123456" "gift" false] []).
Proof.
  assert (H : (List.length (filter (fun c => String.eqb (c_user_id c) "u1")
                              (categories two_users)) < 100)%nat)
    by (cbn; lia).
  split; [exact H|].
  destruct (created_category_is_listed (mkCategoryCreate "Gifts" "#123456" "gift")
              "u1" "c3" two_users H) as [before [Hb [_ [Hafter _]]]].
  vm_compute in Hb. injection Hb as <-. exact Hafter.
Defined.

(** ** Registration and login *)

Lemma insert_default_categories_run (user_id : string) (uuid : nat -> string)
    (cats : list (string * string * string)) (i : nat) (s : Accounts) :
  insert_default_categories user_id uuid i cats s
  = (Ok tt,
     mkAccounts (users s)
       (categories s
        ++ map (fun ic => default_category user_id (uuid (fst ic)) (snd ic))
             (combine (seq i (List.length cats)) cats))
       (payment_transactions s)).
Proof.
  revert i s. induction cats as [|cat cats IH]; intros i s.
  - cbn. rewrite app_nil_r, accounts_eta. reflexivity.
  - cbn [insert_default_categories]. unfold abind, insert_one_category.
    rewrite IH. cbn [users categories payment_transactions].
    rewrite <- app_assoc. reflexivity.
Qed.

Lemma register_fresh (crypto : Crypto) (data : UserRegister)
    (uuid : nat -> string) (now : string) (s : Accounts) :
  (forall u, In u (users s) -> u_email u <> reg_email data) ->
  register crypto data uuid now s
  = (Ok (mkTokenResponse (create_token crypto (uuid 0%nat) (reg_email data))
           (mkUserResponse (uuid 0%nat) (reg_email data) (reg_name data)
              false None)),
     mkAccounts
       (users s
        ++ [mkUser (uuid 0%nat) (reg_email data)
              (hash_password crypto (reg_password data)) (reg_name data)
              false None now None])
       (categories s ++ seeded_categories (uuid 0%nat) uuid)
       (payment_transactions s)).
Proof.
  intro Hfresh. unfold register, abind, find_one_user.
  rewrite find_none_iff.
  - unfold insert_one_user. rewrite insert_default_categories_run.
    reflexivity.
  - intros u Hu. apply String.eqb_neq, Hfresh, Hu.
Qed.

(** X16: registering under an email that no user has adds one user, not yet
    Pro and without PIN, whose password is stored hashed, and the eleven
    default categories for that user, and nothing else; it answers with the
    token and the new user, whose categories, read right after, are exactly
    these eleven (when the identifier drawn for the user is new). An email
    that is taken is answered 400 and nothing is written. *)
Theorem register_creates_user_with_default_categories :
  forall (crypto : Crypto) (data : UserRegister) (uuid : nat -> string)
         (now : string) (s : Accounts),
    let user_id := uuid 0%nat in
    let user := mkUser user_id (reg_email data)
                  (hash_password crypto (reg_password data)) (reg_name data)
                  false None now None in
    let s' := mkAccounts (users s ++ [user])
                (categories s ++ seeded_categories user_id uuid)
                (payment_transactions s) in
    ((forall u, In u (users s) -> u_email u <> reg_email data) ->
     register crypto data uuid now s
     = (Ok (mkTokenResponse (create_token crypto user_id (reg_email data))
              (mkUserResponse user_id (reg_email data) (reg_name data)
                 false None)), s')
     /\ ((forall c, In c (categories s) -> c_user_id c <> user_id) ->
         get_categories user_id s' = (Ok (seeded_categories user_id uuid), s')))
    /\ ((exists u, In u (users s) /\ u_email u = reg_email data) ->
        register crypto data uuid now s
        = (HTTPException 400 "Email already registered", s))
    /\ map c_name (seeded_categories user_id uuid)
       = ["Food"; "Rent"; "Utilities"; "Transportation"; "Entertainment";
          "Shopping"; "Health"; "Other"; "Salary"; "Freelance"; "Investment"]
    /\ (forall c, In c (seeded_categories user_id uuid) ->
                  c_user_id c = user_id /\ c_is_default c = true).
Proof.
  intros crypto data uuid now s user_id user s'.
  split; [|split; [|split]].
  - intro Hfresh.
    pose proof (register_fresh crypto data uuid now s Hfresh) as Hrun.
    split; [exact Hrun|].
    intro Hnew. unfold get_categories, find_categories. cbn [categories s'].
    rewrite filter_app, filter_none.
    + unfold seeded_categories, DEFAULT_CATEGORIES, default_category.
      cbn [app List.length seq combine map fst snd filter c_user_id].
      rewrite !String.eqb_refl. reflexivity.
    + intros c Hc. apply String.eqb_neq, Hnew, Hc.
  - intros [u [Hu He]]. unfold register, abind, find_one_user.
    destruct (find _ (users s)) as [u'|] eqn:E; [reflexivity|].
    pose proof (find_none _ _ E u Hu) as H. cbv beta in H.
    rewrite He, String.eqb_refl in H. discriminate H.
  - reflexivity.
  - intros c Hc. unfold seeded_categories in Hc.
    apply in_map_iff in Hc as [[i cat] [<- _]]. split; reflexivity.
Qed.

Lemma register_example :
  (forall u, In u (users two_users) -> u_email u <> reg_email carol_registration)
  /\ (forall c, In c (categories two_users) -> c_user_id c <> numbered_uuid 0)
  /\ fst (register toy_crypto carol_registration numbered_uuid
            "2024-03-01T09:00:00+00:00" two_users)
     = Ok (mkTokenResponse "token:A-uuid"
             (mkUserResponse "A-uuid" "carol@example.com" "Carol" false None))
  /\ register toy_crypto (mkUserRegister "bob@example.com" "x" "Bobby")
       numbered_uuid "2024-03-01T09:00:00+00:00" two_users
     = (HTTPException 400 "Email already registered", two_users).
Proof.
  assert (H1 : forall u, In u (users two_users) ->
                         u_email u <> reg_email carol_registration).
  { intros u [<-|[<-|[]]]; discriminate. }
  assert (H2 : forall c, In c (categories two_users) ->
                         c_user_id c <> numbered_uuid 0).
  { intros c [<-|[<-|[]]]; discriminate. }
  split; [exact H1|]. split; [exact H2|].
  destruct (register_creates_user_with_default_categories toy_crypto
              carol_registration numbered_uuid "2024-03-01T09:00:00+00:00"
              two_users) as [Hnew _].
  destruct (register_creates_user_with_default_categories toy_crypto
              (mkUserRegister "bob@example.com" "x" "Bobby") numbered_uuid
              "2024-03-01T09:00:00+00:00" two_users) as [_ [Hdup _]].
  split.
  - rewrite (proj1 (Hnew H1)). reflexivity.
  - apply Hdup. exists bob. split; [right; left; reflexivity|reflexivity].
Defined.

(** X17: after a registration under a new email, a login with the same
    email succeeds exactly when the password checks against the stored
    hash, and then answers with the registered user (same id, email and
    name, not Pro, no PIN); as the hash of a password checks against that
    password, the registered password logs in. A login under an email that
    no user has is answered 401. *)
Theorem login_after_register :
  forall (crypto crypto' : Crypto) (data : UserRegister) (uuid : nat -> string)
         (now password : string) (s : Accounts),
    (forall u, In u (users s) -> u_email u <> reg_email data) ->
    let s' := snd (register crypto data uuid now s) in
    let attempt := login crypto' (mkUserLogin (reg_email data) password) s' in
    (verify_password crypto' password
       (hash_password crypto (reg_password data)) = true ->
     attempt
     = (Ok (mkTokenResponse
              (create_token crypto' (uuid 0%nat) (reg_email data))
              (mkUserResponse (uuid 0%nat) (reg_email data) (reg_name data)
                 false None)), s'))
    /\ (verify_password crypto' password
          (hash_password crypto (reg_password data)) = false ->
        attempt = (HTTPException 401 "Invalid credentials", s'))
    /\ (forall email, email <> reg_email data ->
          (forall u, In u (users s) -> u_email u <> email) ->
          login crypto' (mkUserLogin email password) s'
          = (HTTPException 401 "Invalid credentials", s')).
Proof.
  intros crypto crypto' data uuid now password s Hfresh s' attempt.
  subst attempt s'. rewrite (register_fresh crypto data uuid now s Hfresh).
  cbn [snd]. unfold login, abind, find_one_user.
  cbn [users login_email login_password].
  split; [|split].
  - intro Hv. rewrite find_split.
    + cbn [u_password u_id u_email u_name u_is_pro u_pin]. rewrite Hv.
      reflexivity.
    + intros u Hu. apply String.eqb_neq, Hfresh, Hu.
    + apply String.eqb_refl.
  - intro Hv. rewrite find_split.
    + cbn [u_password]. rewrite Hv. reflexivity.
    + intros u Hu. apply String.eqb_neq, Hfresh, Hu.
    + apply String.eqb_refl.
  - intros email Hne Hother. rewrite find_none_iff; [reflexivity|].
    intros u Hu. apply String.eqb_neq. apply in_app_or in Hu as [Hu|[<-|[]]].
    + apply Hother, Hu.
    + cbn. apply not_eq_sym, Hne.
Qed.

Lemma login_after_register_example :
  (forall u, In u (users two_users) -> u_email u <> reg_email carol_registration)
  /\ verify_password toy_crypto "pw"
       (hash_password toy_crypto (reg_password carol_registration)) = true
  /\ fst (login toy_crypto (mkUserLogin "carol@example.com" "pw")
            (snd (register toy_crypto carol_registration numbered_uuid
                    "2024-03-01T09:00:00+00:00" two_users)))
     = Ok (mkTokenResponse "token:A-uuid"
             (mkUserResponse "A-uuid" "carol@example.com" "Carol" false None))
  /\ fst (login toy_crypto (mkUserLogin "carol@example.com" "guess")
            (snd (register toy_crypto carol_registration numbered_uuid
                    "2024-03-01T09:00:00+00:00" two_users)))
     = HTTPException 401 "Invalid credentials".
Proof.
  assert (H1 : forall u, In u (users two_users) ->
                         u_email u <> reg_email carol_registration).
  { intros u [<-|[<-|[]]]; discriminate. }
  split; [exact H1|]. split; [reflexivity|].
  destruct (login_after_register toy_crypto toy_crypto carol_registration
              numbered_uuid "2024-03-01T09:00:00+00:00" "pw" two_users H1)
    as [Hok _].
  destruct (login_after_register toy_crypto toy_crypto carol_registration
              numbered_uuid "2024-03-01T09:00:00+00:00" "guess" two_users H1)
    as [_ [Hbad _]].
  split.
  - exact (f_equal fst (Hok eq_refl)).
  - exact (f_equal fst (Hbad eq_refl)).
Defined.

(** ** The PIN *)

(** X18: after [update_pin] the user read for the next request carries the
    new PIN, and [verify_pin] accepts that PIN and refuses (401) every
    other one; no other user is changed; a user whose PIN was never set is
    refused whatever PIN is sent. *)
Theorem pin_is_verified_after_update :
  forall (pin : string) (user : User) (s : Accounts)
         (l1 l2 : list User) (u : User),
    users s = (l1 ++ u :: l2)%list ->
    u_id u = u_id user ->
    (forall y, In y l1 -> u_id y <> u_id user) ->
    let s' := mkAccounts (l1 ++ set_pin pin u :: l2) (categories s)
                (payment_transactions s) in
    update_pin pin user s = (Ok "PIN updated successfully", s')
    /\ get_current_user (u_id user) s' = (Ok (set_pin pin u), s')
    /\ verify_pin pin (set_pin pin u) s' = (Ok "PIN verified", s')
    /\ (forall other, other <> pin ->
          verify_pin other (set_pin pin u) s'
          = (HTTPException 401 "Invalid PIN", s'))
    /\ (u_pin u = None ->
        forall any, verify_pin any u s = (HTTPException 401 "Invalid PIN", s)).
Proof.
  intros pin user s l1 l2 u Hsplit Hid Hl1 s'.
  assert (Hq : forall y, In y l1 -> String.eqb (u_id y) (u_id user) = false)
    by (intros y Hy; apply String.eqb_neq, Hl1, Hy).
  assert (Hu : String.eqb (u_id u) (u_id user) = true)
    by (apply String.eqb_eq, Hid).
  split; [|split; [|split; [|split]]].
  - unfold update_pin, abind, update_one_user.
    rewrite Hsplit, (update_first_split _ _ l1 l2 u Hq Hu). reflexivity.
  - unfold get_current_user, abind, find_one_user. cbn [users s'].
    rewrite find_split; [reflexivity|exact Hq|exact Hu].
  - unfold verify_pin. cbn. rewrite String.eqb_refl. reflexivity.
  - intros other Hother. unfold verify_pin. cbn.
    apply not_eq_sym, String.eqb_neq in Hother. rewrite Hother. reflexivity.
  - intros Hnone any. unfold verify_pin. rewrite Hnone. reflexivity.
Qed.

Lemma pin_example :
  users two_users = ([alice] ++ bob :: [])%list
  /\ u_id bob = u_id bob
  /\ (forall y, In y [alice] -> u_id y <> u_id bob)
  /\ update_pin "4711" bob two_users
     = (Ok "PIN updated successfully",
        mkAccounts [alice; set_pin "4711" bob] [alice_food; alice_pets] [])
  /\ verify_pin "0000" (set_pin "4711" bob)
       (mkAccounts [alice; set_pin "4711" bob] [alice_food; alice_pets] [])
     = (HTTPException 401 "Invalid PIN",
        mkAccounts [alice; set_pin "4711" bob] [alice_food; alice_pets] []).
Proof.
  assert (H : forall y, In y [alice] -> u_id y <> u_id bob).
  { intros y [<-|[]]. discriminate. }
  split; [reflexivity|]. split; [reflexivity|]. split; [exact H|].
  destruct (pin_is_verified_after_update "4711" bob two_users [alice] [] bob
              eq_refl eq_refl H) as [Hup [_ [_ [Hbad _]]]].
  split; [exact Hup|]. apply Hbad. discriminate.
Defined.

(** ** Payments *)

(** X19: [check_payment_status] changes nothing unless the processor reports
    the session as paid; when it does, the calling user becomes Pro with
    [pro_since] set to the time of the request, whether or not a payment of
    that user for that session was ever recorded (the only test is the
    reported payment status), and among the recorded payments only the
    first one of that user and session is marked completed and paid. The
    amount is reported in units of 100 cents. *)
Theorem check_payment_status_upgrades_on_paid :
  forall (status : CheckoutStatus) (session_id user_id now : string)
         (s : Accounts),
    let answer := mkPaymentStatus (st_status status) (st_payment_status status)
                    (inject_Z (st_amount_total status) / 100)
                    (st_currency status) in
    (st_payment_status status <> "paid" ->
     check_payment_status status session_id user_id now s = (Ok answer, s))
    /\ (st_payment_status status = "paid" ->
        forall l1 u l2,
          users s = (l1 ++ u :: l2)%list ->
          u_id u = user_id ->
          (forall y, In y l1 -> u_id y <> user_id) ->
          check_payment_status status session_id user_id now s
          = (Ok answer,
             mkAccounts (l1 ++ set_pro (Some now) u :: l2) (categories s)
               (snd (update_first
                       (fun p => String.eqb (p_session_id p) session_id
                                 && String.eqb (p_user_id p) user_id)
                       set_paid (payment_transactions s))))
          /\ u_is_pro (set_pro (Some now) u) = true
          /\ u_pro_since (set_pro (Some now) u) = Some now
          /\ ((forall p, In p (payment_transactions s) ->
                         p_session_id p <> session_id) ->
              snd (check_payment_status status session_id user_id now s)
              = mkAccounts (l1 ++ set_pro (Some now) u :: l2) (categories s)
                  (payment_transactions s))).
Proof.
  intros status session_id user_id now s answer. split.
  - intro Hnot. unfold check_payment_status, abind.
    apply String.eqb_neq in Hnot. rewrite Hnot. reflexivity.
  - intros Hpaid l1 u l2 Hsplit Hid Hl1.
    assert (Hq : forall y, In y l1 -> String.eqb (u_id y) user_id = false)
      by (intros y Hy; apply String.eqb_neq, Hl1, Hy).
    assert (Hu : String.eqb (u_id u) user_id = true)
      by (apply String.eqb_eq, Hid).
    assert (Hrun : check_payment_status status session_id user_id now s
              = (Ok answer,
                 mkAccounts (l1 ++ set_pro (Some now) u :: l2) (categories s)
                   (snd (update_first
                           (fun p => String.eqb (p_session_id p) session_id
                                     && String.eqb (p_user_id p) user_id)
                           set_paid (payment_transactions s))))).
    { assert (E : String.eqb (st_payment_status status) "paid" = true)
        by (apply String.eqb_eq, Hpaid).
      unfold check_payment_status, abind, update_one_payment, update_one_user,
        aret.
      rewrite E. cbn [users categories payment_transactions fst snd].
      rewrite Hsplit, (update_first_split _ _ l1 l2 u Hq Hu). reflexivity. }
    split; [exact Hrun|]. split; [reflexivity|]. split; [reflexivity|].
    intro Hnone. rewrite Hrun. cbn [snd]. f_equal.
    rewrite update_first_none; [reflexivity|].
    intros p Hp. apply Hnone, String.eqb_neq in Hp. rewrite Hp. reflexivity.
Qed.

(** Bob becomes Pro on a paid session that was never recorded for him. *)
Lemma check_payment_status_example :
  st_payment_status paid_status = "paid"
  /\ users two_users = ([alice] ++ bob :: [])%list
  /\ (forall y, In y [alice] -> u_id y <> "u2")
  /\ (forall p, In p (payment_transactions two_users) ->
                p_session_id p <> "cs_unknown")
  /\ snd (check_payment_status paid_status "cs_unknown" "u2"
            "2024-03-02T10:00:00+00:00" two_users)
     = mkAccounts
         [alice; set_pro (Some "2024-03-02T10:00:00+00:00") bob]
         [alice_food; alice_pets] []
  /\ check_payment_status open_status "cs_unknown" "u2"
       "2024-03-02T10:00:00+00:00" two_users
     = (Ok (mkPaymentStatus "open" "unpaid" (inject_Z 999 / 100) "usd"),
        two_users).
Proof.
  assert (H : forall y, In y [alice] -> u_id y <> "u2").
  { intros y [<-|[]]. discriminate. }
  assert (Hp : forall p, In p (payment_transactions two_users) ->
                         p_session_id p <> "cs_unknown") by (intros p []).
  split; [reflexivity|]. split; [reflexivity|]. split; [exact H|].
  split; [exact Hp|].
  destruct (check_payment_status_upgrades_on_paid paid_status "cs_unknown" "u2"
              "2024-03-02T10:00:00+00:00" two_users) as [_ Hpaid].
  destruct (check_payment_status_upgrades_on_paid open_status "cs_unknown" "u2"
              "2024-03-02T10:00:00+00:00" two_users) as [Hopen _].
  split.
  - exact (proj2 (proj2 (proj2 (Hpaid eq_refl [alice] bob [] eq_refl eq_refl H)))
             Hp).
  - apply Hopen. discriminate.
Defined.

(** X20: a checkout records one pending payment for the user and the
    session; when the processor then notifies that session as paid, the
    webhook marks that payment completed and makes its user Pro, and no
    other user or payment changes (the session id being new when the
    checkout is made). A notification that is not paid, cannot be verified,
    or names a session without recorded payment changes no user. *)
Theorem webhook_upgrades_the_user_of_the_checkout :
  forall (session : CheckoutSession) (user_id uuid now : string)
         (s : Accounts) (l1 l2 : list User) (u : User),
    users s = (l1 ++ u :: l2)%list ->
    u_id u = user_id ->
    (forall y, In y l1 -> u_id y <> user_id) ->
    (forall p, In p (payment_transactions s) ->
               p_session_id p <> cs_session_id session) ->
    let payment := mkPayment uuid user_id (cs_session_id session) (999 # 100)
                     "usd" "pending" "initiated" now in
    let s1 := mkAccounts (users s) (categories s)
                (payment_transactions s ++ [payment]) in
    create_checkout session user_id uuid now s = (Ok session, s1)
    /\ stripe_webhook
         (Some (mkWebhookEvent "paid" (cs_session_id session))) s1
       = (Ok true,
          mkAccounts (l1 ++ set_pro None u :: l2) (categories s)
            (payment_transactions s ++ [set_paid payment]))
    /\ (forall event,
          ev_payment_status event <> "paid" ->
          stripe_webhook (Some event) s1 = (Ok true, s1))
    /\ stripe_webhook None s1 = (Ok false, s1)
    /\ (forall other_session,
          (forall p, In p (payment_transactions s1) ->
                     p_session_id p <> other_session) ->
          stripe_webhook (Some (mkWebhookEvent "paid" other_session)) s1
          = (Ok true, s1)).
Proof.
  intros session user_id uuid now s l1 l2 u Hsplit Hid Hl1 Hnew payment s1.
  assert (Hq : forall y, In y l1 -> String.eqb (u_id y) user_id = false)
    by (intros y Hy; apply String.eqb_neq, Hl1, Hy).
  assert (Hu : String.eqb (u_id u) user_id = true)
    by (apply String.eqb_eq, Hid).
  assert (Hp : forall p, In p (payment_transactions s) ->
             String.eqb (p_session_id p) (cs_session_id session) = false)
    by (intros p Hp; apply String.eqb_neq, Hnew, Hp).
  split; [|split; [|split; [|split]]].
  - destruct session. reflexivity.
  - unfold stripe_webhook, abind, update_one_payment, find_one_payment,
      update_one_user.
    cbn [ev_payment_status ev_session_id String.eqb Ascii.eqb Bool.eqb
           payment_transactions users categories s1].
    rewrite (update_first_split _ _ _ [] payment Hp)
      by (cbn; apply String.eqb_refl).
    cbn [fst snd payment_transactions users categories].
    rewrite (find_split _ _ [] (set_paid payment) Hp)
      by (cbn; apply String.eqb_refl).
    cbn [set_paid payment p_user_id].
    rewrite Hsplit, (update_first_split _ _ l1 l2 u Hq Hu). reflexivity.
  - intros event Hnot. unfold stripe_webhook, abind.
    apply String.eqb_neq in Hnot. rewrite Hnot. reflexivity.
  - reflexivity.
  - intros other Hother.
    assert (Ho : forall p, In p (payment_transactions s1) ->
               String.eqb (p_session_id p) other = false)
      by (intros p Hp'; apply String.eqb_neq, Hother, Hp').
    unfold stripe_webhook, abind, update_one_payment, find_one_payment.
    cbn [ev_payment_status ev_session_id String.eqb Ascii.eqb Bool.eqb].
    rewrite (update_first_none _ _ _ Ho).
    cbn [fst snd payment_transactions users categories].
    rewrite (find_none_iff _ _ Ho). reflexivity.
Qed.

Lemma webhook_example :
  users two_users = ([alice] ++ bob :: [])%list
  /\ (forall y, In y [alice] -> u_id y <> "u2")
  /\ (forall p, In p (payment_transactions two_users) ->
                p_session_id p <> cs_session_id bob_session)
  /\ stripe_webhook (Some (mkWebhookEvent "paid" "cs_1"))
       (snd (create_checkout bob_session "u2" "p1" "2024-03-02T10:00:00+00:00"
               two_users))
     = (Ok true,
        mkAccounts [alice; set_pro None bob] [alice_food; alice_pets]
          [mkPayment "p1" "u2" "cs_1" (999 # 100) "usd" "completed" "paid"
             "2024-03-02T10:00:00+00:00"]).
Proof.
  assert (H : forall y, In y [alice] -> u_id y <> "u2").
  { intros y [<-|[]]. discriminate. }
  assert (Hp : forall p, In p (payment_transactions two_users) ->
                         p_session_id p <> cs_session_id bob_session)
    by (intros p []).
  split; [reflexivity|]. split; [exact H|]. split; [exact Hp|].
  exact (proj1 (proj2 (webhook_upgrades_the_user_of_the_checkout bob_session
                         "u2" "p1" "2024-03-02T10:00:00+00:00" two_users
                         [alice] [] bob eq_refl eq_refl H Hp))).
Defined.

(** ** The AI insights *)

Lemma py_sum_cons (q : Q) (l : list Q) : py_sum (q :: l) == q + py_sum l.
Proof. unfold py_sum. simpl. rewrite fold_Qplus_acc. ring. Qed.

Lemma py_sum_ext {A : Type} (f g : A -> Q) (l : list A) :
  (forall x, In x l -> f x == g x) -> py_sum (map f l) == py_sum (map g l).
Proof.
  induction l as [|x l IH]; intro H; [reflexivity|].
  cbn [map]. rewrite !py_sum_cons, (H x (or_introl eq_refl)), IH;
    [reflexivity|].
  intros y Hy. apply H. right. exact Hy.
Qed.

Lemma category_add_keys (cat : string) (amount : Q) (d : list (string * Q)) :
  map fst (category_add cat amount d)
  = if existsb (String.eqb cat) (map fst d) then map fst d
    else (map fst d ++ [cat])%list.
Proof.
  induction d as [|[k v] d IH]; simpl; [reflexivity|].
  rewrite (String.eqb_sym cat k). destruct (String.eqb k cat); simpl;
    [reflexivity|].
  rewrite IH. destruct (existsb (String.eqb cat) (map fst d)); reflexivity.
Qed.

Lemma category_add_get (cat cat' : string) (amount : Q)
    (d : list (string * Q)) :
  category_get cat' (category_add cat amount d)
  == category_get cat' d + (if String.eqb cat cat' then amount else 0).
Proof.
  induction d as [|[k v] d IH]; simpl.
  - destruct (String.eqb cat cat'); ring.
  - destruct (String.eqb k cat) eqn:Ek; simpl.
    + apply String.eqb_eq in Ek. subst k.
      destruct (String.eqb cat cat'); ring.
    + destruct (String.eqb k cat') eqn:Ek'; [|exact IH].
      apply String.eqb_eq in Ek'. subst k. rewrite String.eqb_sym, Ek. ring.
Qed.

Lemma category_get_In (d : list (string * Q)) (cat : string) (v : Q) :
  NoDup (map fst d) -> In (cat, v) d -> category_get cat d = v.
Proof.
  induction d as [|[k x] d IH]; simpl; intros Hnd Hin; [contradiction|].
  inversion Hnd as [|k' ks Hk Hl]; subst.
  destruct Hin as [Hin|Hin].
  - inversion Hin; subst. rewrite String.eqb_refl. reflexivity.
  - destruct (String.eqb k cat) eqn:E; [|exact (IH Hl Hin)].
    apply String.eqb_eq in E. subst k. exfalso. apply Hk.
    change cat with (fst (cat, v)). apply in_map, Hin.
Qed.

Lemma totals_step_categories
    (acc : list (string * Q) * list (string * MonthTotals)) (t : Transaction) :
  fst (totals_step acc t)
  = if is_expense t then category_add (t_category t) (t_amount t) (fst acc)
    else fst acc.
Proof.
  unfold totals_step, is_expense. destruct (t_type t); reflexivity.
Qed.

(** The dict of category totals after the loop: its keys are the categories
    of the expenses in order of first appearance, its values their sums. *)
Lemma category_totals_closed_form (T : list Transaction) :
  let totals := fst (fold_left totals_step T ([], [])) in
  map fst totals = distinct String.eqb (map t_category (filter is_expense T))
  /\ forall cat, category_get cat totals == sum_amounts (category_expenses cat T).
Proof.
  cbv zeta. induction T as [|t T IH] using rev_ind.
  - split; [reflexivity|]. intro cat. reflexivity.
  - destruct IH as [Hkeys Hvals].
    rewrite fold_left_app. cbn [fold_left]. rewrite totals_step_categories.
    unfold category_expenses. rewrite !filter_app. cbn [filter].
    destruct (is_expense t) eqn:Eexp; cbn [andb].
    + split.
      * rewrite category_add_keys, map_app. cbn [map].
        rewrite distinct_snoc, Hkeys.
        assert (Hex : existsb (String.eqb (t_category t))
                        (distinct String.eqb
                           (map t_category (filter is_expense T)))
                      = existsb (String.eqb (t_category t))
                          (map t_category (filter is_expense T))).
        { apply eq_true_iff_eq. rewrite !existsb_eqb_In.
          apply (distinct_In String.eqb String.eqb_eq). }
        rewrite Hex. reflexivity.
      * intro cat. rewrite category_add_get, Hvals. unfold category_expenses.
        rewrite filter_app. cbn [filter]. rewrite Eexp. cbn [andb].
        destruct (String.eqb (t_category t) cat) eqn:E.
        -- rewrite sum_amounts_snoc. reflexivity.
        -- rewrite app_nil_r. ring.
    + split.
      * rewrite app_nil_r. exact Hkeys.
      * intro cat. unfold category_expenses. rewrite filter_app.
        cbn [filter]. rewrite Eexp. cbn [andb]. rewrite app_nil_r.
        apply Hvals.
Qed.


Lemma by_minus_amount_total (a b : string * Q) :
  by_minus_amount a b = false -> by_minus_amount b a = true.
Proof.
  unfold by_minus_amount. intro H. apply Qle_bool_iff.
  destruct (Qlt_le_dec (- snd a) (- snd b)) as [Hlt|Hle].
  - apply Qlt_le_weak in Hlt. apply Qle_bool_iff in Hlt. rewrite Hlt in H.
    discriminate H.
  - exact Hle.
Qed.

Lemma by_minus_amount_trans (a b c : string * Q) :
  by_minus_amount a b = true -> by_minus_amount b c = true ->
  by_minus_amount a c = true.
Proof.
  unfold by_minus_amount. rewrite !Qle_bool_iff. apply Qle_trans.
Qed.

(** The three outcomes of [get_ai_insights] for a Pro user once the start
    date is known: the empty answer, the division by zero, the figures. *)
Lemma get_ai_insights_cases (months : Z) (user_id : string)
    (clock : Z -> option string) (start_date : string) (s : Store) :
  clock (months * 30)%Z = Some start_date ->
  let T := insight_transactions user_id start_date s in
  let ct := fst (fold_left totals_step T ([], [])) in
  (T = []
   /\ get_ai_insights months true user_id clock s
      = (Ok (mkInsightFigures [] [] []), s))
  \/ (ct <> [] /\ months = 0%Z
      /\ get_ai_insights months true user_id clock s
         = (HTTPException 500 "Internal Server Error", s))
  \/ (T <> [] /\ (ct = [] \/ months <> 0%Z)
      /\ get_ai_insights months true user_id clock s
         = (Ok (insight_figures months ct), s)).
Proof.
  intro Hclock. cbv zeta. unfold get_ai_insights. cbn [negb]. rewrite Hclock.
  unfold bind, find_transactions.
  fold (insight_transactions user_id start_date s).
  destruct (insight_transactions user_id start_date s) as [|t T];
    [left; split; reflexivity|].
  right.
  destruct (fst (fold_left totals_step (t :: T) ([], []))) as [|c cs] eqn:Ec.
  - right. split; [discriminate|]. split; [left; reflexivity|reflexivity].
  - destruct (months =? 0)%Z eqn:Em.
    + left. apply Z.eqb_eq in Em. split; [discriminate|].
      split; [exact Em|reflexivity].
    + right. apply Z.eqb_neq in Em. split; [discriminate|].
      split; [right; exact Em|reflexivity].
Qed.





(** X22: in an answer of [get_ai_insights], the spending patterns are at
    most five categories, no category twice, largest amount first; each is a
    category of an expense read, with the sum of the expenses of that
    category as its amount and, as its percentage, that amount over the sum
    of the category totals times 100 (0 when that sum is not positive); a
    category left out has a total no larger than any shown.  The predicted
    expenses list every expense category once, in order of first
    appearance, each with its total divided by [months] and raised by 5 per
    cent; the budget recommendations are the first three of these
    categories, each with nine tenths of its total. *)
Theorem spending_patterns_are_top_categories :
  forall (months : Z) (is_pro : bool) (user_id : string)
         (clock : Z -> option string) (start_date : string)
         (s s' : Store) (f : InsightFigures),
    clock (months * 30)%Z = Some start_date ->
    get_ai_insights months is_pro user_id clock s = (Ok f, s') ->
    let T := insight_transactions user_id start_date s in
    let categories :=
      distinct String.eqb (map t_category (filter is_expense T)) in
    let total cat := sum_amounts (category_expenses cat T) in
    let E := py_sum (map total categories) in
    (List.length (spending_patterns f) <= 5)%nat
    /\ NoDup (map sp_category (spending_patterns f))
    /\ StronglySorted (fun a b => sp_amount b <= sp_amount a)
         (spending_patterns f)
    /\ (forall p, In p (spending_patterns f) ->
          (exists t, In t T /\ t_type t = expense
                     /\ t_category t = sp_category p)
          /\ sp_amount p == total (sp_category p)
          /\ (0 < E -> sp_percentage p == sp_amount p / E * 100)
          /\ (~ 0 < E -> sp_percentage p == 0))
    /\ (forall t, In t T -> t_type t = expense ->
          In (t_category t) (map sp_category (spending_patterns f))
          \/ (List.length (spending_patterns f) = 5%nat
              /\ forall p, In p (spending_patterns f) ->
                           total (t_category t) <= sp_amount p))
    /\ map fst (predicted_expenses f) = categories
    /\ (forall c v, In (c, v) (predicted_expenses f) ->
          v == total c / inject_Z months * (105 # 100))
    /\ map fst (budget_recommendations f) = firstn 3 categories
    /\ (forall c v, In (c, v) (budget_recommendations f) ->
          v == total c * (9 # 10)).
Proof.
  intros months is_pro user_id clock start_date s s' f Hclock Hf
    T categories total E.
  assert (Hpro : is_pro = true).
  { destruct is_pro; [reflexivity|]. discriminate Hf. }
  subst is_pro.
  destruct (get_ai_insights_cases months user_id clock start_date s Hclock)
    as [[HT H]|[[_ [_ H]]|[_ [_ H]]]];
    rewrite H in Hf; [|discriminate Hf|]; injection Hf as <- _.
  { cbn [spending_patterns predicted_expenses budget_recommendations
         map List.length firstn].
    subst categories. fold T in HT. rewrite HT. cbn [filter map distinct firstn].
    split; [lia|]. split; [constructor|]. split; [constructor|].
    split; [intros p []|]. split; [intros t []|].
    split; [reflexivity|]. split; [intros c v []|].
    split; [reflexivity|intros c v []]. }
  unfold insight_figures.
  cbn [spending_patterns predicted_expenses budget_recommendations].
  destruct (category_totals_closed_form T) as [Hkeys Hvals].
  cbv zeta in Hkeys, Hvals. fold T. fold categories in Hkeys.
  set (ct := fst (fold_left totals_step T ([], []))) in *.
  set (te := py_sum (map snd ct)).
  assert (Hnd : NoDup (map fst ct))
    by (rewrite Hkeys; apply distinct_NoDup, String.eqb_eq).
  assert (Hin : forall c v, In (c, v) ct ->
            (exists t, In t T /\ t_type t = expense /\ t_category t = c)
            /\ v == total c).
  { intros c v Hc. split.
    - assert (Hk : In c (map fst ct))
        by (change c with (fst (c, v)); apply in_map, Hc).
      rewrite Hkeys in Hk.
      apply (proj1 (distinct_In String.eqb String.eqb_eq _ _)) in Hk.
      apply in_map_iff in Hk as [t [Hcat Ht]].
      apply filter_In in Ht as [Ht Hexp]. exists t. split; [exact Ht|].
      split; [|exact Hcat]. unfold is_expense in Hexp.
      destruct (t_type t); [discriminate Hexp|reflexivity].
    - rewrite <- (category_get_In ct c v Hnd Hc). apply Hvals. }
  assert (HE : te == E).
  { unfold te, E. rewrite <- Hkeys, map_map. apply py_sum_ext.
    intros [c v] Hc. cbn [fst snd]. apply (Hin c v Hc). }
  set (sorted := sort_by by_minus_amount ct).
  assert (Hsorted : StronglySorted (fun a b => snd b <= snd a) sorted).
  { apply StronglySorted_weaken with (R := fun a b => by_minus_amount a b = true).
    - intros a b H0. unfold by_minus_amount in H0. apply Qle_bool_iff in H0.
      lra.
    - apply sort_by_sorted;
        [apply by_minus_amount_total|apply by_minus_amount_trans]. }
  split; [|split; [|split; [|split; [|split; [|split; [|split; [|split]]]]]]].
  - rewrite List.length_map. apply firstn_le_length.
  - rewrite map_map. cbn [sp_category]. rewrite <- firstn_map.
    assert (Hnd' : NoDup (map fst sorted)).
    { eapply Permutation_NoDup; [apply Permutation_map, sort_by_perm|exact Hnd]. }
    rewrite <- (firstn_skipn 5 (map fst sorted)) in Hnd'.
    apply NoDup_app_remove_r in Hnd'. exact Hnd'.
  - apply StronglySorted_map with (R := fun a b => sp_amount b <= sp_amount a).
    cbn [sp_amount]. apply StronglySorted_firstn, Hsorted.
  - intros p Hp. apply in_map_iff in Hp as [[c v] [<- Hc]].
    apply In_firstn in Hc. apply sort_by_In in Hc.
    cbn [sp_category sp_amount sp_percentage fst snd].
    destruct (Hin c v Hc) as [Hex Hv]. split; [exact Hex|]. split; [exact Hv|].
    destruct (Qlt_le_dec 0 te) as [Hpos|Hneg]; split; intro H0.
    + rewrite HE. reflexivity.
    + exfalso. apply H0. rewrite <- HE. exact Hpos.
    + exfalso. rewrite <- HE in H0. exact (Qlt_not_le _ _ H0 Hneg).
    + reflexivity.
  - intros t Ht Hexp.
    assert (Hk : In (t_category t) (map fst ct)).
    { rewrite Hkeys. apply (distinct_In String.eqb String.eqb_eq).
      apply in_map, filter_In. split; [exact Ht|].
      unfold is_expense. rewrite Hexp. reflexivity. }
    apply in_map_iff in Hk as [[c v] [Hc Hcv]]. cbn in Hc. subst c.
    assert (Hs : In (t_category t, v) sorted) by (apply sort_by_In, Hcv).
    destruct (firstn_sorted_top _ 5 sorted Hsorted _ Hs) as [H0|[Hlen Htop]].
    + left. rewrite map_map. cbn [sp_category].
      change (t_category t) with (fst (t_category t, v)). apply in_map, H0.
    + right. rewrite List.length_map. split; [exact Hlen|].
      intros p Hp. apply in_map_iff in Hp as [x [<- Hx]]. cbn [sp_amount].
      destruct (Hin _ _ Hcv) as [_ Hv]. rewrite <- Hv. exact (Htop x Hx).
  - rewrite map_map. cbn [fst]. exact Hkeys.
  - intros c v Hcv. apply in_map_iff in Hcv as [[c' v'] [Heq Hc]].
    injection Heq as <- <-. destruct (Hin c' v' Hc) as [_ Hv].
    rewrite Hv. reflexivity.
  - rewrite map_map. cbn [fst]. rewrite <- Hkeys, firstn_map. reflexivity.
  - intros c v Hcv. apply in_map_iff in Hcv as [[c' v'] [Heq Hc]].
    injection Heq as <- <-. apply In_firstn in Hc.
    destruct (Hin c' v' Hc) as [_ Hv]. rewrite Hv. reflexivity.
Qed.

(** Three expenses in two categories, read on 2024-03-21 for three months:
    Rent comes before Food in the patterns, Food before Rent in the
    recommendations. *)
Lemma spending_patterns_example :
  days_ago march_21 (3 * 30) = Some "2023-12-22"
  /\ exists f,
       get_ai_insights 3 true "user" (days_ago march_21) spender_store
       = (Ok f, spender_store)
       /\ map sp_category (spending_patterns f) = ["Rent"; "Food"]
       /\ map fst (budget_recommendations f) = ["Food"; "Rent"]
       /\ (List.length (spending_patterns f) <= 5)%nat.
Proof.
  assert (Hclock : days_ago march_21 (3 * 30) = Some "2023-12-22")
    by reflexivity.
  split; [exact Hclock|].
  destruct (get_ai_insights 3 true "user" (days_ago march_21) spender_store)
    as [r s0] eqn:H.
  pose proof H as H'. vm_compute in H'. injection H' as Hr Hs.
  subst r s0. eexists. split; [reflexivity|].
  split; [reflexivity|]. split; [reflexivity|].
  exact (proj1 (spending_patterns_are_top_categories _ _ _ _ _ _ _ _
                  Hclock H)).
Defined.



(** ** The dashboard against the budgets *)

Lemma sum_amounts_filter_le (p q : Transaction -> bool)
    (docs : list Transaction) :
  (forall t, In t docs -> 0 <= t_amount t) ->
  (forall t, p t = true -> q t = true) ->
  sum_amounts (filter p docs) <= sum_amounts (filter q docs).
Proof.
  intros Hpos Hpq. induction docs as [|t docs IH]; [apply Qle_refl|].
  assert (IH' : sum_amounts (filter p docs) <= sum_amounts (filter q docs))
    by (apply IH; intros t' Ht'; apply Hpos; right; exact Ht').
  assert (Ht : 0 <= t_amount t) by (apply Hpos; left; reflexivity).
  cbn [filter]. destruct (p t) eqn:Ep.
  - rewrite (Hpq t Ep), !sum_amounts_cons. lra.
  - destruct (q t); [rewrite sum_amounts_cons; lra|exact IH'].
Qed.

(** X24: for a month free of metacharacters and a ledger without negative
    amounts, the amount spent on any one category in the month is at most
    the total expenses that the dashboard shows for the month. *)
Theorem spent_is_at_most_total_expenses :
  forall (user_id category month : string) (clock : Clock) (s : Store),
    literal_string month = true ->
    month <> EmptyString ->
    (forall t, In t (transactions s) -> 0 <= t_amount t) ->
    exists spent d,
      calculate_spent user_id category month s = (Ok spent, s)
      /\ get_dashboard (Some month) user_id clock s = (Ok d, s)
      /\ spent <= total_expenses d.
Proof.
  intros user_id category month clock s Hlit Hne Hpos.
  pose proof (get_dashboard_run (Some month) user_id clock s) as Hrun.
  cbv zeta in Hrun. rewrite (or_default_given month _ Hne) in Hrun.
  rewrite (regex_compile_literal month Hlit) in Hrun.
  eexists. eexists. split; [apply calculate_spent_literal, Hlit|].
  split; [exact Hrun|]. cbn [total_expenses]. unfold spec_spent.
  apply sum_amounts_filter_le; [exact Hpos|].
  intros t Ht. unfold spent_filter in Ht.
  apply andb_prop in Ht as [Ht Hp]. apply andb_prop in Ht as [Ht _].
  apply andb_prop in Ht as [Hu He]. rewrite Hu, He.
  unfold regex_exec. simpl. rewrite match_here_literal. exact Hp.
Qed.

Lemma spent_is_at_most_total_expenses_example :
  literal_string "2024-03" = true
  /\ "2024-03" <> EmptyString
  /\ (forall t, In t (transactions scenario_store) -> 0 <= t_amount t)
  /\ exists spent d,
       calculate_spent "user" "Food" "2024-03" scenario_store
       = (Ok spent, scenario_store)
       /\ get_dashboard (Some "2024-03") "user" fixed_clock scenario_store
          = (Ok d, scenario_store)
       /\ spent <= total_expenses d.
Proof.
  assert (H : forall t, In t (transactions scenario_store) -> 0 <= t_amount t).
  { intros t [<-|[<-|[<-|[]]]]; discriminate. }
  assert (Hne : "2024-03" <> EmptyString) by discriminate.
  split; [reflexivity|]. split; [exact Hne|]. split; [exact H|].
  exact (spent_is_at_most_total_expenses "user" "Food" "2024-03" fixed_clock
           scenario_store eq_refl Hne H).
Defined.

(** X25: for a month free of metacharacters, while the user has at most 100
    budgets for it, the total budget of the dashboard is the sum of the
    amounts of the budgets that [get_budgets] lists for that month. *)
Theorem dashboard_total_budget_is_sum_of_listed :
  forall (user_id month : string) (clock : Clock) (s : Store),
    literal_string month = true ->
    month <> EmptyString ->
    (List.length
       (filter (fun b => String.eqb (b_user_id b) user_id
                         && String.eqb (b_month b) month) (budgets s))
     <= 100)%nat ->
    exists l d,
      get_budgets (Some month) user_id s = (Ok l, s)
      /\ get_dashboard (Some month) user_id clock s = (Ok d, s)
      /\ total_budget d = sum_budgets (map br_budget l).
Proof.
  intros user_id month clock s Hlit Hne Hlen.
  pose proof (get_dashboard_run (Some month) user_id clock s) as Hrun.
  cbv zeta in Hrun. rewrite (or_default_given month _ Hne) in Hrun.
  rewrite (regex_compile_literal month Hlit) in Hrun.
  assert (Htruthy : truthy (Some month) = Some month)
    by (destruct month; [congruence|reflexivity]).
  assert (Hlisted : listed_budgets (Some month) user_id s
                    = filter (fun b => String.eqb (b_user_id b) user_id
                                       && String.eqb (b_month b) month)
                        (budgets s)).
  { unfold listed_budgets, field_is. rewrite Htruthy.
    apply firstn_all2, Hlen. }
  assert (Hmonths : forall b, In b (listed_budgets (Some month) user_id s) ->
                              literal_string (b_month b) = true).
  { intros b Hb. rewrite Hlisted in Hb. apply filter_In in Hb as [_ Hb].
    apply andb_prop in Hb as [_ Hm]. apply String.eqb_eq in Hm.
    rewrite Hm. exact Hlit. }
  eexists. eexists. split.
  - unfold get_budgets, bind, find_budgets.
    apply (budgets_with_spent_literal user_id _ s Hmonths).
  - split; [exact Hrun|]. cbn [total_budget].
    rewrite map_map. cbn [with_spent br_budget]. rewrite map_id, Hlisted.
    reflexivity.
Qed.

Lemma dashboard_total_budget_example :
  literal_string "2024-03" = true
  /\ "2024-03" <> EmptyString
  /\ (List.length
        (filter (fun b => String.eqb (b_user_id b) "user"
                          && String.eqb (b_month b) "2024-03")
           (budgets shared_store)) <= 100)%nat
  /\ exists l d,
       get_budgets (Some "2024-03") "user" shared_store = (Ok l, shared_store)
       /\ get_dashboard (Some "2024-03") "user" fixed_clock shared_store
          = (Ok d, shared_store)
       /\ total_budget d = sum_budgets (map br_budget l).
Proof.
  assert (Hne : "2024-03" <> EmptyString) by discriminate.
  assert (Hlen : (List.length
                    (filter (fun b => String.eqb (b_user_id b) "user"
                                      && String.eqb (b_month b) "2024-03")
                       (budgets shared_store)) <= 100)%nat) by (cbn; lia).
  split; [reflexivity|]. split; [exact Hne|]. split; [exact Hlen|].
  exact (dashboard_total_budget_is_sum_of_listed "user" "2024-03" fixed_clock
           shared_store eq_refl Hne Hlen).
Defined.
